(** * Log File Analyzer: the ingestion core of [log_analyzer.py]

    A shallow embedding of the classes [LogEntry], [LogParser] and
    [LogAnalyzer], followed by the properties of the specification that
    are stated about them.

    Modelling conventions.
    - Text is a Rocq [string].  The character classes of the regular
      expressions ([\d], [\w], [\s]), [str.strip], [str.upper],
      [str.lower] and [re.IGNORECASE] are modelled on 7-bit ASCII text,
      where they are Python's; on other text Python also knows blanks,
      digits and letters that this file does not.  Where a theorem
      states the restriction, it is the hypothesis [Str.is_ascii].
    - Python [int] is [Z]; [len] and counters are [nat].  [int()] on a
      string refuses more than 4300 digits, the default limit of the
      interpreter.  A [float] is an IEEE 754 binary64 number
      ([Float.float]); the quotient of two [int]s and the product of two
      floats are rounded as Python rounds them.
    - An exception is a value of [exn]; a call that may raise returns a
      [res].  Running out of memory is not modelled.
    - [datetime.now()] is an explicit argument; so are the file system
      that [load_file] reads and the disk that [export_results] writes,
      with the errors they may answer.
    - Library calls ([re], [datetime.strptime], [datetime.fromisoformat])
      are modelled after CPython 3.11, in the modules [Re] and [DT]. *)

From Stdlib Require Import Bool Arith ZArith NArith Ascii String List Lia
  DecimalString Sorted SpecFloat.
Import ListNotations.

Local Open Scope list_scope.
Local Open Scope string_scope.

(** ** Exceptions *)

Inductive exn : Type :=
| ValueError
| TypeError
| ZeroDivisionError
| FileNotFoundError
| PermissionError
| IsADirectoryError
| OSError.

Inductive res (A : Type) : Type :=
| Ok (a : A)
| Raise (e : exn).

Arguments Ok {A} a.
Arguments Raise {A} e.

Definition bind {A B : Type} (m : res A) (f : A -> res B) : res B :=
  match m with
  | Ok a => f a
  | Raise e => Raise e
  end.

Notation "x <- m ;; k" := (bind m (fun x => k))
  (at level 61, m at next level, right associativity).

(** ** Characters and strings *)

Module Str.

Definition code (c : ascii) : N := N_of_ascii c.

Definition between (lo hi : N) (c : ascii) : bool :=
  (lo <=? code c)%N && (code c <=? hi)%N.

Definition is_digit (c : ascii) : bool := between 48 57 c.
Definition is_upper (c : ascii) : bool := between 65 90 c.
Definition is_lower (c : ascii) : bool := between 97 122 c.

(** [\w] on ASCII text: letters, digits and the underscore. *)
Definition is_word (c : ascii) : bool :=
  is_digit c || is_upper c || is_lower c || (code c =? 95)%N.

(** [str.isspace] and [\s] on ASCII text: TAB, LF, VT, FF, CR, the four
    separators 0x1c..0x1f and the space. *)
Definition is_space (c : ascii) : bool :=
  between 9 13 c || between 28 31 c || (code c =? 32)%N.

Definition upper_char (c : ascii) : ascii :=
  if is_lower c then ascii_of_N (code c - 32) else c.

Definition lower_char (c : ascii) : ascii :=
  if is_upper c then ascii_of_N (code c + 32) else c.

Fixpoint map (f : ascii -> ascii) (s : string) : string :=
  match s with
  | EmptyString => EmptyString
  | String c s' => String (f c) (map f s')
  end.

Definition upper : string -> string := map upper_char.
Definition lower : string -> string := map lower_char.

Fixpoint forallb (p : ascii -> bool) (s : string) : bool :=
  match s with
  | EmptyString => true
  | String c s' => p c && forallb p s'
  end.

Fixpoint lstrip (s : string) : string :=
  match s with
  | EmptyString => EmptyString
  | String c s' => if is_space c then lstrip s' else s
  end.

Fixpoint rstrip (s : string) : string :=
  match s with
  | EmptyString => EmptyString
  | String c s' =>
      match rstrip s' with
      | EmptyString => if is_space c then EmptyString else String c EmptyString
      | t => String c t
      end
  end.

Definition strip (s : string) : string := rstrip (lstrip s).

Definition startswith (s p : string) : bool := String.prefix p s.

Fixpoint drop (n : nat) (s : string) : string :=
  match n, s with
  | O, _ => s
  | S n', String _ s' => drop n' s'
  | S _, EmptyString => EmptyString
  end.

Fixpoint take (n : nat) (s : string) : string :=
  match n, s with
  | S n', String c s' => String c (take n' s')
  | _, _ => EmptyString
  end.

Definition endswith (s p : string) : bool :=
  (String.length p <=? String.length s)%nat
  && String.eqb (drop (String.length s - String.length p) s) p.

(** [needle in hay] *)
Fixpoint contains (hay needle : string) : bool :=
  String.prefix needle hay
  || match hay with
     | EmptyString => false
     | String _ hay' => contains hay' needle
     end.

Definition has_char (c : ascii) (s : string) : bool :=
  negb (forallb (fun x => negb (Ascii.eqb x c)) s).

(** [s.replace(c, t)] for a one-character pattern [c] *)
Fixpoint replace_char (c : ascii) (t : string) (s : string) : string :=
  match s with
  | EmptyString => EmptyString
  | String x s' =>
      if Ascii.eqb x c then t ++ replace_char c t s'
      else String x (replace_char c t s')
  end.

(** the character at index [i], NUL past the end (a C string) *)
Definition at_ (s : string) (i : nat) : ascii :=
  match String.get i s with
  | Some c => c
  | None => zero
  end.

Definition digit_val (c : ascii) : Z := Z.of_N (code c) - 48.

(** value of a string of decimal digits *)
Definition digits_val (s : string) : Z :=
  (fix go (acc : Z) (s : string) : Z :=
     match s with
     | EmptyString => acc
     | String c s' => go (10 * acc + digit_val c)%Z s'
     end) 0%Z s.

(** CPython 3.11 converts at most [sys.get_int_max_str_digits()] digits,
    4300 unless the interpreter is configured otherwise; leading zeros
    count. *)
Definition too_long (s : string) : bool :=
  (4300 <? N.of_nat (String.length s))%N.

(** [int(s)] on a string of decimal digits; anything else raises
    [ValueError], and so does a string of more digits than the limit.
    (Signs, surrounding blanks and underscores, which [int] also accepts,
    never reach it from [\d+].) *)
Definition int (s : string) : res Z :=
  match s with
  | EmptyString => Raise ValueError
  | _ =>
      if forallb is_digit s then
        if too_long s then Raise ValueError else Ok (digits_val s)
      else Raise ValueError
  end.

Definition dquote : string := String (ascii_of_N 34) EmptyString.

(** text of 7-bit ASCII characters: the text on which the character
    classes and the case mappings of this module are Python's *)
Definition is_ascii (s : string) : bool :=
  forallb (fun c => (code c <? 128)%N) s.

End Str.

(** ** Regular expressions: the part of [re] the analyzer uses

    A backtracking matcher with Python's priorities: alternatives are tried
    left to right, [?], [*] and [+] are greedy and give characters back one
    at a time, and the first way to reach the end of the pattern wins.  The
    source applies [*] and [+] to single-character classes only, so [Star]
    takes a class. *)

Module Re.

Inductive regex : Type :=
| Eps
| Cls (p : ascii -> bool)
| Seq (r1 r2 : regex)
| Alt (r1 r2 : regex)
| Opt (r : regex)
| Star (p : ascii -> bool)
| Group (name : string) (r : regex).

(** the groups that took part in a match, most recent first *)
Definition captures : Type := list (string * string).

Fixpoint get (g : captures) (name : string) : option string :=
  match g with
  | [] => None
  | (n, v) :: g' => if String.eqb n name then Some v else get g' name
  end.

(** [groups.get(name, default)].  (For a group of the pattern that took no
    part in the match Python answers [None]; the only optional group of the
    analyzer's patterns, [pid], is never read.) *)
Definition get_default (g : captures) (name default : string) : string :=
  match get g name with
  | Some v => v
  | None => default
  end.

(** the text between the start [s] of a match and what is left, [rest] *)
Definition consumed (s rest : string) : string :=
  Str.take (String.length s - String.length rest) s.

Section Matcher.
Context {A : Type}.

Fixpoint star (p : ascii -> bool) (k : string -> option A) (s : string)
  : option A :=
  match s with
  | String c s' =>
      if p c then
        match star p k s' with
        | Some x => Some x
        | None => k s
        end
      else k s
  | EmptyString => k s
  end.

Fixpoint run (r : regex) (s : string) (g : captures)
    (k : string -> captures -> option A) : option A :=
  match r with
  | Eps => k s g
  | Cls p =>
      match s with
      | String c s' => if p c then k s' g else None
      | EmptyString => None
      end
  | Seq r1 r2 => run r1 s g (fun s' g' => run r2 s' g' k)
  | Alt r1 r2 =>
      match run r1 s g k with
      | Some x => Some x
      | None => run r2 s g k
      end
  | Opt r1 =>
      match run r1 s g k with
      | Some x => Some x
      | None => k s g
      end
  | Star p => star p (fun s' => k s' g) s
  | Group name r1 =>
      run r1 s g (fun s' g' => k s' ((name, consumed s s') :: g'))
  end.

End Matcher.

(** A match object: what follows the match, and the groups. *)
Record match_obj : Type := MatchObj { rest : string; groups : captures }.

(** [pattern.match(s)]: anchored at the start, not at the end *)
Definition match_ (r : regex) (s : string) : option match_obj :=
  run r s [] (fun s' g => Some (MatchObj s' g)).

(** [pattern.search(s)]: the leftmost position with a match *)
Fixpoint search (r : regex) (s : string) : option match_obj :=
  match match_ r s with
  | Some m => Some m
  | None =>
      match s with
      | EmptyString => None
      | String _ s' => search r s'
      end
  end.

(** *** Pattern syntax *)

Definition chr (c : ascii) : regex := Cls (Ascii.eqb c).

(** a literal character under [re.IGNORECASE] *)
Definition chr_i (c : ascii) : regex :=
  Cls (fun x => Ascii.eqb (Str.lower_char x) (Str.lower_char c)).

Fixpoint lit (s : string) : regex :=
  match s with
  | EmptyString => Eps
  | String c s' => Seq (chr c) (lit s')
  end.

Fixpoint lit_i (s : string) : regex :=
  match s with
  | EmptyString => Eps
  | String c s' => Seq (chr_i c) (lit_i s')
  end.

Definition plus (p : ascii -> bool) : regex := Seq (Cls p) (Star p).

Fixpoint seqs (rs : list regex) : regex :=
  match rs with
  | [] => Eps
  | [r] => r
  | r :: rs' => Seq r (seqs rs')
  end.

Fixpoint alts (r : regex) (rs : list regex) : regex :=
  match rs with
  | [] => r
  | r' :: rs' => Alt r (alts r' rs')
  end.

(** [p{n}] *)
Fixpoint times (n : nat) (p : ascii -> bool) : regex :=
  match n with
  | O => Eps
  | S O => Cls p
  | S n' => Seq (Cls p) (times n' p)
  end.

(** [p{0,n}], greedy *)
Fixpoint upto (n : nat) (p : ascii -> bool) : regex :=
  match n with
  | O => Eps
  | S n' => Opt (Seq (Cls p) (upto n' p))
  end.

Definition digit : ascii -> bool := Str.is_digit.
Definition word : ascii -> bool := Str.is_word.
Definition space : ascii -> bool := Str.is_space.
Definition nonspace (c : ascii) : bool := negb (Str.is_space c).
(** [.] without [re.DOTALL] *)
Definition dot (c : ascii) : bool := negb (Ascii.eqb c (ascii_of_N 10)).
Definition none_of (s : string) (c : ascii) : bool := negb (Str.has_char c s).
Definition one_of (s : string) (c : ascii) : bool := Str.has_char c s.

(** [re.compile(re.escape(kw), re.IGNORECASE)] *)
Definition escape_i (kw : string) : regex := lit_i kw.

End Re.

(** ** Dates and times: the part of [datetime] the analyzer uses *)

Module DT.

Local Open Scope Z_scope.

(** [tzinfo] is [None] for a naive value and the UTC offset, in
    microseconds, of a fixed-offset [timezone] for an aware one. *)
Record datetime : Type := Datetime {
  year : Z;
  month : Z;
  day : Z;
  hour : Z;
  minute : Z;
  second : Z;
  microsecond : Z;
  tzinfo : option Z
}.

Definition is_leap (y : Z) : bool :=
  (y mod 4 =? 0) && (negb (y mod 100 =? 0) || (y mod 400 =? 0)).

Definition days_before_month_tbl : list Z :=
  [0; 0; 31; 59; 90; 120; 151; 181; 212; 243; 273; 304; 334].

Definition days_in_month_tbl : list Z :=
  [0; 31; 28; 31; 30; 31; 30; 31; 31; 30; 31; 30; 31].

Definition days_in_month (y m : Z) : Z :=
  if (m =? 2) && is_leap y then 29
  else nth (Z.to_nat m) days_in_month_tbl 0.

Definition days_before_month (y m : Z) : Z :=
  nth (Z.to_nat m) days_before_month_tbl 0
  + (if (2 <? m) && is_leap y then 1 else 0).

(** C integer division and remainder truncate towards zero. *)
Definition days_before_year (y : Z) : Z :=
  let y1 := y - 1 in
  y1 * 365 + Z.quot y1 4 - Z.quot y1 100 + Z.quot y1 400.

Definition ymd_to_ord (y m d : Z) : Z :=
  days_before_year y + days_before_month y m + d.

Definition weekday (y m d : Z) : Z := Z.rem (ymd_to_ord y m d + 6) 7.

Definition ord_to_ymd (ordinal : Z) : Z * Z * Z :=
  let o := ordinal - 1 in
  let n400 := Z.quot o 146097 in
  let n := Z.rem o 146097 in
  let n100 := Z.quot n 36524 in
  let n := Z.rem n 36524 in
  let n4 := Z.quot n 1461 in
  let n := Z.rem n 1461 in
  let n1 := Z.quot n 365 in
  let n := Z.rem n 365 in
  let y := n400 * 400 + 1 + n100 * 100 + n4 * 4 + n1 in
  if (n1 =? 4) || (n100 =? 4) then (y - 1, 12, 31)
  else
    let leapyear := (n1 =? 3) && (negb (n4 =? 24) || (n100 =? 3)) in
    let m := Z.shiftr (n + 50) 5 in
    let preceding :=
      nth (Z.to_nat m) days_before_month_tbl 0
      + (if (2 <? m) && leapyear then 1 else 0) in
    if n <? preceding then
      (y, m - 1, n - (preceding - days_in_month y (m - 1)) + 1)
    else (y, m, n - preceding + 1).

Definition iso_week1_monday (y : Z) : Z :=
  let first_day := ymd_to_ord y 1 1 in
  let first_weekday := Z.rem (first_day + 6) 7 in
  let week1_monday := first_day - first_weekday in
  if 3 <? first_weekday then week1_monday + 7 else week1_monday.

Definition iso_to_ymd (iso_year iso_week iso_day : Z) : option (Z * Z * Z) :=
  let week_ok :=
    if (iso_week <=? 0) || (53 <=? iso_week) then
      (iso_week =? 53)
      && (let fw := weekday iso_year 1 1 in
          (fw =? 3) || ((fw =? 2) && is_leap iso_year))
    else true in
  if negb week_ok then None
  else if (iso_day <=? 0) || (8 <=? iso_day) then None
  else
    Some (ord_to_ymd (iso_week1_monday iso_year
                      + (iso_week - 1) * 7 + iso_day - 1)).

Definition day_us : Z := 86400000000.

(** [timezone(timedelta(...))]: the offset must lie strictly between -24h
    and 24h, else [ValueError]. *)
Definition timezone (offset_us : Z) : option Z :=
  if (- day_us <? offset_us) && (offset_us <? day_us) then Some offset_us
  else None.

(** The constructor [datetime(...)]: [None] stands for its [ValueError]. *)
Definition new_datetime (y m d H M S us : Z) (tz : option Z)
  : option datetime :=
  if (1 <=? y) && (y <=? 9999) && (1 <=? m) && (m <=? 12)
     && (1 <=? d) && (d <=? days_in_month y m)
     && (0 <=? H) && (H <=? 23) && (0 <=? M) && (M <=? 59)
     && (0 <=? S) && (S <=? 59) && (0 <=? us) && (us <=? 999999)
  then Some (Datetime y m d H M S us tz)
  else None.

(** *** Ordering *)

Definition time_us (t : datetime) : Z :=
  ((hour t * 60 + minute t) * 60 + second t) * 1000000 + microsecond t.

(** microseconds since the start of the proleptic calendar, local time *)
Definition local_us (t : datetime) : Z :=
  ymd_to_ord (year t) (month t) (day t) * day_us + time_us t.

(** The three-way comparison behind [<], [<=], [>] and [>=]: naive values
    compare by their fields, aware values by their instant, and comparing
    a naive with an aware value raises [TypeError]. *)
Definition cmp (a b : datetime) : res comparison :=
  match tzinfo a, tzinfo b with
  | None, None => Ok (local_us a ?= local_us b)
  | Some oa, Some ob => Ok (local_us a - oa ?= local_us b - ob)
  | _, _ => Raise TypeError
  end.

Definition ge (a b : datetime) : res bool :=
  c <- cmp a b ;; Ok (match c with Lt => false | _ => true end).

Definition le (a b : datetime) : res bool :=
  c <- cmp a b ;; Ok (match c with Gt => false | _ => true end).

Definition lt (a b : datetime) : res bool :=
  c <- cmp a b ;; Ok (match c with Lt => true | _ => false end).

Definition gt (a b : datetime) : res bool :=
  c <- cmp a b ;; Ok (match c with Gt => true | _ => false end).

(** *** Printing *)

Definition digit_char (n : Z) : ascii := ascii_of_N (Z.to_N (48 + n mod 10)).

(** [n] in decimal on exactly [w] digits *)
Fixpoint fixed (w : nat) (n : Z) : string :=
  match w with
  | O => EmptyString
  | S w' => (fixed w' (n / 10) ++ String (digit_char n) EmptyString)%string
  end.

(** [str(t.date())] *)
Definition date_str (t : datetime) : string :=
  (fixed 4 (year t) ++ "-" ++ fixed 2 (month t) ++ "-" ++ fixed 2 (day t))%string.

Definition offset_str (off : Z) : string :=
  let a := Z.abs off in
  let us := a mod 1000000 in
  let s := (a / 1000000) mod 60 in
  let m := (a / 60000000) mod 60 in
  let h := a / 3600000000 in
  ((if (off <? 0)%Z then "-" else "+") ++ fixed 2 h ++ ":" ++ fixed 2 m
   ++ (if ((s =? 0) && (us =? 0))%Z then ""
       else ":" ++ fixed 2 s
            ++ (if (us =? 0)%Z then "" else "." ++ fixed 6 us)))%string.

(** [t.isoformat(sep)] *)
Definition isoformat_sep (sep : string) (t : datetime) : string :=
  (date_str t ++ sep
   ++ fixed 2 (hour t) ++ ":" ++ fixed 2 (minute t) ++ ":" ++ fixed 2 (second t)
   ++ (if (microsecond t =? 0)%Z then "" else "." ++ fixed 6 (microsecond t))
   ++ match tzinfo t with
      | None => ""
      | Some off => offset_str off
      end)%string.

Definition isoformat : datetime -> string := isoformat_sep "T".

(** [str(t)] *)
Definition to_str : datetime -> string := isoformat_sep " ".

(** *** [datetime.strptime], after [_strptime.py]

    The format is turned into a regular expression, compiled with
    [re.IGNORECASE]; the data has to match it to its end; the groups are
    converted; the constructor checks the ranges. *)

Definition range (lo hi : string) (c : ascii) : bool :=
  Str.between (Str.code (Str.at_ lo 0)) (Str.code (Str.at_ hi 0)) c.

Import Re.

Definition month_names : list string :=
  ["jan"; "feb"; "mar"; "apr"; "may"; "jun";
   "jul"; "aug"; "sep"; "oct"; "nov"; "dec"].

(** The table of [TimeRE] at the directives of the analyzer's formats
    (English month names). *)
Definition directive (d : ascii) : option regex :=
  let d09 := Cls digit in
  if Ascii.eqb d "Y" then Some (times 4 digit)
  else if Ascii.eqb d "m" then
    Some (alts (Seq (chr "1") (Cls (range "0" "2")))
               [Seq (chr "0") (Cls (range "1" "9")); Cls (range "1" "9")])
  else if Ascii.eqb d "d" then
    Some (alts (Seq (chr "3") (Cls (range "0" "1")))
               [Seq (Cls (range "1" "2")) d09;
                Seq (chr "0") (Cls (range "1" "9"));
                Cls (range "1" "9");
                Seq (chr " ") (Cls (range "1" "9"))])
  else if Ascii.eqb d "H" then
    Some (alts (Seq (chr "2") (Cls (range "0" "3")))
               [Seq (Cls (range "0" "1")) d09; d09])
  else if Ascii.eqb d "M" then
    Some (alts (Seq (Cls (range "0" "5")) d09) [d09])
  else if Ascii.eqb d "S" then
    Some (alts (Seq (chr "6") (Cls (range "0" "1")))
               [Seq (Cls (range "0" "5")) d09; d09])
  else if Ascii.eqb d "f" then Some (Seq d09 (upto 5 digit))
  else if Ascii.eqb d "z" then
    Some (Alt
      (seqs [Cls (one_of "+-"); d09; d09; Opt (chr ":");
             Cls (range "0" "5"); d09;
             Opt (seqs [Opt (chr ":"); Cls (range "0" "5"); d09;
                        Opt (seqs [chr "."; d09; upto 5 digit])])])
      (chr "Z"))
  else if Ascii.eqb d "b" then
    Some (alts (lit_i "jan") (List.map lit_i (List.tl month_names)))
  else None.

(** [TimeRE.pattern]: a run of blanks in the format stands for [\s+], a
    directive for its group, any other character for itself.  [blank]
    tells that the previous character of the format was a blank. *)
Fixpoint format_regex (blank : bool) (fmt : string) : option regex :=
  match fmt with
  | EmptyString => Some Eps
  | String c fmt' =>
      if Ascii.eqb c "%" then
        match fmt' with
        | EmptyString => None
        | String d fmt'' =>
            match directive d, format_regex false fmt'' with
            | Some r, Some r' => Some (Seq (Group (String d EmptyString) r) r')
            | _, _ => None
            end
        end
      else if Str.is_space c then
        match format_regex true fmt' with
        | Some r' => Some (if blank then r' else Seq (plus space) r')
        | None => None
        end
      else
        match format_regex false fmt' with
        | Some r' => Some (Seq (chr_i c) r')
        | None => None
        end
  end.

(** position of [x] in a list of strings *)
Fixpoint index (x : string) (l : list string) : Z :=
  match l with
  | [] => 0
  | y :: l' => if String.eqb x y then 0 else 1 + index x l'
  end.

(** [int(s)] where [s] is made of digits, possibly after one blank *)
Definition int_field (s : string) : Z := Str.digits_val (Str.lstrip s).

(** [int(s or 0)] on a slice of the offset *)
Definition int_slice (s : string) : option Z :=
  match s with
  | EmptyString => Some 0
  | _ => if Str.forallb Str.is_digit s then Some (Str.digits_val s) else None
  end.

Definition slice (s : string) (i j : nat) : string :=
  Str.take (j - i) (Str.drop i s).

Fixpoint zeros (n : nat) : string :=
  match n with
  | O => EmptyString
  | S n' => String "0" (zeros n')
  end.

(** pad a fraction to six digits *)
Definition pad6 (s : string) : string :=
  (s ++ zeros (6 - String.length s))%string.

(** The conversion of the group [z]: the UTC offset in microseconds. *)
Definition parse_z (z0 : string) : option Z :=
  if String.eqb z0 "Z" then Some 0
  else
    let z1 :=
      if Ascii.eqb (Str.at_ z0 3) ":" then
        let z := (Str.take 3 z0 ++ Str.drop 4 z0)%string in
        if (5 <? String.length z)%nat then
          if Ascii.eqb (Str.at_ z 5) ":" then
            Some (Str.take 5 z ++ Str.drop 6 z)%string
          else None
        else Some z
      else Some z0 in
    match z1 with
    | None => None
    | Some z =>
        match int_slice (slice z 1 3), int_slice (slice z 3 5),
              int_slice (slice z 5 7), int_slice (pad6 (Str.drop 8 z)) with
        | Some h, Some m, Some sec, Some frac =>
            let off := (h * 3600 + m * 60 + sec) * 1000000 + frac in
            Some (if Str.startswith z "-" then - off else off)
        | _, _, _, _ => None
        end
    end.

Definition field (g : captures) (name : string) (default : Z) : Z :=
  match get g name with
  | Some v => int_field v
  | None => default
  end.

(** [datetime.datetime.strptime(data, fmt)]; [None] is its [ValueError]. *)
Definition strptime (data fmt : string) : option datetime :=
  match format_regex false fmt with
  | None => None
  | Some r =>
      match match_ r data with
      | None => None
      | Some m =>
          if negb (String.eqb (rest m) "") then None
          else
            let g := groups m in
            let mon :=
              match get g "b" with
              | Some v => 1 + index (Str.lower v) month_names
              | None => field g "m" 1
              end in
            let us :=
              match get g "f" with
              | Some v => Str.digits_val (pad6 v)
              | None => 0
              end in
            let tz :=
              match get g "z" with
              | None => Some None
              | Some z =>
                  match parse_z z with
                  | None => None
                  | Some off =>
                      match timezone off with
                      | None => None
                      | Some o => Some (Some o)
                      end
                  end
              end in
            match tz with
            | None => None
            | Some tz' =>
                new_datetime (field g "Y" 1900) mon (field g "d" 1)
                             (field g "H" 0) (field g "M" 0) (field g "S" 0)
                             us tz'
            end
      end
  end.

(** *** [datetime.fromisoformat], after [_datetimemodule.c]

    The C code walks a NUL-terminated buffer with pointers; here a pointer
    is an index and [Str.at_] answers NUL past the end. *)

(** [parse_digits]: exactly [n] digits at index [p] *)
Definition parse_digits (s : string) (p n : nat) : option Z :=
  let d := slice s p (p + n) in
  if (String.length d =? n)%nat && Str.forallb Str.is_digit d
  then Some (Str.digits_val d)
  else None.

Definition char_is (s : string) (p : nat) (c : ascii) : bool :=
  Ascii.eqb (Str.at_ s p) c.

(** the index one past the digits that start at [p] *)
Fixpoint skip_digits (fuel : nat) (s : string) (p : nat) : nat :=
  match fuel with
  | O => p
  | S fuel' =>
      if Str.is_digit (Str.at_ s p) then skip_digits fuel' s (S p) else p
  end.

(** [_find_isoformat_datetime_separator]; [None] is its result -1 *)
Definition find_separator (s : string) (len : nat) : option nat :=
  if (len =? 7)%nat then Some 7%nat
  else if char_is s 4 "-" then
    if char_is s 5 "W" then
      if (8 <? len)%nat && char_is s 8 "-" then
        if (len =? 9)%nat then None
        else if (10 <? len)%nat && Str.is_digit (Str.at_ s 10) then Some 8%nat
        else Some 10%nat
      else Some 8%nat
    else Some 10%nat
  else if char_is s 4 "W" then
    let idx := skip_digits (len - 7) s 7 in
    if (idx <? 9)%nat then Some idx
    else if Nat.even idx then Some 7%nat
    else Some 8%nat
  else Some 8%nat.

(** [parse_isoformat_date], the date running up to index [sep] *)
Definition parse_isoformat_date (s : string) (sep : nat)
  : option (Z * Z * Z) :=
  match parse_digits s 0 4 with
  | None => None
  | Some y =>
      let uses_separator := char_is s 4 "-" in
      let p := if uses_separator then 5%nat else 4%nat in
      if char_is s p "W" then
        match parse_digits s (p + 1) 2 with
        | None => None
        | Some w =>
            let p := (p + 3)%nat in
            if (p <? sep)%nat then
              if uses_separator && negb (char_is s p "-") then None
              else
                let p := if uses_separator then S p else p in
                match parse_digits s p 1 with
                | None => None
                | Some d => iso_to_ymd y w d
                end
            else iso_to_ymd y w 1
        end
      else
        match parse_digits s p 2 with
        | None => None
        | Some m =>
            let p := (p + 2)%nat in
            if uses_separator && negb (char_is s p "-") then None
            else
              let p := if uses_separator then S p else p in
              match parse_digits s p 2 with
              | None => None
              | Some d => Some (y, m, d)
              end
        end
  end.

(** What the loop over hours, minutes and seconds of [parse_hh_mm_ss_ff]
    does: fail, return with a flag, or go on to the fraction at an index. *)
Inductive hms_step : Type :=
| HmsFail
| HmsReturn (vals : list Z) (flag : bool)
| HmsFraction (vals : list Z) (p : nat).

Fixpoint hms_loop (n : nat) (first has_separator : bool) (t : string)
    (p p_end : nat) (vals : list Z) : hms_step :=
  match n with
  | O => HmsFraction vals p
  | S n' =>
      match parse_digits t p 2 with
      | None => HmsFail
      | Some v =>
          let vals := (vals ++ [v])%list in
          let c := Str.at_ t (p + 2) in
          let p := (p + 3)%nat in
          let has_separator :=
            if first then Ascii.eqb c ":" else has_separator in
          if (p_end <=? p)%nat then HmsReturn vals (negb (Ascii.eqb c zero))
          else if has_separator && Ascii.eqb c ":" then
            hms_loop n' false has_separator t p p_end vals
          else if Ascii.eqb c "." || Ascii.eqb c "," then HmsFraction vals p
          else if negb has_separator then
            hms_loop n' false has_separator t (p - 1) p_end vals
          else HmsFail
      end
  end.

(** [parse_hh_mm_ss_ff] between the indices [p] and [p_end] of [t]:
    hour, minute, second, microsecond and the returned flag *)
Definition parse_hh_mm_ss_ff (t : string) (p p_end : nat)
  : option (Z * Z * Z * Z * bool) :=
  let hms vals := (nth 0 vals 0, nth 1 vals 0, nth 2 vals 0) in
  match hms_loop 3 true true t p p_end [] with
  | HmsFail => None
  | HmsReturn vals flag => Some (hms vals, 0, flag)
  | HmsFraction vals p =>
      let to_parse := Nat.min (p_end - p) 6 in
      match parse_digits t p to_parse with
      | None => None
      | Some us =>
          let us := us * 10 ^ Z.of_nat (6 - to_parse) in
          let p := skip_digits (String.length t) t (p + to_parse) in
          Some (hms vals, us, negb (char_is t p zero))
      end
  end.

(** the first index of [t] that holds [Z], [+] or [-], else its length *)
Fixpoint find_tz (t : string) : nat :=
  match t with
  | EmptyString => O
  | String c t' => if Str.has_char c "Z+-" then O else S (find_tz t')
  end.

(** [parse_isoformat_time] and [tzinfo_from_isoformat_results]: the time
    fields and the [tzinfo] *)
Definition parse_isoformat_time (t : string)
  : option (Z * Z * Z * Z * option Z) :=
  let p_end := String.length t in
  let tz_pos := find_tz t in
  match parse_hh_mm_ss_ff t 0 tz_pos with
  | None => None
  | Some (hh, mi, ss, us, flag) =>
      if (tz_pos =? p_end)%nat then
        if flag then None else Some (hh, mi, ss, us, None)
      else if char_is t tz_pos "Z" then
        if char_is t (tz_pos + 1) zero then Some (hh, mi, ss, us, Some 0)
        else None
      else
        match parse_hh_mm_ss_ff t (tz_pos + 1) p_end with
        | None => None
        | Some (_, _, _, _, true) => None
        | Some (h, m, s, tzus, false) =>
            let sign := if char_is t tz_pos "-" then -1 else 1 in
            let tzoffset := sign * (h * 3600 + m * 60 + s) in
            if tzoffset =? 0 then Some (hh, mi, ss, us, Some 0)
            else
              match timezone (tzoffset * 1000000 + sign * tzus) with
              | None => None
              | Some off => Some (hh, mi, ss, us, Some off)
              end
        end
  end.

(** [datetime.datetime.fromisoformat(s)]; [None] is its [ValueError]. *)
Definition fromisoformat (s : string) : option datetime :=
  let len := String.length s in
  if (len <? 7)%nat then None
  else
    match find_separator s len with
    | None => None
    | Some sep =>
        match parse_isoformat_date s sep with
        | None => None
        | Some (y, m, d) =>
            if (sep <? len)%nat then
              match parse_isoformat_time (Str.drop (sep + 1) s) with
              | None => None
              | Some (hh, mi, ss, us, tz) => new_datetime y m d hh mi ss us tz
              end
            else new_datetime y m d 0 0 0 0 None
        end
    end.

End DT.

(** ** [class LogEntry] *)

Record LogEntry : Type := mkLogEntry {
  timestamp : DT.datetime;
  level : string;
  message : string;
  source : string;
  raw_line : string;
  line_number : Z
}.

(** [LogEntry.__init__]: the level is stored in upper case. *)
Definition LogEntry_init (timestamp : DT.datetime) (level message : string)
    (source raw_line : string) (line_number : Z) : LogEntry :=
  mkLogEntry timestamp (Str.upper level) message source raw_line line_number.

(** [LogEntry.__str__] *)
Definition LogEntry_str (e : LogEntry) : string :=
  "[" ++ DT.to_str (timestamp e) ++ "] " ++ level e ++ ": " ++ message e.

(** ** [class LogParser] *)

Module LogParser.

Import Re.

(** [(?P<ip>\d+\.\d+\.\d+\.\d+) - - \[(?P<timestamp>[^\]]+)\] ]
    [Q(?P<method>\w+) (?P<url>[^\s]+) (?P<protocol>[^Q]+)Q ]
    [(?P<status>\d+) (?P<size>\d+|-)],
    where Q stands for the double quote character. *)
Definition apache_access : regex :=
  seqs [Group "ip" (seqs [plus digit; chr "."; plus digit; chr ".";
                          plus digit; chr "."; plus digit]);
        lit " - - [";
        Group "timestamp" (plus (none_of "]"));
        lit "] "; lit Str.dquote;
        Group "method" (plus word); chr " ";
        Group "url" (plus nonspace); chr " ";
        Group "protocol" (plus (none_of Str.dquote));
        lit Str.dquote; chr " ";
        Group "status" (plus digit); chr " ";
        Group "size" (Alt (plus digit) (chr "-"))].

(** [\d{4}-\d{2}-\d{2} \d{2}:\d{2}:\d{2}] *)
Definition date_time : regex :=
  seqs [times 4 digit; chr "-"; times 2 digit; chr "-"; times 2 digit;
        chr " "; times 2 digit; chr ":"; times 2 digit; chr ":";
        times 2 digit].

(** [(?P<timestamp>\d{4}-\d{2}-\d{2} \d{2}:\d{2}:\d{2}[,.]?\d{0,}) ]
    [\[?(?P<level>\w+)\]?\s*:?\s*(?P<message>.{0,})]
    (the source writes the two [{0,}] as a star) *)
Definition application_log : regex :=
  seqs [Group "timestamp" (seqs [date_time; Opt (Cls (one_of ",."));
                                 Star digit]);
        chr " "; Opt (chr "["); Group "level" (plus word); Opt (chr "]");
        Star space; Opt (chr ":"); Star space;
        Group "message" (Star dot)].

(** [(?P<timestamp>\w{3} \d{1,2} \d{2}:\d{2}:\d{2}) ]
    [(?P<hostname>\w+) (?P<source>\w+)(\[(?P<pid>\d+)\])?: (?P<message>.{0,})]
    (the source writes [{0,}] as a star); the unnamed group is group 1. *)
Definition system_log : regex :=
  seqs [Group "timestamp" (seqs [times 3 word; chr " ";
                                 Cls digit; upto 1 digit; chr " ";
                                 times 2 digit; chr ":"; times 2 digit;
                                 chr ":"; times 2 digit]);
        chr " "; Group "hostname" (plus word); chr " ";
        Group "source" (plus word);
        Opt (Group "1" (seqs [chr "["; Group "pid" (plus digit); chr "]"]));
        lit ": "; Group "message" (Star dot)].

(** [(?P<timestamp>\d{4}-\d{2}-\d{2} \d{2}:\d{2}:\d{2}) (?P<server_ip>\S+) ]
    [(?P<method>\w+) (?P<uri>\S+) (?P<query>\S+) (?P<port>\d+) ]
    [(?P<username>\S+) (?P<client_ip>\S+) (?P<user_agent>\S+) ]
    [(?P<referer>\S+) (?P<status>\d+) (?P<substatus>\d+) ]
    [(?P<win32_status>\d+) (?P<time_taken>\d+)] *)
Definition iis_log : regex :=
  seqs [Group "timestamp" date_time; chr " ";
        Group "server_ip" (plus nonspace); chr " ";
        Group "method" (plus word); chr " ";
        Group "uri" (plus nonspace); chr " ";
        Group "query" (plus nonspace); chr " ";
        Group "port" (plus digit); chr " ";
        Group "username" (plus nonspace); chr " ";
        Group "client_ip" (plus nonspace); chr " ";
        Group "user_agent" (plus nonspace); chr " ";
        Group "referer" (plus nonspace); chr " ";
        Group "status" (plus digit); chr " ";
        Group "substatus" (plus digit); chr " ";
        Group "win32_status" (plus digit); chr " ";
        Group "time_taken" (plus digit)].

(** [self.patterns], in the order of the dictionary *)
Definition patterns : list (string * regex) :=
  [("apache_access", apache_access);
   ("application_log", application_log);
   ("system_log", system_log);
   ("iis_log", iis_log)].

Definition timestamp_formats : list string :=
  ["%Y-%m-%d %H:%M:%S";
   "%Y-%m-%d %H:%M:%S.%f";
   "%Y-%m-%d %H:%M:%S,%f";
   "%d/%b/%Y:%H:%M:%S %z";
   "%b %d %H:%M:%S";
   "%Y-%m-%dT%H:%M:%S";
   "%Y-%m-%dT%H:%M:%S.%fZ"].

(** The loop of [parse_timestamp] over the formats.  [timestamp_str] is a
    local variable the loop assigns to: the suffix added for a format
    ending in [%z] stays for the formats after it.  The loop returns the
    first value [strptime] gives, or the string as the loop left it. *)
Fixpoint try_formats (fmts : list string) (timestamp_str : string)
  : DT.datetime + string :=
  match fmts with
  | [] => inr timestamp_str
  | fmt :: fmts' =>
      let timestamp_str :=
        if Str.endswith fmt "%z"
           && negb (Str.contains timestamp_str "+")
           && negb (Str.contains timestamp_str "Z")
        then timestamp_str ++ " +0000"
        else timestamp_str in
      match DT.strptime timestamp_str fmt with
      | Some t => inl t
      | None => try_formats fmts' timestamp_str
      end
  end.

Definition parse_timestamp (timestamp_str : string) : option DT.datetime :=
  match try_formats timestamp_formats (Str.strip timestamp_str) with
  | inl t => Some t
  | inr timestamp_str =>
      DT.fromisoformat (Str.replace_char "Z" "+00:00" timestamp_str)
  end.

(** The loop of [parse_line] over the patterns: the first that matches. *)
Fixpoint first_match (pats : list (string * regex)) (line : string)
  : option (string * match_obj) :=
  match pats with
  | [] => None
  | (pattern_name, pattern) :: pats' =>
      match match_ pattern line with
      | Some m => Some (pattern_name, m)
      | None => first_match pats' line
      end
  end.

(** The body of that loop once a pattern has matched.  An absent default
    of [groups.get] is [None], which an f-string prints as [None]. *)
Definition entry_of_match (pattern_name : string) (groups : captures)
    (line : string) (line_number : Z) (now : DT.datetime) : res LogEntry :=
  let timestamp :=
    match parse_timestamp (get_default groups "timestamp" "") with
    | Some t => t
    | None => now
    end in
  if String.eqb pattern_name "apache_access" then
    status <- Str.int (get_default groups "status" "0") ;;
    let level := if (status <? 400)%Z then "INFO" else "ERROR" in
    let message :=
      get_default groups "method" "None" ++ " "
      ++ get_default groups "url" "None" ++ " - "
      ++ get_default groups "status" "None" in
    Ok (LogEntry_init timestamp level message "apache" line line_number)
  else if String.eqb pattern_name "system_log" then
    Ok (LogEntry_init timestamp "INFO"
          (get_default groups "message" "")
          (get_default groups "source" "") line line_number)
  else
    Ok (LogEntry_init timestamp
          (get_default groups "level" "INFO")
          (get_default groups "message" "")
          (get_default groups "source" "") line line_number).

(** [(ERROR|WARN|INFO|DEBUG|TRACE|FATAL)] with [re.IGNORECASE] *)
Definition fallback : regex :=
  Group "1" (alts (lit_i "ERROR")
                  [lit_i "WARN"; lit_i "INFO"; lit_i "DEBUG";
                   lit_i "TRACE"; lit_i "FATAL"]).

(** [parse_line]; [Ok None] is the returned [None]. *)
Definition parse_line (line : string) (line_number : Z) (now : DT.datetime)
  : res (option LogEntry) :=
  let line := Str.strip line in
  if String.eqb line "" || Str.startswith line "#" then Ok None
  else
    match first_match patterns line with
    | Some (pattern_name, m) =>
        e <- entry_of_match pattern_name (groups m) line line_number now ;;
        Ok (Some e)
    | None =>
        match search fallback line with
        | Some fallback_match =>
            let level := get_default (groups fallback_match) "1" "" in
            Ok (Some (LogEntry_init now level line "unknown" line line_number))
        | None =>
            Ok (Some (LogEntry_init now "INFO" line "unknown" line line_number))
        end
    end.

End LogParser.

(** ** [class LogAnalyzer] *)

(** [collections.Counter] over a list: how often each key occurs, keys in
    the order of their first occurrence (the order of a Python dict). *)
Module Counter.

Section Counter.
Context {K : Type} (eqb : K -> K -> bool).

Fixpoint incr (k : K) (c : list (K * nat)) : list (K * nat) :=
  match c with
  | [] => [(k, 1%nat)]
  | (k', n) :: c' => if eqb k' k then (k', S n) :: c' else (k', n) :: incr k c'
  end.

Definition of_list (l : list K) : list (K * nat) :=
  fold_left (fun c k => incr k c) l [].

End Counter.

(** [sum(c.values())] *)
Definition total {K : Type} (c : list (K * nat)) : nat :=
  fold_right (fun kv acc => (snd kv + acc)%nat) 0%nat c.

End Counter.

(** A Python [float] is an IEEE 754 binary64 number, here a [spec_float]
    of the Standard Library with 53 bits of precision. *)
Module Float.

Definition float : Type := spec_float.

(** an [int] that is a length, as the exact operand of a division *)
Definition of_nat (n : nat) : float :=
  match n with
  | O => S754_zero false
  | S _ => S754_finite false (Pos.of_nat n) 0
  end.

(** [x / y] and [x * y], rounded to nearest, ties to even *)
Definition div : float -> float -> float := SFdiv 53 1024.
Definition mul : float -> float -> float := SFmul 53 1024.

(** [100], converted for a product with a float *)
Definition hundred : float := S754_finite false 25 2.

End Float.

(** The dictionary [generate_statistics] builds. *)
Record Statistics : Type := mkStatistics {
  total_entries : nat;
  level_distribution : list (string * nat);
  source_distribution : list (string * nat);
  date_distribution : list (string * nat);
  hourly_distribution : list (Z * nat);
  error_count : nat;
  warning_count : nat;
  error_rate : Float.float;
  warning_rate : Float.float;
  date_range_start : option string;
  date_range_end : option string;
  top_error_messages : list string;
  top_warning_messages : list string
}.

(** The state of an analyzer.  [stats = None] is the empty dictionary. *)
Record LogAnalyzer : Type := mkLogAnalyzer {
  entries : list LogEntry;
  stats : option Statistics
}.

(** [LogAnalyzer.__init__] *)
Definition LogAnalyzer_init : LogAnalyzer := mkLogAnalyzer [] None.

(** What [os.path.exists], [open(path, 'r')] and the reading find at a
    path: nothing; a file that may not be read ([open] raises
    [PermissionError]); a path [open] refuses with another error (a
    directory gives [IsADirectoryError]); the lines of a file; or the lines
    that are read before the reading itself fails with an error. *)
Inductive file : Type :=
| Missing
| Denied
| Lines (lines : list string)
| Unopenable (e : exn)
| Broken (lines : list string) (e : exn).

Module Py.

(** [a / b] on two lengths: the quotient of two [int]s is the float
    nearest to the exact quotient, which [Float.div] gives on the exact
    operands. *)
Definition truediv (a b : nat) : res Float.float :=
  match b with
  | O => Raise ZeroDivisionError
  | S _ => Ok (Float.div (Float.of_nat a) (Float.of_nat b))
  end.

(** [min] and [max] over datetimes: one pass with [<], respectively [>] *)
Fixpoint min_from (m : DT.datetime) (l : list DT.datetime)
  : res DT.datetime :=
  match l with
  | [] => Ok m
  | x :: l' => b <- DT.lt x m ;; min_from (if b then x else m) l'
  end.

Fixpoint max_from (m : DT.datetime) (l : list DT.datetime)
  : res DT.datetime :=
  match l with
  | [] => Ok m
  | x :: l' => b <- DT.gt x m ;; max_from (if b then x else m) l'
  end.

Definition min (l : list DT.datetime) : res DT.datetime :=
  match l with
  | [] => Raise ValueError
  | x :: l' => min_from x l'
  end.

Definition max (l : list DT.datetime) : res DT.datetime :=
  match l with
  | [] => Raise ValueError
  | x :: l' => max_from x l'
  end.

(** [[e for e in l if p(e)]] where the test may raise *)
Fixpoint filter {A : Type} (p : A -> res bool) (l : list A) : res (list A) :=
  match l with
  | [] => Ok []
  | x :: l' =>
      b <- p x ;;
      r <- filter p l' ;;
      Ok (if b then x :: r else r)
  end.

(** [x in l] on a list of strings *)
Definition mem (x : string) (l : list string) : bool :=
  existsb (String.eqb x) l.

Definition is_some {A : Type} (o : option A) : bool :=
  match o with
  | Some _ => true
  | None => false
  end.

(** [str(n)] *)
Definition str_nat (n : nat) : string :=
  NilEmpty.string_of_uint (Nat.to_uint n).

End Py.

Module LogAnalyzer.

(** [generate_statistics]: the result, and the analyzer afterwards.  The
    entries of the dictionary are evaluated in the order of the source;
    [self.stats] is assigned only when all of them have been. *)
Definition generate_statistics (self : LogAnalyzer)
  : res (option Statistics) * LogAnalyzer :=
  match entries self with
  | [] => (Ok None, mkLogAnalyzer (entries self) None)
  | _ =>
      let es := entries self in
      let level_counts := Counter.of_list String.eqb (map level es) in
      let source_counts := Counter.of_list String.eqb (map source es) in
      let timestamps := map timestamp es in
      let date_counts :=
        Counter.of_list String.eqb (map DT.date_str timestamps) in
      let hour_counts := Counter.of_list Z.eqb (map DT.hour timestamps) in
      let error_entries :=
        filter (fun e => Py.mem (level e) ["ERROR"; "FATAL"]) es in
      let warning_entries :=
        filter (fun e => String.eqb (level e) "WARNING") es in
      let result :=
        error_rate <- Py.truediv (length error_entries) (length es) ;;
        warning_rate <- Py.truediv (length warning_entries) (length es) ;;
        first <- Py.min timestamps ;;
        last <- Py.max timestamps ;;
        Ok (mkStatistics
              (length es)
              level_counts
              source_counts
              date_counts
              hour_counts
              (length error_entries)
              (length warning_entries)
              (Float.mul error_rate Float.hundred)
              (Float.mul warning_rate Float.hundred)
              (Some (DT.isoformat first))
              (Some (DT.isoformat last))
              (map message (firstn 10 error_entries))
              (map message (firstn 10 warning_entries))) in
      match result with
      | Ok st => (Ok (Some st), mkLogAnalyzer es (Some st))
      | Raise e => (Raise e, self)
      end
  end.

(** The loop of [load_file] over the lines, numbered from [line_number];
    [clock] gives the reading of [datetime.now()] while a line is parsed. *)
Fixpoint read_lines (clock : Z -> DT.datetime) (lines : list string)
    (line_number : Z) (total_lines parsed_count : nat) (self : LogAnalyzer)
  : res (nat * nat) * LogAnalyzer :=
  match lines with
  | [] => (Ok (total_lines, parsed_count), self)
  | line :: lines' =>
      match LogParser.parse_line line line_number (clock line_number) with
      | Raise e => (Raise e, self)
      | Ok None =>
          read_lines clock lines' (line_number + 1)
                     (S total_lines) parsed_count self
      | Ok (Some entry) =>
          read_lines clock lines' (line_number + 1)
                     (S total_lines) (S parsed_count)
                     (mkLogAnalyzer (entries self ++ [entry])%list (stats self))
      end
  end.

(** [load_file]; [fs] is the file system. *)
Definition load_file (fs : string -> file) (clock : Z -> DT.datetime)
    (file_path : string) (self : LogAnalyzer)
  : res (nat * nat) * LogAnalyzer :=
  match fs file_path with
  | Missing => (Raise FileNotFoundError, self)
  | f =>
      let self := mkLogAnalyzer [] (stats self) in
      match f with
      | Lines lines =>
          match read_lines clock lines 1 0 0 self with
          | (Ok counts, self) =>
              match generate_statistics self with
              | (Ok _, self) => (Ok counts, self)
              | (Raise e, self) => (Raise e, self)
              end
          | (Raise e, self) => (Raise e, self)
          end
      | Broken lines e =>
          match read_lines clock lines 1 0 0 self with
          | (Ok _, self) => (Raise e, self)
          | (Raise e', self) => (Raise e', self)
          end
      | Unopenable e => (Raise e, self)
      | _ => (Raise PermissionError, self)
      end
  end.

(** The criteria of [filter_entries]; [None] is the default of each. *)
Record criteria : Type := mkCriteria {
  start_date : option DT.datetime;
  end_date : option DT.datetime;
  levels : option (list string);
  keywords : option (list string);
  source_filter : option string
}.

(** [filter_entries].  It reads [self.entries] and assigns nothing to
    [self]; the analyzer afterwards is returned to state that. *)
Definition filter_entries (c : criteria) (self : LogAnalyzer)
  : res (list LogEntry) * LogAnalyzer :=
  let filtered := entries self in
  let result :=
    filtered <-
      match start_date c with
      | Some d => Py.filter (fun e => DT.ge (timestamp e) d) filtered
      | None => Ok filtered
      end ;;
    filtered <-
      match end_date c with
      | Some d => Py.filter (fun e => DT.le (timestamp e) d) filtered
      | None => Ok filtered
      end ;;
    let filtered :=
      match levels c with
      | Some ((_ :: _) as levels) =>
          let levels_upper := map Str.upper levels in
          filter (fun e => Py.mem (level e) levels_upper) filtered
      | _ => filtered
      end in
    let filtered :=
      match keywords c with
      | Some ((_ :: _) as keywords) =>
          let keyword_patterns := map Re.escape_i keywords in
          filter (fun e =>
                    existsb (fun pattern =>
                               Py.is_some (Re.search pattern (message e)))
                            keyword_patterns)
                 filtered
      | _ => filtered
      end in
    let filtered :=
      match source_filter c with
      | Some ((String _ _) as src) =>
          filter (fun e => Str.contains (Str.lower (source e)) (Str.lower src))
                 filtered
      | _ => filtered
      end in
    Ok filtered in
  (result, self).

(** *** Export *)

(** The values [json.dump] is given. *)
#[local] Unset Elimination Schemes.
Inductive json : Type :=
| JNull
| JInt (n : Z)
| JFloat (x : Float.float)
| JStr (s : string)
| JList (l : list json)
| JDict (d : list (string * json)).
#[local] Set Elimination Schemes.

(** [LogEntry.to_dict] *)
Definition to_dict (e : LogEntry) : json :=
  JDict [("timestamp", JStr (DT.isoformat (timestamp e)));
         ("level", JStr (level e));
         ("message", JStr (message e));
         ("source", JStr (source e));
         ("raw_line", JStr (raw_line e));
         ("line_number", JInt (line_number e))].

Definition str_Z (n : Z) : string := NilEmpty.string_of_int (Z.to_int n).

Definition counts_json (c : list (string * nat)) : json :=
  JDict (map (fun kv => (fst kv, JInt (Z.of_nat (snd kv)))) c).

Definition opt_str_json (o : option string) : json :=
  match o with
  | Some s => JStr s
  | None => JNull
  end.

(** [self.stats] as [json.dump] sees it (it writes an [int] key as text) *)
Definition stats_json (st : option Statistics) : json :=
  match st with
  | None => JDict []
  | Some st =>
      JDict [("total_entries", JInt (Z.of_nat (total_entries st)));
             ("level_distribution", counts_json (level_distribution st));
             ("source_distribution", counts_json (source_distribution st));
             ("date_distribution", counts_json (date_distribution st));
             ("hourly_distribution",
              counts_json (map (fun kv => (str_Z (fst kv), snd kv))
                               (hourly_distribution st)));
             ("error_count", JInt (Z.of_nat (error_count st)));
             ("warning_count", JInt (Z.of_nat (warning_count st)));
             ("error_rate", JFloat (error_rate st));
             ("warning_rate", JFloat (warning_rate st));
             ("date_range",
              JDict [("start", opt_str_json (date_range_start st));
                     ("end", opt_str_json (date_range_end st))]);
             ("top_error_messages",
              JList (map JStr (top_error_messages st)));
             ("top_warning_messages",
              JList (map JStr (top_warning_messages st)))]
  end.

(** Where [export_results] writes: which paths [open(path, 'w')] accepts,
    what each file holds, and where the writing of a text to a path fails
    once the file is open: [write_error path text = Some n] when an error
    (a full device, a character the encoding refuses) interrupts it after
    [n] characters have reached the file, [None] when all of the text is
    written. *)
Record disk : Type := mkDisk {
  writable : string -> bool;
  contents : string -> option string;
  write_error : string -> string -> option nat
}.

(** the disk with [text] in the file at [path] *)
Definition put (d : disk) (path text : string) : disk :=
  mkDisk (writable d)
         (fun p => if String.eqb p path then Some text else contents d p)
         (write_error d).

(** [open(path, 'w')] followed by the writes and the close.  [None] when
    [open] raises: nothing is touched.  Otherwise the file has been
    truncated; the flag tells whether every write succeeded, and after a
    failing write the file holds the part of the text that reached it. *)
Definition write_file (d : disk) (path text : string)
  : option (bool * disk) :=
  if writable d path then
    match write_error d path text with
    | None => Some (true, put d path text)
    | Some n => Some (false, put d path (Str.take n text))
    end
  else None.

Definition newline : string := String (ascii_of_N 10) EmptyString.

Section Serializers.

(** The text [json.dump(data, f, indent=2, ensure_ascii=False)] writes and
    the text a [csv.writer] writes for a list of rows. *)
Variable json_dump : json -> string.
Variable csv_write : list (list string) -> string.

(** [export_results]: the flag returned, and the disk afterwards.  The
    [except Exception] clause turns a failing [open] and a failing write
    into [False]. *)
Definition export_results (now : DT.datetime) (output_path : string)
    (entries : list LogEntry) (format_type : string) (self : LogAnalyzer)
    (d : disk) : bool * disk :=
  let written (text : string) :=
    match write_file d output_path text with
    | Some r => r
    | None => (false, d)
    end in
  if String.eqb (Str.lower format_type) "json" then
    let data :=
      JDict [("metadata",
              JDict [("export_time", JStr (DT.isoformat now));
                     ("entry_count", JInt (Z.of_nat (length entries)));
                     ("statistics", stats_json (stats self))]);
             ("entries", JList (map to_dict entries))] in
    written (json_dump data)
  else if String.eqb (Str.lower format_type) "csv" then
    written
      (csv_write
         (["Timestamp"; "Level"; "Source"; "Message"; "Line Number"]
          :: map (fun entry =>
                    [DT.isoformat (timestamp entry); level entry; source entry;
                     message entry; str_Z (line_number entry)])
                 entries))
  else if String.eqb (Str.lower format_type) "txt" then
    written
      ("Log Analysis Report" ++ newline
       ++ "Generated: " ++ DT.to_str now ++ newline
       ++ "Total Entries: " ++ Py.str_nat (length entries) ++ newline
       ++ newline
       ++ String.concat ""
            (map (fun entry => LogEntry_str entry ++ newline) entries))
  else (true, d).

End Serializers.

End LogAnalyzer.

(** ** The command line: [print_statistics] and [main]

    What these functions print is left out; kept are the values they
    compute, what they pass on to the analyzer, the exceptions that leave
    them and the exit status. *)

Module Cli.

Import LogAnalyzer.

(** [s.split(c)] for a one-character separator *)
Fixpoint split (c : ascii) (s : string) : list string :=
  match s with
  | EmptyString => [EmptyString]
  | String x s' =>
      if Ascii.eqb x c then EmptyString :: split c s'
      else
        match split c s' with
        | w :: ws => String x w :: ws
        | [] => [String x EmptyString]
        end
  end.

(** The arguments [parse_args] returns. *)
Record args : Type := mkArgs {
  arg_file : option string;
  arg_file_path : option string;
  arg_start_date : option string;
  arg_end_date : option string;
  arg_level : option (list string);
  arg_keywords : option string;
  arg_source : option string;
  arg_export : option string;
  arg_format : string;
  arg_stats_only : bool;
  arg_gui : bool
}.

(** the truth value of an optional string: given and not empty *)
Definition given (o : option string) : option string :=
  match o with
  | Some ((String _ _) as s) => Some s
  | _ => None
  end.

(** [[kw.strip() for kw in keywords.split(',') if kw.strip()]], for an
    argument that is given; the empty list otherwise *)
Definition keyword_list (arg : option string) : list string :=
  match given arg with
  | Some keywords =>
      map Str.strip
          (filter (fun kw => negb (String.eqb (Str.strip kw) ""))
                  (split "," keywords))
  | None => []
  end.

(** [datetime.strptime(text, "%Y-%m-%d")] for an argument that is given *)
Definition date_arg (arg : option string) : res (option DT.datetime) :=
  match given arg with
  | Some text =>
      match DT.strptime text "%Y-%m-%d" with
      | Some t => Ok (Some t)
      | None => Raise ValueError
      end
  | None => Ok None
  end.

(** [t.replace(hour=23, minute=59, second=59)] *)
Definition end_of_day (t : DT.datetime) : DT.datetime :=
  DT.Datetime (DT.year t) (DT.month t) (DT.day t) 23 59 59
              (DT.microsecond t) (DT.tzinfo t).

(** The export format: the text after the last dot of the path when the
    path has a dot, else the [--format] argument. *)
Definition export_format (path format : string) : string :=
  if Str.contains path "." then last (split "." path) EmptyString
  else format.

(** What leaves [print_statistics]: [KeyError] when the dictionary is
    empty, [ZeroDivisionError] when a percentage is taken of a zero total. *)
Inductive printed : Type :=
| Printed
| KeyError
| ZeroDivision.

Definition print_statistics (stats : option Statistics) : printed :=
  match stats with
  | None => KeyError
  | Some st =>
      match level_distribution st, total_entries st with
      | _ :: _, O => ZeroDivision
      | _, _ => Printed
      end
  end.

(** How [main] ends. *)
Inductive ending : Type :=
| Returned
| SysExit (code : Z)
| Uncaught (e : exn)
| UncaughtKeyError
| UncaughtZeroDivision
| GuiStarted.

Section Main.

Variable json_dump : json -> string.
Variable csv_write : list (list string) -> string.

(** [main], after [parse_args]: the file system read, the clock of the
    load, the time of the export and the disk written are arguments. *)
Definition main (fs : string -> file)
    (clock : Z -> DT.datetime) (now : DT.datetime) (a : args) (d : disk) : ending * disk :=
  if arg_gui a then (GuiStarted, d)
  else
    match
      match given (arg_file a) with
      | Some f => Some f
      | None => given (arg_file_path a)
      end
    with
    | None => (SysExit 1, d)
    | Some path =>
        match load_file fs clock path LogAnalyzer_init with
        | (Raise _, _) => (SysExit 1, d)
        | (Ok _, analyzer) =>
            match date_arg (arg_start_date a) with
            | Raise _ => (SysExit 1, d)
            | Ok start_date =>
                match date_arg (arg_end_date a) with
                | Raise _ => (SysExit 1, d)
                | Ok end_date =>
                    let end_date := option_map end_of_day end_date in
                    let keywords := keyword_list (arg_keywords a) in
                    match
                      fst (filter_entries
                             (mkCriteria start_date end_date (arg_level a)
                                         (Some keywords) (arg_source a))
                             analyzer)
                    with
                    | Raise e => (Uncaught e, d)
                    | Ok filtered_entries =>
                        match print_statistics (stats analyzer) with
                        | KeyError => (UncaughtKeyError, d)
                        | ZeroDivision => (UncaughtZeroDivision, d)
                        | Printed =>
                            match given (arg_export a) with
                            | None => (Returned, d)
                            | Some target =>
                                match
                                  export_results json_dump csv_write now target
                                    filtered_entries
                                    (export_format target (arg_format a))
                                    analyzer d
                                with
                                | (true, d') => (Returned, d')
                                | (false, d') => (SysExit 1, d')
                                end
                            end
                        end
                    end
                end
            end
        end
    end.

End Main.

End Cli.

(** * Properties *)

(** ** Strings *)

Module StrFacts.

Import Str.

Lemma append_nil_r (s : string) : s ++ "" = s.
Proof. induction s; simpl; congruence. Qed.

Lemma append_assoc (a b c : string) : (a ++ b) ++ c = a ++ (b ++ c).
Proof. induction a; simpl; congruence. Qed.

Lemma length_append (a b : string) :
  String.length (a ++ b) = (String.length a + String.length b)%nat.
Proof. induction a; simpl; congruence. Qed.

Lemma take_append (a b : string) : take (String.length a) (a ++ b) = a.
Proof. induction a; simpl; congruence. Qed.

Lemma drop_append (a b : string) : drop (String.length a) (a ++ b) = b.
Proof. induction a; simpl; congruence. Qed.

Lemma take_drop (n : nat) (s : string) : take n s ++ drop n s = s.
Proof.
  revert s; induction n as [|n IH]; intros [|c s]; simpl; try reflexivity.
  now rewrite IH.
Qed.

Lemma map_append (f : ascii -> ascii) (a b : string) :
  map f (a ++ b) = map f a ++ map f b.
Proof. induction a; simpl; congruence. Qed.

Lemma map_length (f : ascii -> ascii) (s : string) :
  String.length (map f s) = String.length s.
Proof. induction s; simpl; congruence. Qed.

Lemma forallb_append (p : ascii -> bool) (a b : string) :
  forallb p (a ++ b) = forallb p a && forallb p b.
Proof.
  induction a as [|c a IH]; simpl; [reflexivity|].
  now rewrite IH, andb_assoc.
Qed.

Lemma upper_char_idem (c : ascii) : upper_char (upper_char c) = upper_char c.
Proof. destruct c as [[] [] [] [] [] [] [] []]; reflexivity. Qed.

Lemma upper_idem (s : string) : upper (upper s) = upper s.
Proof.
  induction s as [|c s IH]; simpl; [reflexivity|].
  unfold upper in *; simpl. now rewrite upper_char_idem, IH.
Qed.

Lemma upper_lower_char (c : ascii) : upper_char (lower_char c) = upper_char c.
Proof. destruct c as [[] [] [] [] [] [] [] []]; reflexivity. Qed.

(** Letters that agree in lower case agree in upper case. *)
Lemma lower_eq_upper_eq (a b : ascii) :
  lower_char a = lower_char b -> upper_char a = upper_char b.
Proof.
  intros H. rewrite <- (upper_lower_char a), <- (upper_lower_char b).
  now rewrite H.
Qed.

(** [int] on a non-empty string of digits: the number, unless the digits
    are more than the limit. *)
Lemma int_digits (s : string) :
  s <> "" -> forallb is_digit s = true ->
  int s = if too_long s then Raise ValueError else Ok (digits_val s).
Proof.
  intros Hne Hd. unfold int. destruct s; [congruence|]. now rewrite Hd.
Qed.

End StrFacts.

(** ** The matcher

    [Matches r s g s' g'] reads: [r] can match the text between [s] and its
    suffix [s'], taking the groups from [g] to [g'].  Every answer of the
    backtracking matcher is such a match. *)

Module ReFacts.

Import Re StrFacts.

Inductive Matches : regex -> string -> captures -> string -> captures -> Prop :=
| M_Eps s g : Matches Eps s g s g
| M_Cls p c s g : p c = true -> Matches (Cls p) (String c s) g s g
| M_Seq r1 r2 s g s1 g1 s2 g2 :
    Matches r1 s g s1 g1 -> Matches r2 s1 g1 s2 g2 ->
    Matches (Seq r1 r2) s g s2 g2
| M_AltL r1 r2 s g s' g' : Matches r1 s g s' g' -> Matches (Alt r1 r2) s g s' g'
| M_AltR r1 r2 s g s' g' : Matches r2 s g s' g' -> Matches (Alt r1 r2) s g s' g'
| M_OptSome r s g s' g' : Matches r s g s' g' -> Matches (Opt r) s g s' g'
| M_OptNone r s g : Matches (Opt r) s g s g
| M_Star0 p s g : Matches (Star p) s g s g
| M_StarS p c s g s' :
    p c = true -> Matches (Star p) s g s' g ->
    Matches (Star p) (String c s) g s' g
| M_Group n r s g s' g' :
    Matches r s g s' g' ->
    Matches (Group n r) s g s' ((n, consumed s s') :: g').

#[local] Hint Constructors Matches : core.

Lemma star_sound {A : Type} (p : ascii -> bool) (k : string -> option A)
    (g : captures) (s : string) (x : A) :
  star p k s = Some x ->
  exists s', Matches (Star p) s g s' g /\ k s' = Some x.
Proof.
  induction s as [|c s IH]; simpl; intros H.
  - eauto.
  - destruct (p c) eqn:Hp; [|eauto].
    destruct (star p k s) as [y|] eqn:Hs.
    + injection H as ->. destruct (IH eq_refl) as (s' & Hm & Hk). eauto.
    + eauto.
Qed.

Lemma run_sound {A : Type} (r : regex) :
  forall (s : string) (g : captures) (k : string -> captures -> option A)
         (x : A),
    run r s g k = Some x ->
    exists s' g', Matches r s g s' g' /\ k s' g' = Some x.
Proof.
  induction r as [|p|r1 IH1 r2 IH2|r1 IH1 r2 IH2|r IH|p|n r IH];
    simpl; intros s g k x H.
  - exists s, g. auto.
  - destruct s as [|c s]; [discriminate|].
    destruct (p c) eqn:Hp; [|discriminate]. exists s, g. auto.
  - apply IH1 in H as (s1 & g1 & H1 & H).
    apply IH2 in H as (s2 & g2 & H2 & H). exists s2, g2. eauto.
  - destruct (run r1 s g k) as [y|] eqn:H1.
    + injection H as ->. apply IH1 in H1 as (s' & g' & Hm & Hk).
      exists s', g'. auto.
    + apply IH2 in H as (s' & g' & Hm & Hk). exists s', g'. auto.
  - destruct (run r s g k) as [y|] eqn:H1.
    + injection H as ->. apply IH in H1 as (s' & g' & Hm & Hk).
      exists s', g'. auto.
    + exists s, g. auto.
  - apply (star_sound p _ g) in H as (s' & Hm & Hk). exists s', g. auto.
  - apply IH in H as (s' & g' & Hm & Hk).
    exists s', ((n, consumed s s') :: g'). auto.
Qed.

Lemma match_sound (r : regex) (s : string) (m : match_obj) :
  match_ r s = Some m -> Matches r s [] (rest m) (groups m).
Proof.
  unfold match_. intros H.
  apply run_sound in H as (s' & g' & Hm & Hk). now injection Hk as <-.
Qed.

(** A match consumes a prefix. *)
Lemma Matches_prefix r s g s' g' :
  Matches r s g s' g' -> exists v, s = v ++ s'.
Proof.
  induction 1 as [s g|p c s g Hp|r1 r2 s g s1 g1 s2 g2 _ [v1 ->] _ [v2 ->]
                 | | | | |p s g|p c s g s' Hp _ [v ->]| ]; try assumption.
  - now exists "".
  - now exists (String c "").
  - exists (v1 ++ v2). now rewrite append_assoc.
  - now exists "".
  - now exists "".
  - now exists (String c v).
Qed.

Lemma consumed_append (v s : string) : consumed (v ++ s) s = v.
Proof.
  unfold consumed. rewrite length_append.
  replace (String.length v + String.length s - String.length s)%nat
    with (String.length v) by lia.
  apply take_append.
Qed.

(** Patterns without groups leave the groups alone. *)
Fixpoint groupless (r : regex) : bool :=
  match r with
  | Eps | Cls _ | Star _ => true
  | Seq r1 r2 | Alt r1 r2 => groupless r1 && groupless r2
  | Opt r1 => groupless r1
  | Group _ _ => false
  end.

Lemma Matches_groupless r s g s' g' :
  Matches r s g s' g' -> groupless r = true -> g' = g.
Proof.
  induction 1; simpl; intros Hg; try reflexivity;
    try (apply andb_prop in Hg as [Hg1 Hg2]); auto; try discriminate.
  rewrite IHMatches2, IHMatches1; auto.
Qed.

(** What [p+] matches: a non-empty run of characters of the class. *)
Lemma Matches_star p s g s' g' :
  Matches (Star p) s g s' g' ->
  g' = g /\ exists v, s = v ++ s' /\ Str.forallb p v = true.
Proof.
  remember (Star p) as r eqn:Hr. induction 1; try discriminate.
  - split; [reflexivity|]. now exists "".
  - injection Hr as ->. destruct (IHMatches eq_refl) as (_ & v & -> & Hv).
    split; [reflexivity|]. exists (String c v). simpl. now rewrite H, Hv.
Qed.

Lemma Matches_plus p s g s' g' :
  Matches (plus p) s g s' g' ->
  g' = g /\ exists v, s = v ++ s' /\ v <> "" /\ Str.forallb p v = true.
Proof.
  unfold plus. intros H. inversion H as [| |? ? ? ? s1 g1 ? ? H1 H2| | | | | | |].
  subst. inversion H1; subst.
  apply Matches_star in H2 as (-> & v & -> & Hv).
  split; [reflexivity|]. exists (String c v). simpl.
  repeat split; [discriminate|].
  match goal with Hc : p c = true |- _ => now rewrite Hc, Hv end.
Qed.

End ReFacts.

(** ** [LogParser] *)

Module LogParserFacts.

Import Re ReFacts StrFacts LogParser.

Ltac inv_seq :=
  repeat match goal with
  | H : Matches (Seq _ _) _ _ _ _ |- _ => inversion H; subst; clear H
  end.

Ltac inv_group :=
  repeat match goal with
  | H : Matches (Group _ _) _ _ _ _ |- _ => inversion H; subst; clear H
  end.

Ltac inv_groupless :=
  repeat match goal with
  | H : Matches Eps _ _ _ _ |- _ => inversion H; subst; clear H
  | H : Matches (chr _) _ _ _ _ |- _ =>
      apply Matches_groupless in H; [subst | reflexivity]
  | H : Matches (Alt _ _) _ _ _ _ |- _ =>
      apply Matches_groupless in H; [subst | reflexivity]
  | H : Matches (plus (none_of _)) _ _ _ _ |- _ =>
      apply Matches_groupless in H; [subst | reflexivity]
  | H : Matches (plus nonspace) _ _ _ _ |- _ =>
      apply Matches_groupless in H; [subst | reflexivity]
  | H : Matches (plus word) _ _ _ _ |- _ =>
      apply Matches_groupless in H; [subst | reflexivity]
  end.

(** The groups of a match of the access-log pattern: all seven took part,
    the status is a non-empty run of digits, and the line starts with a
    digit. *)
Lemma apache_groups (line : string) (m : match_obj) :
  match_ apache_access line = Some m ->
  exists ip ts method url protocol status size c tail,
    groups m = [("size", size); ("status", status); ("protocol", protocol);
                ("url", url); ("method", method); ("timestamp", ts);
                ("ip", ip)]
    /\ status <> "" /\ Str.forallb Str.is_digit status = true
    /\ line = String c tail /\ Str.is_digit c = true.
Proof.
  intros H. apply match_sound in H.
  destruct m as [rest g]. simpl in *.
  unfold apache_access in H. cbn [seqs] in H.
  inv_seq. inv_group. inv_groupless.
  match goal with
  | H : Matches (plus digit) _ _ _ _ |- _ =>
      apply Matches_plus in H as (-> & v & -> & Hne & Hd)
  end.
  match goal with
  | H : Matches (Seq (plus digit) _) _ _ _ _ |- _ =>
      inversion H as [| |? ? ? ? sa ga ? ? Ha Hb| | | | | | |]; subst; clear H;
      apply Matches_groupless in Hb; [subst | reflexivity];
      apply Matches_plus in Ha as (-> & w & -> & Hwne & Hwd)
  end.
  rewrite consumed_append.
  destruct w as [|c w]; [congruence|].
  simpl in Hwd. apply andb_prop in Hwd as [Hc _].
  do 9 eexists. repeat split; eauto.
Qed.

(** The name [first_match] answers tells which pattern matched. *)
Lemma first_match_name (line name : string) (m : match_obj) :
  first_match patterns line = Some (name, m) ->
  (name = "apache_access" /\ match_ apache_access line = Some m)
  \/ (String.eqb name "apache_access" = false
      /\ match_ apache_access line = None).
Proof.
  unfold patterns. simpl.
  destruct (match_ apache_access line) as [m0|].
  - intros [= <- <-]. now left.
  - destruct (match_ application_log line); [intros [= <- <-]; now right|].
    destruct (match_ system_log line); [intros [= <- <-]; now right|].
    destruct (match_ iis_log line); [intros [= <- <-]; now right|].
    discriminate.
Qed.

Lemma first_match_apache (line : string) (m : match_obj) :
  match_ apache_access line = Some m ->
  first_match patterns line = Some ("apache_access", m).
Proof. intros H. unfold patterns. simpl. now rewrite H. Qed.

(** The entry of an access-log line: [int] receives the digits of the
    status and refuses them when they are more than the limit. *)
Lemma apache_entry (line : string) (m : match_obj) (n : Z)
    (now : DT.datetime) :
  match_ apache_access line = Some m ->
  exists ts method url status,
    get (groups m) "method" = Some method
    /\ get (groups m) "url" = Some url
    /\ get (groups m) "status" = Some status
    /\ get (groups m) "timestamp" = Some ts
    /\ status <> "" /\ Str.forallb Str.is_digit status = true
    /\ String.eqb line "" || Str.startswith line "#" = false
    /\ entry_of_match "apache_access" (groups m) line n now
       = if Str.too_long status then Raise ValueError
         else Ok (LogEntry_init
                    match parse_timestamp ts with Some t => t | None => now end
                    (if (Str.digits_val status <? 400)%Z
                     then "INFO" else "ERROR")
                    (method ++ " " ++ url ++ " - " ++ status) "apache"
                    line n).
Proof.
  intros H. apply apache_groups in H
    as (ip & ts & method & url & protocol & status & size & c & tail
        & Hg & Hne & Hd & Hl & Hc).
  exists ts, method, url, status. rewrite Hg.
  repeat split; try assumption; try reflexivity.
  - rewrite Hl. unfold Str.startswith.
    cbn [String.eqb String.prefix orb].
    destruct (ascii_dec "#" c) as [<-|]; [discriminate Hc | reflexivity].
  - unfold entry_of_match, get_default.
    cbn [get String.eqb Ascii.eqb Bool.eqb].
    rewrite (int_digits status Hne Hd).
    destruct (Str.too_long status); reflexivity.
Qed.

(** The body of the loop raises on no line of another pattern. *)
Lemma entry_of_match_ok (line name : string) (g : captures) (n : Z)
    (now : DT.datetime) :
  String.eqb name "apache_access" = false ->
  exists e, entry_of_match name g line n now = Ok e.
Proof.
  intros Hn. unfold entry_of_match. rewrite Hn.
  destruct (String.eqb name "system_log"); eauto.
Qed.

Lemma first_match_none (line : string) :
  first_match patterns line = None -> match_ apache_access line = None.
Proof.
  unfold patterns. cbn [first_match].
  destruct (match_ apache_access line); [discriminate | reflexivity].
Qed.

(** the access-log lines [parse_line] fails on: [int()] refuses the status *)
Definition overlong (line : string) : bool :=
  match match_ apache_access (Str.strip line) with
  | Some m => Str.too_long (get_default (groups m) "status" "0")
  | None => false
  end.

(** What [parse_line] answers for a line that is neither blank nor a
    comment: the three stages of the fallback chain. *)
Definition classified (t : string) (n : Z) (now : DT.datetime)
    (e : LogEntry) : Prop :=
  (exists name m,
      first_match patterns t = Some (name, m)
      /\ entry_of_match name (groups m) t n now = Ok e)
  \/ (first_match patterns t = None
      /\ exists m,
          search fallback t = Some m
          /\ e = LogEntry_init now (get_default (groups m) "1" "")
                               t "unknown" t n)
  \/ (first_match patterns t = None
      /\ search fallback t = None
      /\ e = LogEntry_init now "INFO" t "unknown" t n).

(** What [parse_line] does with a line: [None] for a blank line or a
    comment, [ValueError] for an access-log line whose status has more
    digits than [int()] converts, an entry in every other case. *)
Lemma parse_line_cases (line : string) (n : Z) (now : DT.datetime) :
  let t := Str.strip line in
  (String.eqb t "" || Str.startswith t "#" = true
   /\ parse_line line n now = Ok None)
  \/ (String.eqb t "" || Str.startswith t "#" = false
      /\ overlong line = true
      /\ parse_line line n now = Raise ValueError)
  \/ (String.eqb t "" || Str.startswith t "#" = false
      /\ overlong line = false
      /\ exists e, parse_line line n now = Ok (Some e)
                   /\ classified t n now e).
Proof.
  cbn zeta. unfold parse_line, overlong.
  destruct (String.eqb (Str.strip line) ""
            || Str.startswith (Str.strip line) "#"); [now left | right].
  destruct (first_match patterns (Str.strip line)) as [[name m]|] eqn:Hm.
  - pose proof Hm as Hn. apply first_match_name in Hn as [[-> H]|[Hn H]].
    + rewrite H.
      destruct (apache_entry _ _ n now H)
        as (ts & method & url & status & _ & _ & Hst & _ & _ & _ & _ & He).
      assert (Ho : Str.too_long (get_default (groups m) "status" "0")
                   = Str.too_long status)
        by (unfold get_default; now rewrite Hst).
      rewrite Ho, He. destruct (Str.too_long status).
      * left. auto.
      * right. repeat split. eexists. split; [reflexivity|].
        left. exists "apache_access", m. now rewrite He.
    + rewrite H. right. repeat split.
      destruct (entry_of_match_ok (Str.strip line) name (groups m) n now Hn)
        as [e He].
      rewrite He. exists e. split; [reflexivity|]. left. now exists name, m.
  - rewrite (first_match_none _ Hm). right. repeat split.
    destruct (search fallback (Str.strip line)) as [m|] eqn:Hs.
    + eexists. split; [reflexivity|]. right; left. eauto.
    + eexists. split; [reflexivity|]. right; right. auto.
Qed.

(** [parse_line] raises nothing but the [ValueError] of [int()]. *)
Lemma parse_line_raises (line : string) (n : Z) (now : DT.datetime)
    (e : exn) :
  parse_line line n now = Raise e -> e = ValueError /\ overlong line = true.
Proof.
  intros H. destruct (parse_line_cases line n now)
    as [[_ H']|[(_ & Ho & H')|(_ & _ & x & H' & _)]];
    rewrite H' in H; try discriminate H.
  injection H as <-. now split.
Qed.

Definition noon : DT.datetime := DT.Datetime 2024 1 15 12 0 0 0 None.

Fixpoint repeat_char (c : ascii) (n : nat) : string :=
  match n with
  | O => EmptyString
  | S n' => String c (repeat_char c n')
  end.

(** an access-log line whose status has 4301 digits *)
Definition long_status_line : string :=
  "10.0.0.1 - - [15/Jan/2024:10:30:33 +0000] "
  ++ Str.dquote ++ "GET / HTTP/1.1" ++ Str.dquote ++ " "
  ++ repeat_char "2" 4301 ++ " 0".

(** C1.  The claim fails on the code: for an access-log line whose status
    has more digits than [int()] converts, [parse_line] returns neither an
    entry nor [None]; the [ValueError] of [int()] leaves it. *)
Theorem parse_line_long_status :
  Str.is_ascii long_status_line = true
  /\ Str.strip long_status_line <> ""
  /\ Str.startswith (Str.strip long_status_line) "#" = false
  /\ parse_line long_status_line 1 noon = Raise ValueError.
Proof.
  repeat split; try (vm_compute; reflexivity).
  intros H. apply (f_equal String.length) in H. vm_compute in H.
  discriminate H.
Qed.

(** C7.  On ASCII text, when the access-log pattern matches the trimmed
    line, the status is a non-empty run of digits.  Unless the digits are
    more than [int()] converts, in which case [parse_line] raises
    [ValueError] and there is no entry, the entry has level [INFO] if the
    status, read as a decimal number, is below 400 and [ERROR] otherwise;
    its message is the method, the URL and the status joined as
    [METHOD URL - STATUS]; its source is the tag [apache]. *)
Theorem apache_access_entry (line : string) (n : Z) (now : DT.datetime)
    (m : match_obj) :
  Str.is_ascii line = true ->
  match_ apache_access (Str.strip line) = Some m ->
  exists method url status,
    get (groups m) "method" = Some method
    /\ get (groups m) "url" = Some url
    /\ get (groups m) "status" = Some status
    /\ status <> "" /\ Str.forallb Str.is_digit status = true
    /\ if Str.too_long status
       then parse_line line n now = Raise ValueError
       else exists e,
              parse_line line n now = Ok (Some e)
              /\ level e = (if (Str.digits_val status <? 400)%Z
                            then "INFO" else "ERROR")
              /\ message e = method ++ " " ++ url ++ " - " ++ status
              /\ source e = "apache".
Proof.
  intros _ H. pose proof (first_match_apache _ _ H) as Hf.
  destruct (apache_entry _ _ n now H)
    as (ts & method & url & status & Hm & Hu & Hst & _ & Hne & Hd & Hs & He).
  exists method, url, status. repeat split; try assumption.
  unfold parse_line. rewrite Hs, Hf, He.
  destruct (Str.too_long status); [reflexivity|].
  eexists. split; [reflexivity|]. cbn [level message source LogEntry_init].
  repeat split. now destruct (Str.digits_val status <? 400)%Z.
Qed.

(** *** The keyword fallback *)

(** [w] is a prefix of [s], letter case apart *)
Fixpoint ci_prefix (w s : string) : bool :=
  match w, s with
  | EmptyString, _ => true
  | String c w', String x s' =>
      Ascii.eqb (Str.lower_char x) (Str.lower_char c) && ci_prefix w' s'
  | String _ _, EmptyString => false
  end.

Lemma run_lit_i {A : Type} (w : string) :
  forall (s : string) (g : captures) (k : string -> captures -> option A),
    run (lit_i w) s g k
    = if ci_prefix w s then k (Str.drop (String.length w) s) g else None.
Proof.
  induction w as [|c w IH]; intros s g k; simpl; [reflexivity|].
  destruct s as [|x s]; [reflexivity|].
  destruct (Ascii.eqb (Str.lower_char x) (Str.lower_char c)); simpl;
    [apply IH | reflexivity].
Qed.

Lemma ci_prefix_split (w s : string) :
  ci_prefix w s = true ->
  s = Str.take (String.length w) s ++ Str.drop (String.length w) s
  /\ Str.upper (Str.take (String.length w) s) = Str.upper w.
Proof.
  revert s; induction w as [|c w IH]; intros s H; simpl.
  - now destruct s.
  - destruct s as [|x s]; [discriminate|]. simpl in H.
    apply andb_prop in H as [Hc Hw]. apply Ascii.eqb_eq in Hc.
    destruct (IH s Hw) as [Hs Hu]. split.
    + simpl. now rewrite <- Hs.
    + unfold Str.upper in *. simpl.
      now rewrite (lower_eq_upper_eq _ _ Hc), Hu.
Qed.

Definition severity_keywords : list string :=
  ["ERROR"; "WARN"; "INFO"; "DEBUG"; "TRACE"; "FATAL"].

(** the first alternative of the fallback pattern that matches at the
    start of [s] *)
Definition keyword_at (s : string) : option string :=
  find (fun kw => ci_prefix kw s) severity_keywords.

Lemma keyword_at_in (s kw : string) :
  keyword_at s = Some kw -> In kw severity_keywords /\ ci_prefix kw s = true.
Proof. intros H. now apply find_some in H. Qed.

Lemma match_fallback (s : string) :
  match_ fallback s
  = match keyword_at s with
    | Some kw =>
        Some (MatchObj (Str.drop (String.length kw) s)
                       [("1", Str.take (String.length kw) s)])
    | None => None
    end.
Proof.
  assert (Hc : forall kw, ci_prefix kw s = true ->
    consumed s (Str.drop (String.length kw) s) = Str.take (String.length kw) s).
  { intros kw H. destruct (ci_prefix_split kw s H) as [Hs _].
    rewrite Hs at 1. apply consumed_append. }
  unfold match_, fallback, keyword_at, severity_keywords.
  cbn [run alts find]. rewrite !run_lit_i.
  repeat match goal with
  | |- context [ci_prefix ?kw s] =>
      destruct (ci_prefix kw s) eqn:?; [now rewrite (Hc kw)|]
  end.
  reflexivity.
Qed.

(** the keyword [search] finds: the one at the leftmost position that has
    one *)
Fixpoint first_keyword (s : string) : option (string * string) :=
  match keyword_at s with
  | Some kw => Some (kw, Str.take (String.length kw) s)
  | None =>
      match s with
      | EmptyString => None
      | String _ s' => first_keyword s'
      end
  end.

Lemma search_fallback (s : string) :
  option_map (fun m => get_default (groups m) "1" "") (search fallback s)
  = option_map snd (first_keyword s).
Proof.
  induction s as [|c s IH].
  - cbn [search first_keyword]. rewrite match_fallback.
    now destruct (keyword_at "").
  - cbn [search first_keyword]. rewrite match_fallback.
    destruct (keyword_at (String c s)); [reflexivity | exact IH].
Qed.

(** The text found reads, in upper case, as the keyword. *)
Lemma first_keyword_upper (s kw found : string) :
  first_keyword s = Some (kw, found) ->
  In kw severity_keywords /\ Str.upper found = kw.
Proof.
  induction s as [|c s IH]; cbn [first_keyword];
    destruct (keyword_at _) as [kw'|] eqn:Hk; try discriminate; auto.
  all: intros [= <- <-]; apply keyword_at_in in Hk as [Hin Hp];
    split; [assumption|];
    destruct (ci_prefix_split _ _ Hp) as [_ ->];
    simpl in Hin; decompose [or] Hin; subst; try reflexivity; contradiction.
Qed.

Lemma ci_prefix_lower (w s : string) :
  String.prefix (Str.lower w) (Str.lower s) = true -> ci_prefix w s = true.
Proof.
  revert s; induction w as [|c w IH]; intros [|x s]; simpl; auto.
  destruct (Ascii.ascii_dec (Str.lower_char c) (Str.lower_char x)) as [->|];
    [|discriminate].
  intros H. rewrite Ascii.eqb_refl. now apply IH.
Qed.

Lemma prefix_shorter (w v s : string) :
  String.prefix (w ++ v) s = true -> String.prefix w s = true.
Proof.
  revert s; induction w as [|c w IH]; intros [|x s]; simpl; auto.
  destruct (Ascii.ascii_dec c x); [apply IH | discriminate].
Qed.

(** A line that contains [warning], in any letter case, has a keyword. *)
Lemma warning_has_keyword (s : string) :
  Str.contains (Str.lower s) "warning" = true -> first_keyword s <> None.
Proof.
  induction s as [|c s IH]; [discriminate|].
  change (Str.lower (String c s))
    with (String (Str.lower_char c) (Str.lower s)).
  cbn [Str.contains first_keyword]. intros H.
  destruct (keyword_at (String c s)) eqn:Hk; [discriminate|].
  apply orb_prop in H as [H|H]; [|now apply IH].
  exfalso.
  assert (Hw : ci_prefix "WARN" (String c s) = true).
  { apply ci_prefix_lower. apply (prefix_shorter _ "ing"). exact H. }
  unfold keyword_at, severity_keywords in Hk. cbn [find] in Hk.
  rewrite Hw in Hk. now destruct (ci_prefix "ERROR" (String c s)).
Qed.

(** No keyword before the first [warn]: the keyword found is [WARN]. *)
Lemma first_keyword_warn (pre post : string) :
  ci_prefix "WARN" post = true ->
  (forall i, (i < String.length pre)%nat ->
             keyword_at (Str.drop i (pre ++ post)) = None) ->
  option_map fst (first_keyword (pre ++ post)) = Some "WARN".
Proof.
  intros Hw. induction pre as [|c pre IH]; intros Hno.
  - simpl "++". destruct post as [|x post]; [discriminate|].
    cbn [first_keyword]. unfold keyword_at, severity_keywords. cbn [find].
    rewrite Hw.
    destruct (ci_prefix "ERROR" (String x post)) eqn:He; [|reflexivity].
    exfalso. simpl in He, Hw.
    apply andb_prop in He as [He _]. apply andb_prop in Hw as [Hw _].
    apply Ascii.eqb_eq in He, Hw. rewrite He in Hw. discriminate Hw.
  - change (String c pre ++ post) with (String c (pre ++ post)).
    cbn [first_keyword].
    assert (H0 : keyword_at (String c (pre ++ post)) = None)
      by (apply (Hno 0%nat); simpl; lia).
    rewrite H0. apply IH. intros i Hi. apply (Hno (S i)). simpl. lia.
Qed.

(** An access-log line with status 403, and its match. *)
Definition forbidden_line : string :=
  "192.168.1.102 - - [15/Jan/2024:10:30:33 +0530] "
  ++ Str.dquote ++ "GET /admin HTTP/1.1" ++ Str.dquote ++ " 403 145".

Definition forbidden_match : match_obj :=
  MatchObj ""
    [("size", "145"); ("status", "403"); ("protocol", "HTTP/1.1");
     ("url", "/admin"); ("method", "GET");
     ("timestamp", "15/Jan/2024:10:30:33 +0530"); ("ip", "192.168.1.102")].

(** The line with the status 403 is an [ERROR], the one with 200 an
    [INFO]. *)
Lemma apache_access_entry_witness :
  exists e,
    parse_line forbidden_line 3 noon = Ok (Some e)
    /\ level e = "ERROR"
    /\ message e = "GET /admin - 403"
    /\ source e = "apache".
Proof.
  assert (Ha : Str.is_ascii forbidden_line = true) by (vm_compute; reflexivity).
  assert (Hm : match_ apache_access (Str.strip forbidden_line)
               = Some forbidden_match) by (vm_compute; reflexivity).
  destruct (apache_access_entry forbidden_line 3 noon forbidden_match Ha Hm)
    as (method & url & status & H1 & H2 & H3 & _ & _ & H).
  injection H1 as <-. injection H2 as <-. injection H3 as <-.
  exact H.
Defined.

(** The date and the time of day of a timestamp, without the fraction *)
Definition components (t : DT.datetime) : Z * Z * Z * Z * Z * Z :=
  (DT.year t, DT.month t, DT.day t, DT.hour t, DT.minute t, DT.second t).

(** C2.  [parse_timestamp] succeeds on the five sample timestamps, with
    the same date and time of day, 2024-01-15 10:30:25, for all of them, and
    answers [None] on [not-a-time]. *)
Theorem parse_timestamp_samples :
  map (fun s => option_map components (parse_timestamp s))
      ["2024-01-15 10:30:25"; "2024-01-15 10:30:25.123";
       "2024-01-15 10:30:25,456"; "2024-01-15T10:30:25";
       "2024-01-15T10:30:25.123Z"]
  = repeat (Some (2024, 1, 15, 10, 30, 25)%Z) 5
  /\ parse_timestamp "not-a-time" = None.
Proof. split; vm_compute; reflexivity. Qed.

(** How the fourth sample gets its value: no format of the list accepts it
    (the suffix added for the [%z] format is still there when the format
    with [T] is tried), and the ISO fallback reads the suffixed string as a
    UTC time. *)
Lemma parse_timestamp_T_sample :
  try_formats timestamp_formats "2024-01-15T10:30:25"
  = inr "2024-01-15T10:30:25 +0000"
  /\ parse_timestamp "2024-01-15T10:30:25"
     = Some (DT.Datetime 2024 1 15 10 30 25 0 (Some 0%Z)).
Proof. split; vm_compute; reflexivity. Qed.

End LogParserFacts.

(** ** [LogAnalyzer]: statistics *)

Module StatisticsFacts.

Import LogAnalyzer.

Lemma total_incr {K : Type} (eqb : K -> K -> bool) (k : K)
    (c : list (K * nat)) :
  Counter.total (Counter.incr eqb k c) = S (Counter.total c).
Proof.
  induction c as [|[k' n] c IH]; simpl; [reflexivity|].
  destruct (eqb k' k); simpl; [reflexivity|].
  fold (Counter.total (Counter.incr eqb k c)). fold (Counter.total c).
  rewrite IH. lia.
Qed.

(** The counts of a [Counter] add up to the number of items counted. *)
Lemma total_of_list {K : Type} (eqb : K -> K -> bool) (l : list K) :
  Counter.total (Counter.of_list eqb l) = length l.
Proof.
  unfold Counter.of_list.
  assert (H : forall c,
             Counter.total (fold_left (fun c k => Counter.incr eqb k c) l c)
             = (length l + Counter.total c)%nat).
  { induction l as [|k l IH]; intros c; simpl; [reflexivity|].
    rewrite IH, total_incr. lia. }
  rewrite H. simpl. lia.
Qed.

(** Two filters that exclude each other keep at most the whole list. *)
Lemma filter_disjoint {A : Type} (p q : A -> bool) (l : list A) :
  (forall x, p x = true -> q x = false) ->
  (length (filter p l) + length (filter q l) <= length l)%nat.
Proof.
  intros H. induction l as [|x l IH]; simpl; [lia|].
  destruct (p x) eqn:Hp; [rewrite (H x Hp)|destruct (q x)]; simpl; lia.
Qed.

(** a timestamp with a time zone *)
Definition aware (t : DT.datetime) : bool := Py.is_some (DT.tzinfo t).

(** A list that holds a naive and an aware timestamp. *)
Definition mixed (l : list DT.datetime) : Prop :=
  exists a b, In a l /\ In b l /\ aware a = false /\ aware b = true.

Lemma cmp_raise (a b : DT.datetime) (e : exn) :
  DT.cmp a b = Raise e -> e = TypeError /\ aware a <> aware b.
Proof.
  unfold DT.cmp, aware.
  destruct (DT.tzinfo a), (DT.tzinfo b); simpl; intros [=]; subst;
    split; auto; discriminate.
Qed.

Lemma cmp_ok (a b : DT.datetime) :
  aware a = aware b -> exists c, DT.cmp a b = Ok c.
Proof.
  unfold DT.cmp, aware.
  destruct (DT.tzinfo a), (DT.tzinfo b); simpl; intros H;
    try discriminate; eauto.
Qed.

Lemma mixed_pair (a b : DT.datetime) (l : list DT.datetime) :
  In a l -> In b l -> aware a <> aware b -> mixed l.
Proof.
  intros Ha Hb H. unfold mixed.
  destruct (aware a) eqn:Ea, (aware b) eqn:Eb; try congruence.
  - exists b, a. auto.
  - exists a, b. auto.
Qed.

(** A pass of [min] or [max] fails only with [TypeError], on a mixed
    list, and otherwise picks a member. *)
Lemma min_from_cases (l : list DT.datetime) :
  forall m : DT.datetime,
    match Py.min_from m l with
    | Ok x => In x (m :: l)
    | Raise e => e = TypeError /\ mixed (m :: l)
    end.
Proof.
  induction l as [|x l IH]; intros m; simpl; [auto|].
  unfold DT.lt. destruct (DT.cmp x m) as [c|e] eqn:Hc; simpl.
  - destruct c; simpl;
      match goal with
      | |- context [Py.min_from ?z l] =>
          specialize (IH z); destruct (Py.min_from z l) as [y|e];
          [ simpl in *; intuition
          | destruct IH as [-> (a & b & Ha & Hb & H)]; split; [reflexivity|];
            exists a, b; simpl in *; intuition ]
      end.
  - apply cmp_raise in Hc as [-> Hc]. split; [reflexivity|].
    apply (mixed_pair x m); simpl; auto.
Qed.

Lemma max_from_cases (l : list DT.datetime) :
  forall m : DT.datetime,
    match Py.max_from m l with
    | Ok x => In x (m :: l)
    | Raise e => e = TypeError /\ mixed (m :: l)
    end.
Proof.
  induction l as [|x l IH]; intros m; simpl; [auto|].
  unfold DT.gt. destruct (DT.cmp x m) as [c|e] eqn:Hc; simpl.
  - destruct c; simpl;
      match goal with
      | |- context [Py.max_from ?z l] =>
          specialize (IH z); destruct (Py.max_from z l) as [y|e];
          [ simpl in *; intuition
          | destruct IH as [-> (a & b & Ha & Hb & H)]; split; [reflexivity|];
            exists a, b; simpl in *; intuition ]
      end.
  - apply cmp_raise in Hc as [-> Hc]. split; [reflexivity|].
    apply (mixed_pair x m); simpl; auto.
Qed.

(** Without a mixed pair the pass succeeds. *)
Lemma min_from_ok (l : list DT.datetime) (m : DT.datetime) :
  ~ mixed (m :: l) -> exists x, Py.min_from m l = Ok x.
Proof.
  intros H. pose proof (min_from_cases l m) as Hc.
  destruct (Py.min_from m l); [eauto | tauto].
Qed.

Lemma max_from_ok (l : list DT.datetime) (m : DT.datetime) :
  ~ mixed (m :: l) -> exists x, Py.max_from m l = Ok x.
Proof.
  intros H. pose proof (max_from_cases l m) as Hc.
  destruct (Py.max_from m l); [eauto | tauto].
Qed.

Definition is_error (e : LogEntry) : bool :=
  Py.mem (level e) ["ERROR"; "FATAL"].

Definition is_warning (e : LogEntry) : bool := String.eqb (level e) "WARNING".

Lemma error_not_warning (e : LogEntry) :
  is_error e = true -> is_warning e = false.
Proof.
  unfold is_error, is_warning, Py.mem. simpl.
  destruct (String.eqb_spec (level e) "WARNING") as [->|]; [|reflexivity].
  discriminate.
Qed.

(** What [generate_statistics] does on a non-empty record set. *)
Lemma generate_statistics_cases (self : LogAnalyzer) :
  entries self <> [] ->
  match generate_statistics self with
  | (Ok (Some st), self') =>
      self' = mkLogAnalyzer (entries self) (Some st)
      /\ total_entries st = length (entries self)
      /\ level_distribution st
         = Counter.of_list String.eqb (map level (entries self))
      /\ error_count st = length (filter is_error (entries self))
      /\ warning_count st = length (filter is_warning (entries self))
  | (Ok None, _) => False
  | (Raise e, self') =>
      e = TypeError /\ self' = self
      /\ mixed (map timestamp (entries self))
  end.
Proof.
  intros Hne. unfold generate_statistics.
  destruct (entries self) as [|e0 es] eqn:He; [congruence|].
  set (l := e0 :: es) in *.
  unfold Py.truediv. change (length l) with (S (length es)).
  cbn [bind].
  change (map timestamp l) with (timestamp e0 :: map timestamp es).
  cbn [Py.min Py.max].
  pose proof (min_from_cases (map timestamp es) (timestamp e0)) as Hmin.
  pose proof (max_from_cases (map timestamp es) (timestamp e0)) as Hmax.
  destruct (Py.min_from _ _) as [first|e]; cbn [bind].
  - destruct (Py.max_from _ _) as [last|e]; cbn [bind].
    + repeat split; reflexivity.
    + destruct Hmax as [-> Hmax]. auto.
  - destruct Hmin as [-> Hmin]. auto.
Qed.

(** C6.  On a non-empty record set the snapshot [generate_statistics]
    produces has level counts that add up to [total_entries], and
    [error_count + warning_count] is at most [total_entries].  A snapshot
    is produced unless the set mixes naive and aware timestamps, on which
    the pass over the timestamps raises [TypeError]. *)
Theorem statistics_counts (self : LogAnalyzer) :
  entries self <> [] ->
  match generate_statistics self with
  | (Ok (Some st), self') =>
      stats self' = Some st
      /\ Counter.total (level_distribution st) = total_entries st
      /\ (error_count st + warning_count st <= total_entries st)%nat
  | (Ok None, _) => False
  | (Raise e, _) => e = TypeError /\ mixed (map timestamp (entries self))
  end.
Proof.
  intros Hne. pose proof (generate_statistics_cases self Hne) as H.
  destruct (generate_statistics self) as [[[st|]|e] self']; [|exact H|tauto].
  destruct H as (-> & Ht & Hl & Herr & Hw). repeat split.
  - rewrite Hl, total_of_list, Ht. apply length_map.
  - rewrite Herr, Hw, Ht. apply filter_disjoint, error_not_warning.
Qed.

(** two records, an error and a warning *)
Definition two_records : LogAnalyzer :=
  mkLogAnalyzer
    [LogEntry_init LogParserFacts.noon "error" "disk failed" "" "x" 1;
     LogEntry_init LogParserFacts.noon "warning" "disk full" "" "y" 2]
    None.

Lemma statistics_counts_witness :
  entries two_records <> []
  /\ match generate_statistics two_records with
     | (Ok (Some st), self') =>
         stats self' = Some st
         /\ Counter.total (level_distribution st) = total_entries st
         /\ (error_count st + warning_count st <= total_entries st)%nat
     | (Ok None, _) => False
     | (Raise e, _) =>
         e = TypeError /\ mixed (map timestamp (entries two_records))
     end.
Proof.
  split; [discriminate|]. apply (statistics_counts two_records). discriminate.
Defined.

(** No division of [generate_statistics] has a zero divisor. *)
Lemma generate_statistics_no_zero_division (self : LogAnalyzer) :
  fst (generate_statistics self) <> Raise ZeroDivisionError.
Proof.
  destruct (entries self) as [|e0 es] eqn:He.
  - unfold generate_statistics. rewrite He. discriminate.
  - assert (Hne : entries self <> []) by congruence.
    pose proof (generate_statistics_cases self Hne) as H.
    destruct (generate_statistics self) as [[o|e] self']; [discriminate|].
    destruct H as [-> _]. discriminate.
Qed.

(** C8.  On the empty record set [generate_statistics] returns the empty
    snapshot and stores it; it does not fail, and the divisions of the
    rates are not reached. *)
Theorem statistics_of_empty_set (self : LogAnalyzer) :
  entries self = [] ->
  generate_statistics self = (Ok None, mkLogAnalyzer [] None).
Proof.
  intros H. unfold generate_statistics. now rewrite H.
Qed.

Lemma statistics_of_empty_set_witness :
  entries LogAnalyzer_init = []
  /\ generate_statistics LogAnalyzer_init = (Ok None, mkLogAnalyzer [] None).
Proof.
  split; [reflexivity|]. apply (statistics_of_empty_set LogAnalyzer_init).
  reflexivity.
Defined.

End StatisticsFacts.

(** ** [LogAnalyzer]: loading *)

Module LoadFacts.

Import LogAnalyzer StatisticsFacts.

(** The records of the lines that are read, in order, up to the first
    line [parse_line] raises on, and that exception when there is one. *)
Fixpoint records (clock : Z -> DT.datetime) (lines : list string) (n : Z)
  : list LogEntry * option exn :=
  match lines with
  | [] => ([], None)
  | line :: lines' =>
      match LogParser.parse_line line n (clock n) with
      | Raise e => ([], Some e)
      | Ok o =>
          let (r, x) := records clock lines' (n + 1) in
          (match o with Some entry => entry :: r | None => r end, x)
      end
  end.

(** The loop over the lines appends the records in order and leaves the
    statistics alone; it counts every line when no line raises. *)
Lemma read_lines_records (clock : Z -> DT.datetime) (lines : list string) :
  forall (n : Z) (total parsed : nat) (self : LogAnalyzer),
    read_lines clock lines n total parsed self
    = (match snd (records clock lines n) with
       | Some e => Raise e
       | None => Ok ((total + length lines)%nat,
                     (parsed + length (fst (records clock lines n)))%nat)
       end,
       mkLogAnalyzer (entries self ++ fst (records clock lines n))%list
                     (stats self)).
Proof.
  induction lines as [|line lines IH]; intros n total parsed self;
    cbn [read_lines records].
  - cbn. rewrite app_nil_r, !Nat.add_0_r. now destruct self.
  - destruct (LogParser.parse_line line n (clock n)) as [[entry|]|e].
    + rewrite IH. destruct (records clock lines (n + 1)) as [r x].
      cbn [fst snd entries stats length]. rewrite <- app_assoc. cbn [app].
      destruct x; [reflexivity|]. do 3 f_equal; lia.
    + rewrite IH. destruct (records clock lines (n + 1)) as [r x].
      cbn [fst snd length]. destruct x; [reflexivity|]. do 3 f_equal; lia.
    + cbn. rewrite app_nil_r. now destruct self.
Qed.

(** Where the records stop: at a line whose status [int()] refuses; the
    set holds the records of the lines before it. *)
Lemma records_stop (clock : Z -> DT.datetime) (lines : list string) :
  forall (n : Z) (e : exn),
    snd (records clock lines n) = Some e ->
    e = ValueError
    /\ exists before line after,
         lines = (before ++ line :: after)%list
         /\ LogParserFacts.overlong line = true
         /\ records clock before n = (fst (records clock lines n), None).
Proof.
  induction lines as [|line lines IH]; intros n e; cbn [records];
    [discriminate|].
  destruct (LogParser.parse_line line n (clock n)) as [o|e'] eqn:Hp.
  - destruct (records clock lines (n + 1)) as [r x] eqn:Hr. cbn [fst snd].
    intros ->. destruct (IH (n + 1)%Z e) as (He & before & l & after & Hl & Ho & Hb).
    { now rewrite Hr. }
    split; [exact He|]. exists (line :: before), l, after.
    rewrite Hl. repeat split; [exact Ho|]. cbn [records]. rewrite Hp, Hb, Hr.
    reflexivity.
  - cbn [fst snd]. intros [= <-].
    apply LogParserFacts.parse_line_raises in Hp as [-> Ho].
    split; [reflexivity|]. exists [], line, lines. now repeat split.
Qed.

(** C3, as the code has it.  A load that fails because the path does not
    exist leaves the analyzer as it was.  Every other failing load has
    already discarded the previous record set; the set it leaves holds the
    records of the lines of the new file that were read before the
    failure: none when [open] fails; the records of the lines before the
    failing one when a line fails (the [ValueError] of [int()]) or the
    reading fails; all of them when the statistics pass fails, which it
    does with [TypeError] on timestamps that mix naive and aware ones.
    The statistics are the old ones in every case. *)
Theorem load_file_failure (fs : string -> file) (clock : Z -> DT.datetime)
    (file_path : string) (self : LogAnalyzer) (e : exn)
    (self' : LogAnalyzer) :
  load_file fs clock file_path self = (Raise e, self') ->
  stats self' = stats self
  /\ match fs file_path with
     | Missing => e = FileNotFoundError /\ entries self' = entries self
     | Denied => e = PermissionError /\ entries self' = []
     | Unopenable e0 => e = e0 /\ entries self' = []
     | Lines lines =>
         entries self' = fst (records clock lines 1)
         /\ match snd (records clock lines 1) with
            | Some _ =>
                e = ValueError
                /\ exists before line after,
                     lines = (before ++ line :: after)%list
                     /\ LogParserFacts.overlong line = true
                     /\ records clock before 1 = (entries self', None)
            | None => e = TypeError /\ mixed (map timestamp (entries self'))
            end
     | Broken lines e0 =>
         entries self' = fst (records clock lines 1)
         /\ match snd (records clock lines 1) with
            | Some _ =>
                e = ValueError
                /\ exists before line after,
                     lines = (before ++ line :: after)%list
                     /\ LogParserFacts.overlong line = true
                     /\ records clock before 1 = (entries self', None)
            | None => e = e0
            end
     end.
Proof.
  unfold load_file.
  destruct (fs file_path) as [| |lines|e0|lines e0] eqn:Hf.
  - intros [= <- <-]. auto.
  - intros [= <- <-]. auto.
  - rewrite read_lines_records. cbn [entries stats app].
    destruct (snd (records clock lines 1)) as [x|] eqn:Hx.
    + intros [= <- <-]. cbn [entries stats]. repeat split.
      * now destruct (records_stop clock lines 1 x Hx).
      * destruct (records_stop clock lines 1 x Hx) as (_ & H). exact H.
    + set (new := fst (records clock lines 1)).
      pose proof (generate_statistics_cases (mkLogAnalyzer new (stats self)))
        as H.
      destruct new as [|e0 new].
      { unfold generate_statistics. cbn [entries]. discriminate. }
      destruct (generate_statistics _) as [[o|e1] s1]; [discriminate|].
      intros [= <- <-]. destruct H as (-> & -> & Hm); [discriminate|].
      cbn [entries stats]. auto.
  - intros [= <- <-]. auto.
  - rewrite read_lines_records. cbn [entries stats app].
    destruct (snd (records clock lines 1)) as [x|] eqn:Hx.
    + intros [= <- <-]. cbn [entries stats]. repeat split.
      * now destruct (records_stop clock lines 1 x Hx).
      * destruct (records_stop clock lines 1 x Hx) as (_ & H). exact H.
    + intros [= <- <-]. cbn [entries stats]. auto.
Qed.

(** an analyzer that holds one record *)
Definition loaded : LogAnalyzer :=
  mkLogAnalyzer
    [LogEntry_init LogParserFacts.noon "INFO" "started" "" "started" 1] None.

(** a file system where every path exists and none may be read *)
Definition locked (path : string) : file := Denied.

Definition frozen (line_number : Z) : DT.datetime := LogParserFacts.noon.

(** a file of three lines, the second with a status [int()] refuses *)
Definition interrupted (path : string) : file :=
  Lines ["2024-01-15 10:30:25 [INFO]: started";
         LogParserFacts.long_status_line;
         "2024-01-15 10:30:27 [ERROR]: failed"].

(** The load of that file fails with [ValueError]; the record that was
    held is gone, and the set holds the record of the first line alone. *)
Lemma load_file_failure_witness :
  exists e self',
    load_file interrupted frozen "app.log" loaded = (Raise e, self')
    /\ e = ValueError
    /\ map raw_line (entries self')
       = ["2024-01-15 10:30:25 [INFO]: started"]
    /\ stats self' = stats loaded.
Proof.
  destruct (load_file interrupted frozen "app.log" loaded)
    as [[c|e] self'] eqn:H; [vm_compute in H; discriminate H|].
  exists e, self'. split; [reflexivity|].
  destruct (load_file_failure interrupted frozen "app.log" loaded e self' H)
    as (Hs & He & Hx).
  assert (Hr : records frozen
                 ["2024-01-15 10:30:25 [INFO]: started";
                  LogParserFacts.long_status_line;
                  "2024-01-15 10:30:27 [ERROR]: failed"] 1
               = ([LogEntry_init (DT.Datetime 2024 1 15 10 30 25 0 None)
                     "INFO" "started" ""
                     "2024-01-15 10:30:25 [INFO]: started" 1],
                  Some ValueError)) by (vm_compute; reflexivity).
  cbn [interrupted] in He, Hx. rewrite Hr in He, Hx. cbn [fst snd] in He, Hx.
  destruct Hx as [-> _]. rewrite He. repeat split. exact Hs.
Defined.

(** The claim as stated, that a failed load keeps the previous record set,
    fails: reading a file that exists and may not be read raises after the
    set has been cleared. *)
Lemma load_file_loses_records :
  ~ (forall fs clock file_path self e self',
        load_file fs clock file_path self = (Raise e, self') ->
        entries self' = entries self).
Proof.
  intros H.
  specialize (H locked frozen "app.log" loaded PermissionError
                (mkLogAnalyzer [] None) eq_refl).
  discriminate H.
Qed.

End LoadFacts.

(** ** [LogAnalyzer]: filtering *)

Module FilterFacts.

Import LogAnalyzer StatisticsFacts.

(** [l1] is [l2] with some items left out, the order kept. *)
Inductive subseq {A : Type} : list A -> list A -> Prop :=
| sub_nil : subseq [] []
| sub_skip x l1 l2 : subseq l1 l2 -> subseq l1 (x :: l2)
| sub_keep x l1 l2 : subseq l1 l2 -> subseq (x :: l1) (x :: l2).

#[local] Hint Constructors subseq : core.

Lemma subseq_refl {A : Type} (l : list A) : subseq l l.
Proof. induction l; auto. Qed.

Lemma subseq_trans {A : Type} (l1 l2 l3 : list A) :
  subseq l1 l2 -> subseq l2 l3 -> subseq l1 l3.
Proof.
  intros H12 H23. revert l1 H12.
  induction H23 as [|x l2 l3 _ IH|x l2 l3 _ IH]; intros l1 H12; auto.
  inversion H12; subst; auto.
Qed.

Lemma subseq_filter {A : Type} (f : A -> bool) (l : list A) :
  subseq (filter f l) l.
Proof. induction l as [|x l IH]; simpl; [|destruct (f x)]; auto. Qed.

Lemma subseq_Forall {A : Type} (P : A -> Prop) (l1 l2 : list A) :
  subseq l1 l2 -> Forall P l2 -> Forall P l1.
Proof.
  induction 1 as [|x l1 l2 _ IH|x l1 l2 _ IH]; intros HP; auto;
    inversion HP; subst; auto.
Qed.

Lemma filter_all {A : Type} (f : A -> bool) (l : list A) :
  Forall (fun x => f x = true) l -> filter f l = l.
Proof.
  induction 1 as [|x l Hx _ IH]; simpl; [reflexivity|]. now rewrite Hx, IH.
Qed.

Lemma filter_true {A : Type} (l : list A) : filter (fun _ => true) l = l.
Proof. induction l; simpl; congruence. Qed.

Lemma filter_kept {A : Type} (f : A -> bool) (l : list A) :
  Forall (fun x => f x = true) (filter f l).
Proof.
  induction l as [|x l IH]; simpl; [constructor|].
  destruct (f x) eqn:Hx; auto.
Qed.

Lemma filter_filter {A : Type} (f g : A -> bool) (l : list A) :
  filter g (filter f l) = filter (fun x => f x && g x) l.
Proof.
  induction l as [|x l IH]; simpl; [reflexivity|].
  destruct (f x); simpl; [destruct (g x)|]; now rewrite IH.
Qed.

(** A filter whose test may raise. *)
Lemma pyfilter_inv {A : Type} (p : A -> res bool) (l : list A) :
  forall r, Py.filter p l = Ok r ->
            subseq r l /\ Forall (fun x => p x = Ok true) r.
Proof.
  induction l as [|x l IH]; simpl; intros r H.
  - injection H as <-. auto.
  - destruct (p x) as [b|] eqn:Hx; [|discriminate]. simpl in H.
    destruct (Py.filter p l) as [r0|]; [|discriminate]. simpl in H.
    injection H as <-. destruct (IH r0 eq_refl) as [Hs Hf].
    destruct b; auto.
Qed.

Lemma pyfilter_all {A : Type} (p : A -> res bool) (l : list A) :
  Forall (fun x => p x = Ok true) l -> Py.filter p l = Ok l.
Proof.
  induction 1 as [|x l Hx _ IH]; simpl; [reflexivity|]. now rewrite Hx, IH.
Qed.

Lemma pyfilter_total {A : Type} (p : A -> res bool) (f : A -> bool)
    (l : list A) :
  Forall (fun x => p x = Ok (f x)) l -> Py.filter p l = Ok (filter f l).
Proof.
  induction 1 as [|x l Hx _ IH]; simpl; [reflexivity|].
  rewrite Hx, IH. simpl. now destruct (f x).
Qed.

(** A stage narrows: what it returns is a subsequence of what it is
    given, and it returns every subsequence of that unchanged. *)
Definition narrows {A : Type} (F : list A -> res (list A)) : Prop :=
  forall l r, F l = Ok r ->
              subseq r l /\ forall r', subseq r' r -> F r' = Ok r'.

Lemma narrows_id {A : Type} : narrows (fun l : list A => Ok l).
Proof. intros l r [= <-]. split; [apply subseq_refl | reflexivity]. Qed.

Lemma narrows_pyfilter {A : Type} (p : A -> res bool) :
  narrows (Py.filter p).
Proof.
  intros l r H. apply pyfilter_inv in H as [Hs Hf]. split; [assumption|].
  intros r' Hr. apply pyfilter_all. now apply (subseq_Forall _ _ _ Hr).
Qed.

Lemma narrows_filter {A : Type} (f : A -> bool) :
  narrows (fun l => Ok (filter f l)).
Proof.
  intros l r [= <-]. split; [apply subseq_filter|].
  intros r' Hr. f_equal. apply filter_all.
  apply (subseq_Forall _ _ _ Hr), filter_kept.
Qed.

Lemma narrows_bind {A : Type} (F G : list A -> res (list A)) :
  narrows F -> narrows G -> narrows (fun l => x <- F l ;; G x).
Proof.
  intros HF HG l r H. destruct (F l) as [x|] eqn:Hx; [|discriminate].
  simpl in H. destruct (HF l x Hx) as [Hs1 Hf1].
  destruct (HG x r H) as [Hs2 Hf2]. split.
  - now apply (subseq_trans _ x).
  - intros r' Hr. rewrite (Hf1 r') by now apply (subseq_trans _ r).
    simpl. now apply Hf2.
Qed.

(** *** The five stages of [filter_entries] *)

Definition by_start (c : criteria) (l : list LogEntry) : res (list LogEntry) :=
  match start_date c with
  | Some d => Py.filter (fun e => DT.ge (timestamp e) d) l
  | None => Ok l
  end.

Definition by_end (c : criteria) (l : list LogEntry) : res (list LogEntry) :=
  match end_date c with
  | Some d => Py.filter (fun e => DT.le (timestamp e) d) l
  | None => Ok l
  end.

Definition level_test (c : criteria) (e : LogEntry) : bool :=
  match levels c with
  | Some ((_ :: _) as levels) => Py.mem (level e) (map Str.upper levels)
  | _ => true
  end.

Definition keyword_test (c : criteria) (e : LogEntry) : bool :=
  match keywords c with
  | Some ((_ :: _) as keywords) =>
      existsb (fun pattern => Py.is_some (Re.search pattern (message e)))
              (map Re.escape_i keywords)
  | _ => true
  end.

Definition source_test (c : criteria) (e : LogEntry) : bool :=
  match source_filter c with
  | Some ((String _ _) as src) =>
      Str.contains (Str.lower (source e)) (Str.lower src)
  | _ => true
  end.

Definition stages (c : criteria) (l : list LogEntry) : res (list LogEntry) :=
  l1 <- by_start c l ;;
  l2 <- by_end c l1 ;;
  l3 <- Ok (filter (level_test c) l2) ;;
  l4 <- Ok (filter (keyword_test c) l3) ;;
  Ok (filter (source_test c) l4).

Lemma filter_entries_stages (c : criteria) (self : LogAnalyzer) :
  filter_entries c self = (stages c (entries self), self).
Proof.
  unfold filter_entries, stages, by_start, by_end.
  f_equal.
  destruct (match start_date c with Some _ => _ | None => _ end) as [l1|];
    [|reflexivity].
  cbn [bind].
  destruct (match end_date c with Some _ => _ | None => _ end) as [l2|];
    [|reflexivity].
  cbn [bind]. f_equal.
  unfold level_test, keyword_test, source_test.
  destruct (levels c) as [[|? ?]|], (keywords c) as [[|? ?]|],
    (source_filter c) as [[|? ?]|]; cbv iota beta;
    rewrite ?filter_true; reflexivity.
Qed.

Lemma narrows_stages (c : criteria) : narrows (stages c).
Proof.
  unfold stages.
  apply narrows_bind;
    [unfold by_start; destruct (start_date c);
     [apply narrows_pyfilter | apply narrows_id]|].
  apply narrows_bind;
    [unfold by_end; destruct (end_date c);
     [apply narrows_pyfilter | apply narrows_id]|].
  apply (narrows_bind (fun l => Ok (filter (level_test c) l)));
    [apply narrows_filter|].
  apply (narrows_bind (fun l => Ok (filter (keyword_test c) l)));
    apply narrows_filter.
Qed.

(** C5.  What [filter_entries] returns is a subsequence of the record
    set; filtering that result again by the same criteria returns it
    unchanged; and the analyzer, its record set included, is the same after
    the call as before. *)
Theorem filter_entries_narrows (c : criteria) (self : LogAnalyzer)
    (r : list LogEntry) :
  fst (filter_entries c self) = Ok r ->
  subseq r (entries self)
  /\ fst (filter_entries c (mkLogAnalyzer r (stats self))) = Ok r
  /\ snd (filter_entries c self) = self.
Proof.
  rewrite !filter_entries_stages. cbn [fst snd entries]. intros H.
  destruct (narrows_stages c _ _ H) as [Hs Hf].
  repeat split; [assumption|]. apply Hf, subseq_refl.
Qed.

(** *** The criteria in the words of the specification *)

(** the point in time of a timestamp: its local time less its UTC offset *)
Definition instant (t : DT.datetime) : Z :=
  (DT.local_us t - match DT.tzinfo t with Some off => off | None => 0 end)%Z.

(** [hay] contains [needle], letter case apart *)
Definition ci_contains (hay needle : string) : bool :=
  Str.contains (Str.lower hay) (Str.lower needle).

(** An entry meets the criteria when it meets each one that is supplied
    and not empty: not before the start, not after the end, its level one
    of the levels in upper case, one of the keywords in its message, the
    source text in its source. *)
Definition meets (c : criteria) (e : LogEntry) : bool :=
  match start_date c with
  | Some d => (instant d <=? instant (timestamp e))%Z
  | None => true
  end
  && match end_date c with
     | Some d => (instant (timestamp e) <=? instant d)%Z
     | None => true
     end
  && match levels c with
     | Some ((_ :: _) as ls) =>
         existsb (fun l => String.eqb (Str.upper l) (level e)) ls
     | _ => true
     end
  && match keywords c with
     | Some ((_ :: _) as kws) => existsb (ci_contains (message e)) kws
     | _ => true
     end
  && match source_filter c with
     | Some ((String _ _) as src) => ci_contains (source e) src
     | _ => true
     end.

(** The same with every supplied criterion applied, an empty list of
    levels or keywords included: the reading of the claim as stated. *)
Definition meets_supplied (c : criteria) (e : LogEntry) : bool :=
  match start_date c with
  | Some d => (instant d <=? instant (timestamp e))%Z
  | None => true
  end
  && match end_date c with
     | Some d => (instant (timestamp e) <=? instant d)%Z
     | None => true
     end
  && match levels c with
     | Some ls => existsb (fun l => String.eqb (Str.upper l) (level e)) ls
     | None => true
     end
  && match keywords c with
     | Some kws => existsb (ci_contains (message e)) kws
     | None => true
     end
  && match source_filter c with
     | Some src => ci_contains (source e) src
     | None => true
     end.

(** The time bounds can be compared with the timestamps of the entries:
    both naive or both aware. *)
Definition comparable (c : criteria) (l : list LogEntry) : Prop :=
  (forall d, start_date c = Some d ->
             Forall (fun e => aware (timestamp e) = aware d) l)
  /\ (forall d, end_date c = Some d ->
                Forall (fun e => aware (timestamp e) = aware d) l).

Lemma ge_instant (a b : DT.datetime) :
  aware a = aware b -> DT.ge a b = Ok (instant b <=? instant a)%Z.
Proof.
  unfold DT.ge, DT.cmp, aware, instant.
  destruct (DT.tzinfo a), (DT.tzinfo b); simpl; intros H; try discriminate;
    f_equal; rewrite Z.leb_compare, (Z.compare_antisym _ (_ - _)%Z);
    rewrite ?Z.sub_0_r;
    match goal with |- context [(?x ?= ?y)%Z] => now destruct (x ?= y)%Z end.
Qed.

Lemma le_instant (a b : DT.datetime) :
  aware a = aware b -> DT.le a b = Ok (instant a <=? instant b)%Z.
Proof.
  unfold DT.le, DT.cmp, aware, instant.
  destruct (DT.tzinfo a), (DT.tzinfo b); simpl; intros H; try discriminate;
    f_equal; rewrite Z.leb_compare; rewrite ?Z.sub_0_r;
    match goal with |- context [(?x ?= ?y)%Z] => now destruct (x ?= y)%Z end.
Qed.

Lemma ci_prefix_prefix (w s : string) :
  LogParserFacts.ci_prefix w s = String.prefix (Str.lower w) (Str.lower s).
Proof.
  revert s; induction w as [|c w IH]; intros [|x s]; simpl; auto.
  rewrite IH.
  destruct (Ascii.ascii_dec (Str.lower_char c) (Str.lower_char x)) as [->|H].
  - now rewrite Ascii.eqb_refl.
  - destruct (Ascii.eqb_spec (Str.lower_char x) (Str.lower_char c));
      [congruence | reflexivity].
Qed.

(** Searching an escaped keyword with [re.IGNORECASE] is looking for it
    as a substring, letter case apart. *)
Lemma search_escape_i (kw s : string) :
  Py.is_some (Re.search (Re.escape_i kw) s) = ci_contains s kw.
Proof.
  unfold ci_contains, Re.escape_i.
  assert (Hm : forall t, Py.is_some (Re.match_ (Re.lit_i kw) t)
                         = String.prefix (Str.lower kw) (Str.lower t)).
  { intros t. unfold Re.match_. rewrite LogParserFacts.run_lit_i.
    rewrite <- ci_prefix_prefix. now destruct (LogParserFacts.ci_prefix kw t). }
  induction s as [|c s IH].
  - cbn [Re.search]. specialize (Hm ""). simpl in *.
    destruct (Re.match_ (Re.lit_i kw) ""); simpl in *; rewrite <- Hm; reflexivity.
  - cbn [Re.search]. specialize (Hm (String c s)).
    change (Str.lower (String c s))
      with (String (Str.lower_char c) (Str.lower s)) in *.
    cbn [Str.contains]. rewrite <- Hm, <- IH.
    now destruct (Re.match_ (Re.lit_i kw) (String c s)).
Qed.

Lemma level_test_meets (ls : list string) (e : LogEntry) :
  Py.mem (level e) (map Str.upper ls)
  = existsb (fun l => String.eqb (Str.upper l) (level e)) ls.
Proof.
  unfold Py.mem. induction ls as [|l ls IH]; simpl; [reflexivity|].
  now rewrite IH, String.eqb_sym.
Qed.

Lemma keyword_test_meets (kws : list string) (e : LogEntry) :
  existsb (fun pattern => Py.is_some (Re.search pattern (message e)))
          (map Re.escape_i kws)
  = existsb (ci_contains (message e)) kws.
Proof.
  induction kws as [|kw kws IH]; simpl; [reflexivity|].
  now rewrite IH, search_escape_i.
Qed.

(** The requested levels, keywords and source text are ASCII text. *)
Definition ascii_criteria (c : criteria) : bool :=
  match levels c with
  | Some ls => forallb Str.is_ascii ls
  | None => true
  end
  && match keywords c with
     | Some kws => forallb Str.is_ascii kws
     | None => true
     end
  && match source_filter c with
     | Some src => Str.is_ascii src
     | None => true
     end.

(** The texts of an entry the criteria are matched against, its message
    and its source, are ASCII text. *)
Definition ascii_entry (e : LogEntry) : bool :=
  Str.is_ascii (message e) && Str.is_ascii (source e).

(** C4, as the code has it.  On ASCII text, where [str.upper],
    [str.lower] and [re.IGNORECASE] are the case mappings of this file:
    when the time bounds can be compared with the timestamps,
    [filter_entries] returns exactly the entries, in their order, that
    meet every criterion that is supplied and not empty; a criterion that
    is absent or empty filters nothing. *)
Theorem filter_entries_exact (c : criteria) (self : LogAnalyzer) :
  ascii_criteria c = true ->
  forallb ascii_entry (entries self) = true ->
  comparable c (entries self) ->
  filter_entries c self = (Ok (filter (meets c) (entries self)), self).
Proof.
  intros _ _ [Hs He]. rewrite filter_entries_stages. f_equal.
  unfold stages, by_start, by_end. set (l := entries self) in *.
  set (f1 := fun e => match start_date c with
                      | Some d => (instant d <=? instant (timestamp e))%Z
                      | None => true
                      end).
  set (f2 := fun e => match end_date c with
                      | Some d => (instant (timestamp e) <=? instant d)%Z
                      | None => true
                      end).
  assert (H1 : match start_date c with
               | Some d => Py.filter (fun e => DT.ge (timestamp e) d) l
               | None => Ok l
               end = Ok (filter f1 l)).
  { unfold f1. destruct (start_date c) as [d|].
    - apply pyfilter_total. specialize (Hs d eq_refl).
      eapply Forall_impl; [|exact Hs]. intros e H. now apply ge_instant.
    - now rewrite filter_true. }
  rewrite H1. cbn [bind].
  assert (H2 : match end_date c with
               | Some d => Py.filter (fun e => DT.le (timestamp e) d)
                                     (filter f1 l)
               | None => Ok (filter f1 l)
               end = Ok (filter f2 (filter f1 l))).
  { unfold f2. destruct (end_date c) as [d|].
    - apply pyfilter_total. specialize (He d eq_refl).
      apply (subseq_Forall _ _ _ (subseq_filter f1 l)).
      eapply Forall_impl; [|exact He]. intros e H. now apply le_instant.
    - now rewrite filter_true. }
  rewrite H2. cbn [bind]. f_equal. rewrite !filter_filter.
  apply filter_ext. intros e.
  assert (Hl : level_test c e
               = match levels c with
                 | Some ((_ :: _) as ls) =>
                     existsb (fun l => String.eqb (Str.upper l) (level e)) ls
                 | _ => true
                 end).
  { unfold level_test. destruct (levels c) as [[|l0 ls]|]; try reflexivity.
    apply level_test_meets. }
  assert (Hk : keyword_test c e
               = match keywords c with
                 | Some ((_ :: _) as kws) => existsb (ci_contains (message e)) kws
                 | _ => true
                 end).
  { unfold keyword_test. destruct (keywords c) as [[|k0 kws]|];
      try reflexivity. apply keyword_test_meets. }
  assert (Hsrc : source_test c e
                 = match source_filter c with
                   | Some ((String _ _) as src) => ci_contains (source e) src
                   | _ => true
                   end).
  { unfold source_test. now destruct (source_filter c) as [[|? ?]|]. }
  rewrite Hl, Hk, Hsrc. unfold meets, f1, f2.
  now rewrite <- !andb_assoc.
Qed.

(** criteria that ask for errors about a disk *)
Definition disk_errors : criteria :=
  mkCriteria None None (Some ["error"]) (Some ["DISK"]) None.

Lemma filter_entries_exact_witness :
  ascii_criteria disk_errors = true
  /\ forallb ascii_entry (entries two_records) = true
  /\ comparable disk_errors (entries two_records)
  /\ filter_entries disk_errors two_records
     = (Ok (filter (meets disk_errors) (entries two_records)), two_records).
Proof.
  assert (H : comparable disk_errors (entries two_records))
    by (split; intros d Hd; discriminate Hd).
  split; [reflexivity|]. split; [reflexivity|]. split; [exact H|].
  exact (filter_entries_exact disk_errors two_records eq_refl eq_refl H).
Defined.

(** The claim as stated fails on an empty list of levels: it is supplied,
    no level is one of its members, and yet every entry is returned. *)
Lemma filter_entries_empty_levels :
  ~ (forall c self,
        ascii_criteria c = true ->
        forallb ascii_entry (entries self) = true ->
        comparable c (entries self) ->
        filter_entries c self
        = (Ok (filter (meets_supplied c) (entries self)), self)).
Proof.
  intros H.
  specialize (H (mkCriteria None None (Some []) None None) two_records
                eq_refl eq_refl).
  assert (Hc : comparable (mkCriteria None None (Some []) None None)
                          (entries two_records))
    by (split; intros d Hd; discriminate Hd).
  specialize (H Hc). vm_compute in H. discriminate H.
Qed.

Lemma filter_entries_narrows_witness :
  fst (filter_entries disk_errors two_records)
  = Ok [LogEntry_init LogParserFacts.noon "error" "disk failed" "" "x" 1]
  /\ subseq [LogEntry_init LogParserFacts.noon "error" "disk failed" "" "x" 1]
            (entries two_records)
  /\ fst (filter_entries disk_errors
            (mkLogAnalyzer
               [LogEntry_init LogParserFacts.noon "error" "disk failed" "" "x" 1]
               (stats two_records)))
     = Ok [LogEntry_init LogParserFacts.noon "error" "disk failed" "" "x" 1]
  /\ snd (filter_entries disk_errors two_records) = two_records.
Proof.
  assert (H : fst (filter_entries disk_errors two_records)
              = Ok [LogEntry_init LogParserFacts.noon
                      "error" "disk failed" "" "x" 1])
    by (vm_compute; reflexivity).
  split; [exact H|].
  exact (filter_entries_narrows disk_errors two_records _ H).
Defined.

End FilterFacts.

(** ** The keyword fallback and the warning count *)

Module FallbackFacts.

Import Re LogParser LogAnalyzer LogParserFacts StatisticsFacts.

(** Where [first_keyword] finds its keyword: at the leftmost position of
    the text where an alternative of the pattern matches, and there the
    first alternative that does. *)
Lemma first_keyword_leftmost (s kw found : string) :
  first_keyword s = Some (kw, found) ->
  exists pre post,
    s = pre ++ found ++ post
    /\ (forall i, (i < String.length pre)%nat ->
                  keyword_at (Str.drop i s) = None)
    /\ keyword_at (found ++ post) = Some kw.
Proof.
  induction s as [|c s IH]; cbn [first_keyword].
  - destruct (keyword_at "") as [k|] eqn:Hk; [|discriminate].
    vm_compute in Hk. discriminate Hk.
  - destruct (keyword_at (String c s)) as [k|] eqn:Hk.
    + intros [= <- <-].
      exists "", (Str.drop (String.length k) (String c s)).
      cbn [String.append]. rewrite StrFacts.take_drop.
      split; [reflexivity|].
      split; [intros i Hi; cbn in Hi; lia | exact Hk].
    + intros H. destruct (IH H) as (pre & post & -> & Hno & Hat).
      exists (String c pre), post. split; [reflexivity|].
      split; [|exact Hat].
      intros [|i] Hi; [exact Hk|]. cbn [Str.drop]. apply Hno.
      cbn [String.length] in Hi. lia.
Qed.

(** C10, as the code has it.  On ASCII text, a line that is no comment,
    matches no format pattern and contains [warning] in any letter case
    gets, from the keyword fallback, the level of the leftmost severity
    keyword in it, in upper case: the text [found] at the leftmost position
    where one of the six keywords matches, whatever its letter case.  That
    level is one of the six keywords, [WARN] when no keyword starts before
    the first [warn], and never [WARNING].  Such an entry is not counted in
    [warning_count]. *)
Theorem warning_line_level (line : string) (n : Z) (now : DT.datetime) :
  Str.is_ascii line = true ->
  Str.startswith (Str.strip line) "#" = false ->
  first_match patterns (Str.strip line) = None ->
  Str.contains (Str.lower (Str.strip line)) "warning" = true ->
  exists e kw found pre post,
    parse_line line n now = Ok (Some e)
    /\ Str.strip line = pre ++ found ++ post
    /\ (forall i, (i < String.length pre)%nat ->
                  keyword_at (Str.drop i (Str.strip line)) = None)
    /\ keyword_at (found ++ post) = Some kw
    /\ first_keyword (Str.strip line) = Some (kw, found)
    /\ In kw severity_keywords
    /\ Str.upper found = kw
    /\ level e = kw
    /\ level e <> "WARNING"
    /\ (forall pre' post',
           Str.strip line = pre' ++ post' ->
           ci_prefix "WARN" post' = true ->
           (forall i, (i < String.length pre')%nat ->
                      keyword_at (Str.drop i (pre' ++ post')) = None) ->
           level e = "WARN")
    /\ (forall before after old st self',
           generate_statistics
             (mkLogAnalyzer (before ++ e :: after)%list old)
           = (Ok (Some st), self') ->
           warning_count st = length (filter is_warning (before ++ after)%list)).
Proof.
  intros _ Hc Hm Hw. unfold parse_line.
  set (t := Str.strip line) in *.
  assert (Hne : String.eqb t "" = false).
  { destruct t; [discriminate Hw | reflexivity]. }
  rewrite Hne, Hc, Hm. simpl orb. cbv iota.
  pose proof (search_fallback t) as Hs.
  pose proof (warning_has_keyword t Hw) as Hk.
  destruct (first_keyword t) as [[kw found]|] eqn:Hf; [|congruence].
  destruct (search fallback t) as [m|]; [|discriminate Hs].
  simpl in Hs. injection Hs as Hs.
  destruct (first_keyword_upper _ _ _ Hf) as [Hin Hu].
  destruct (first_keyword_leftmost _ _ _ Hf) as (pre & post & Ht & Hno & Hat).
  assert (Hl : Str.upper (get_default (groups m) "1" "") = kw)
    by now rewrite Hs.
  eexists. exists kw, found, pre, post. split; [reflexivity|].
  cbn [level LogEntry_init]. rewrite Hl.
  assert (Hnw : kw <> "WARNING").
  { intros ->. simpl in Hin. decompose [or] Hin; discriminate || contradiction. }
  repeat split; try assumption.
  - intros pre' post' Ht' Hp Hno'.
    pose proof (first_keyword_warn pre' post' Hp Hno') as H.
    rewrite <- Ht', Hf in H. now injection H.
  - intros before after old st self' H.
    match type of H with
    | generate_statistics ?a = _ =>
        pose proof (generate_statistics_cases a) as Hg
    end.
    rewrite H in Hg. destruct Hg as (_ & _ & _ & _ & ->).
    { cbn [entries]. now destruct before. }
    cbn [entries]. rewrite !filter_app. cbn [filter].
    unfold is_warning at 2. cbn [level LogEntry_init]. rewrite Hl.
    destruct (String.eqb_spec kw "WARNING"); [contradiction|reflexivity].
Qed.

(** Two lines: [Warning] first gives [WARN]; [error] before [warning]
    gives [ERROR]. *)
Lemma warning_line_level_witness :
  (exists e,
      parse_line "Warning: disk almost full" 4 noon = Ok (Some e)
      /\ level e = "WARN")
  /\ (exists e,
        parse_line "error raised after a warning" 5 noon = Ok (Some e)
        /\ level e = "ERROR").
Proof.
  split.
  - destruct (warning_line_level "Warning: disk almost full" 4 noon)
      as (e & kw & found & pre & post & He & _ & _ & _ & Hf & _ & _ & Hl & _);
      try (vm_compute; reflexivity).
    exists e. split; [exact He|]. rewrite Hl.
    vm_compute in Hf. now injection Hf as <- _.
  - destruct (warning_line_level "error raised after a warning" 5 noon)
      as (e & kw & found & pre & post & He & _ & _ & _ & Hf & _ & _ & Hl & _);
      try (vm_compute; reflexivity).
    exists e. split; [exact He|]. rewrite Hl.
    vm_compute in Hf. now injection Hf as <- _.
Defined.

(** The claim as stated fails when another keyword comes first: the level
    is that keyword, here [ERROR], not [WARN]. *)
Lemma warning_after_error :
  ~ (forall line n now,
        Str.is_ascii line = true ->
        Str.startswith (Str.strip line) "#" = false ->
        first_match patterns (Str.strip line) = None ->
        Str.contains (Str.lower (Str.strip line)) "warning" = true ->
        exists e, parse_line line n now = Ok (Some e) /\ level e = "WARN").
Proof.
  intros H.
  destruct (H "error raised after a warning" 1%Z noon)
    as (e & He & Hl); try (vm_compute; reflexivity).
  vm_compute in He. injection He as <-. discriminate Hl.
Qed.

End FallbackFacts.

(** ** [LogAnalyzer]: export *)

Module ExportFacts.

Import LogAnalyzer.

(** C9.  For a format selector whose lower-case form is none of [json],
    [csv] and [txt], [export_results] returns [True] and leaves the disk
    as it was. *)
Theorem export_unknown_format (json_dump : json -> string)
    (csv_write : list (list string) -> string) (now : DT.datetime)
    (output_path : string) (records : list LogEntry) (format_type : string)
    (self : LogAnalyzer) (d : disk) :
  Str.lower format_type <> "json" ->
  Str.lower format_type <> "csv" ->
  Str.lower format_type <> "txt" ->
  export_results json_dump csv_write now output_path records format_type
                 self d
  = (true, d).
Proof.
  intros Hj Hc Ht. unfold export_results.
  destruct (String.eqb_spec (Str.lower format_type) "json"); [contradiction|].
  destruct (String.eqb_spec (Str.lower format_type) "csv"); [contradiction|].
  destruct (String.eqb_spec (Str.lower format_type) "txt"); [contradiction|].
  reflexivity.
Qed.

(** a disk with no file, where every path may be written *)
Definition blank_disk : disk :=
  mkDisk (fun _ => true) (fun _ => None) (fun _ _ => None).

Lemma export_unknown_format_witness :
  export_results (fun _ => "") (fun _ => "") LogParserFacts.noon "out.xml"
                 (entries StatisticsFacts.two_records) "XML"
                 StatisticsFacts.two_records blank_disk
  = (true, blank_disk).
Proof.
  apply export_unknown_format; discriminate.
Defined.

End ExportFacts.

(** * Further properties of the code *)

(** ** What [parse_line] puts in an entry *)

Module EntryFacts.

Import Re LogParser LogParserFacts StrFacts.

(** a line [parse_line] answers [None] for *)
Definition skipped (line : string) : bool :=
  String.eqb (Str.strip line) "" || Str.startswith (Str.strip line) "#".

Lemma parse_line_skipped (line : string) (n : Z) (now : DT.datetime) :
  skipped line = true -> parse_line line n now = Ok None.
Proof. unfold skipped, parse_line. now intros ->. Qed.

Lemma entry_of_match_fields (name : string) (g : captures) (line : string)
    (n : Z) (now : DT.datetime) (e : LogEntry) :
  entry_of_match name g line n now = Ok e ->
  line_number e = n /\ raw_line e = line /\ Str.upper (level e) = level e.
Proof.
  unfold entry_of_match.
  destruct (String.eqb name "apache_access").
  - destruct (Str.int _) as [code|]; [|discriminate]. cbn [bind].
    intros [= <-]. cbn. repeat split. apply upper_idem.
  - destruct (String.eqb name "system_log"); intros [= <-]; cbn;
      repeat split; apply upper_idem.
Qed.

(** The fields every entry of [parse_line] has: the number it was given,
    the trimmed line, and a level in upper case. *)
Lemma parse_line_fields (line : string) (n : Z) (now : DT.datetime)
    (e : LogEntry) :
  parse_line line n now = Ok (Some e) ->
  skipped line = false
  /\ line_number e = n
  /\ raw_line e = Str.strip line
  /\ Str.upper (level e) = level e.
Proof.
  unfold parse_line. fold (skipped line).
  destruct (skipped line); [discriminate|]. intros H. split; [reflexivity|].
  destruct (first_match patterns (Str.strip line)) as [[name m]|].
  - destruct (entry_of_match name (groups m) (Str.strip line) n now)
      as [e'|] eqn:He; [|discriminate].
    cbn [bind] in H. injection H as <-.
    now apply entry_of_match_fields in He.
  - destruct (search fallback (Str.strip line)); injection H as <-; cbn;
      repeat split; apply upper_idem.
Qed.

Lemma parse_line_not_skipped (line : string) (n : Z) (now : DT.datetime)
    (o : option LogEntry) :
  skipped line = false -> parse_line line n now = Ok o ->
  exists e, o = Some e.
Proof.
  intros Hs. unfold parse_line. fold (skipped line). rewrite Hs.
  destruct (first_match patterns (Str.strip line)) as [[name m]|].
  - destruct (entry_of_match _ _ _ _ _) as [e|]; [|discriminate].
    cbn [bind]. intros [= <-]. now exists e.
  - destruct (search fallback (Str.strip line)); intros [= <-]; eauto.
Qed.

(** X1.  Every entry [parse_line] returns has the line number it was
    given, the trimmed line as [raw_line], which is not empty and does not
    start with [#], and a level that is its own upper-case form. *)
Theorem parse_line_entry_invariant (line : string) (n : Z)
    (now : DT.datetime) (e : LogEntry) :
  parse_line line n now = Ok (Some e) ->
  line_number e = n
  /\ raw_line e = Str.strip line
  /\ raw_line e <> ""
  /\ Str.startswith (raw_line e) "#" = false
  /\ Str.upper (level e) = level e.
Proof.
  intros H. apply parse_line_fields in H as (Hs & Hn & Hr & Hl).
  unfold skipped in Hs. apply orb_false_elim in Hs as [Hb Hc].
  rewrite Hr. repeat split; auto.
  intros E. rewrite E in Hb. discriminate Hb.
Qed.

Lemma parse_line_entry_invariant_witness :
  exists e,
    parse_line "  Disk warning  " 9 noon = Ok (Some e)
    /\ line_number e = 9%Z
    /\ raw_line e = Str.strip "  Disk warning  "
    /\ raw_line e <> ""
    /\ Str.startswith (raw_line e) "#" = false
    /\ Str.upper (level e) = level e.
Proof.
  eexists. split; [vm_compute; reflexivity|].
  apply (parse_line_entry_invariant "  Disk warning  " 9 noon).
  vm_compute. reflexivity.
Defined.

End EntryFacts.

(** ** What a successful [load_file] leaves in the analyzer *)

Module IngestionFacts.

Import LogAnalyzer EntryFacts StatisticsFacts.

(** the lines with their numbers, counted from [n] *)
Fixpoint enumerate (n : Z) (lines : list string) : list (Z * string) :=
  match lines with
  | [] => []
  | line :: lines' => (n, line) :: enumerate (n + 1) lines'
  end.

(** the numbered lines that are neither blank nor comments *)
Definition kept (n : Z) (lines : list string) : list (Z * string) :=
  filter (fun p => negb (skipped (snd p))) (enumerate n lines).

(** the number and the text an entry records of its line *)
Definition origin (e : LogEntry) : Z * string := (line_number e, raw_line e).

(** When the loop over the lines returns, it has counted every line and
    appended, in order, one record for each line that is neither blank nor
    a comment. *)
Lemma read_lines_kept (clock : Z -> DT.datetime) (lines : list string) :
  forall (n : Z) (total parsed : nat) (self : LogAnalyzer)
         (counts : nat * nat) (self' : LogAnalyzer),
    read_lines clock lines n total parsed self = (Ok counts, self') ->
    exists new,
      counts = ((total + length lines)%nat, (parsed + length new)%nat)
      /\ self' = mkLogAnalyzer (entries self ++ new)%list (stats self)
      /\ map origin new
         = map (fun p => (fst p, Str.strip (snd p))) (kept n lines).
Proof.
  induction lines as [|line lines IH]; intros n total parsed self counts self'.
  - cbn. intros [= <- <-]. exists []. rewrite app_nil_r, !Nat.add_0_r.
    now destruct self.
  - cbn [read_lines]. unfold kept. cbn [enumerate filter snd].
    destruct (LogParser.parse_line line n (clock n)) as [o|x] eqn:Hp;
      [|discriminate].
    destruct (skipped line) eqn:Hs.
    + rewrite (parse_line_skipped _ _ _ Hs) in Hp. injection Hp as <-.
      intros H. apply IH in H as (new & -> & -> & Hn).
      exists new. split; [|split; [reflexivity | exact Hn]].
      cbn [length]. f_equal; lia.
    + destruct (parse_line_not_skipped line n (clock n) o Hs Hp) as [e ->].
      intros H. apply IH in H as (new & -> & -> & Hn).
      exists (e :: new). cbn [entries stats length map negb fst snd].
      split; [f_equal; lia|]. split.
      * now rewrite <- app_assoc.
      * apply parse_line_fields in Hp as (_ & Hl & Hr & _).
        unfold origin at 1. rewrite Hl, Hr. f_equal. exact Hn.
Qed.

Lemma kept_length (n : Z) (lines : list string) :
  length (kept n lines)
  = length (filter (fun line => negb (skipped line)) lines).
Proof.
  unfold kept. revert n. induction lines as [|line lines IH]; intros n;
    cbn [enumerate filter snd]; [reflexivity|].
  destruct (negb (skipped line)); cbn [length]; now rewrite IH.
Qed.

Lemma enumerate_nth (lines : list string) :
  forall (n k : Z) (line : string),
    In (k, line) (enumerate n lines) ->
    (n <= k < n + Z.of_nat (length lines))%Z
    /\ nth_error lines (Z.to_nat (k - n)) = Some line.
Proof.
  induction lines as [|l lines IH]; intros n k line; cbn [enumerate In length].
  - contradiction.
  - intros [[= <- <-]|H].
    + rewrite Z.sub_diag. split; [lia | reflexivity].
    + apply IH in H as [Hk Hn]. split; [lia|].
      replace (Z.to_nat (k - n)) with (S (Z.to_nat (k - (n + 1)))) by lia.
      exact Hn.
Qed.

Lemma enumerate_sorted (lines : list string) :
  forall n : Z, Sorted.StronglySorted Z.lt (map fst (enumerate n lines)).
Proof.
  induction lines as [|l lines IH]; intros n; cbn [enumerate map fst];
    constructor; [apply IH|].
  apply Forall_forall. intros k Hk. apply in_map_iff in Hk as [[k' l'] [<- H]].
  apply enumerate_nth in H. cbn. lia.
Qed.

Lemma filter_sorted {A : Type} (f : A -> bool) (g : A -> Z) (l : list A) :
  Sorted.StronglySorted Z.lt (map g l) ->
  Sorted.StronglySorted Z.lt (map g (filter f l)).
Proof.
  induction l as [|x l IH]; cbn [map filter]; intros H; [constructor|].
  inversion H as [|? ? Hs Hf]; subst.
  destruct (f x); [|now apply IH]. cbn [map]. constructor; [now apply IH|].
  apply Forall_forall. intros k Hk. apply in_map_iff in Hk as [y [<- Hy]].
  apply filter_In in Hy as [Hy _]. rewrite Forall_forall in Hf.
  apply Hf. now apply in_map.
Qed.

(** [generate_statistics] succeeds or fails by the entries alone, and what
    it stores on success does not depend on the statistics held before. *)
Lemma generate_statistics_fresh (es : list LogEntry)
    (old old' : option Statistics) (st : option Statistics)
    (self' : LogAnalyzer) :
  generate_statistics (mkLogAnalyzer es old) = (Ok st, self') ->
  self' = mkLogAnalyzer es st
  /\ generate_statistics (mkLogAnalyzer es old') = (Ok st, self').
Proof.
  unfold generate_statistics. cbn [entries].
  destruct es as [|e0 es]; [intros [= <- <-]; auto|].
  match goal with
  | |- context [match ?r with Ok _ => _ | Raise _ => _ end] =>
      destruct r as [x|]
  end; intros [= <- <-]; auto.
Qed.

(** The loop over the lines does not look at the statistics. *)
Lemma read_lines_stats (clock : Z -> DT.datetime) (lines : list string) :
  forall (n : Z) (total parsed : nat) (es : list LogEntry)
         (old old' : option Statistics),
    read_lines clock lines n total parsed (mkLogAnalyzer es old')
    = (fst (read_lines clock lines n total parsed (mkLogAnalyzer es old)),
       mkLogAnalyzer
         (entries (snd (read_lines clock lines n total parsed
                                   (mkLogAnalyzer es old))))
         old').
Proof.
  induction lines as [|line lines IH]; intros n total parsed es old old';
    cbn [read_lines]; [reflexivity|].
  destruct (LogParser.parse_line line n (clock n)) as [[e|]|x];
    cbn [entries stats fst snd]; auto.
Qed.

(** What a successful load went through. *)
Lemma load_file_ok_inv (fs : string -> file) (clock : Z -> DT.datetime)
    (file_path : string) (self : LogAnalyzer) (counts : nat * nat)
    (self' : LogAnalyzer) :
  load_file fs clock file_path self = (Ok counts, self') ->
  exists lines new,
    fs file_path = Lines lines
    /\ counts = (length lines, length new)
    /\ map origin new
       = map (fun p => (fst p, Str.strip (snd p))) (kept 1 lines)
    /\ self' = mkLogAnalyzer new (stats self')
    /\ generate_statistics (mkLogAnalyzer new (stats self))
       = (Ok (stats self'), self').
Proof.
  unfold load_file.
  destruct (fs file_path) as [| |lines|e0|lines e0]; try discriminate.
  2: { destruct (read_lines _ _ _ _ _ _) as [[c|x] s0]; discriminate. }
  destruct (read_lines clock lines 1 0 0 (mkLogAnalyzer [] (stats self)))
    as [[c|x] s0] eqn:Hr; [|discriminate].
  apply read_lines_kept in Hr as (new & -> & -> & Hn).
  cbn [entries stats app].
  destruct (generate_statistics (mkLogAnalyzer new (stats self)))
    as [[st|e] s1] eqn:Hg; [|discriminate].
  intros [= <- <-].
  destruct (generate_statistics_fresh _ _ (stats self) _ _ Hg) as [-> _].
  exists lines, new. cbn [stats]. repeat split; auto.
Qed.

(** X2.  When [load_file] returns [(total_lines, parsed_count)], the path
    holds a readable file, [total_lines] is the number of its lines,
    [parsed_count] is the number of its lines that are neither blank nor
    comments, which is also the number of entries the analyzer then holds,
    and [parsed_count <= total_lines]. *)
Theorem load_file_counts (fs : string -> file) (clock : Z -> DT.datetime)
    (file_path : string) (self : LogAnalyzer) (total_lines parsed_count : nat)
    (self' : LogAnalyzer) :
  load_file fs clock file_path self = (Ok (total_lines, parsed_count), self') ->
  exists lines,
    fs file_path = Lines lines
    /\ total_lines = length lines
    /\ parsed_count = length (filter (fun line => negb (skipped line)) lines)
    /\ parsed_count = length (entries self')
    /\ (parsed_count <= total_lines)%nat.
Proof.
  intros H. apply load_file_ok_inv in H
    as (lines & new & Hf & [= -> ->] & Hm & -> & _).
  exists lines. cbn [entries].
  assert (Hl : length new
               = length (filter (fun line => negb (skipped line)) lines)).
  { rewrite <- kept_length with (n := 1%Z).
    rewrite <- (length_map origin new), Hm. apply length_map. }
  repeat split; auto. rewrite Hl. apply filter_length_le.
Qed.

(** a file system with one file of four lines, two of them skipped *)
Definition one_file (path : string) : file :=
  if String.eqb path "app.log" then
    Lines ["# header" ++ newline; "disk error" ++ newline; newline;
           "all fine"]
  else Missing.

Definition after_load : LogAnalyzer :=
  snd (load_file one_file LoadFacts.frozen "app.log" LogAnalyzer_init).

Lemma load_one_file :
  load_file one_file LoadFacts.frozen "app.log" LogAnalyzer_init
  = (Ok (4%nat, 2%nat), after_load).
Proof. vm_compute. reflexivity. Qed.

Lemma load_file_counts_witness :
  exists lines,
    one_file "app.log" = Lines lines
    /\ 4%nat = length lines
    /\ 2%nat = length (filter (fun line => negb (skipped line)) lines)
    /\ 2%nat = length (entries after_load)
    /\ (2 <= 4)%nat.
Proof.
  exact (load_file_counts one_file LoadFacts.frozen "app.log" LogAnalyzer_init
           4 2 after_load load_one_file).
Defined.

(** X3.  After a successful load the line numbers of the entries are
    strictly increasing, each lies between 1 and [total_lines], and each
    entry's [raw_line] is the trimmed text of the line of the file at that
    position. *)
Theorem load_file_line_numbers (fs : string -> file)
    (clock : Z -> DT.datetime) (file_path : string) (self : LogAnalyzer)
    (total_lines parsed_count : nat) (self' : LogAnalyzer) :
  load_file fs clock file_path self = (Ok (total_lines, parsed_count), self') ->
  StronglySorted Z.lt (map line_number (entries self'))
  /\ exists lines,
       fs file_path = Lines lines
       /\ Forall (fun e =>
                    (1 <= line_number e <= Z.of_nat total_lines)%Z
                    /\ exists line,
                         nth_error lines (Z.to_nat (line_number e - 1))
                         = Some line
                         /\ raw_line e = Str.strip line)
                 (entries self').
Proof.
  intros H. apply load_file_ok_inv in H
    as (lines & new & Hf & [= -> ->] & Hm & -> & _).
  cbn [entries]. split.
  - replace (map line_number new) with (map fst (map origin new))
      by (rewrite map_map; reflexivity).
    rewrite Hm, map_map. cbn [fst]. unfold kept.
    apply filter_sorted, enumerate_sorted.
  - exists lines. split; [assumption|]. apply Forall_forall. intros e He.
    assert (Ho : In (origin e) (map origin new)) by now apply in_map.
    rewrite Hm in Ho. apply in_map_iff in Ho as [[k line] [Hk Hin]].
    unfold kept in Hin. apply filter_In in Hin as [Hin _].
    apply enumerate_nth in Hin as [Hb Hn].
    unfold origin in Hk. cbn [fst snd] in Hk. injection Hk as Hk Hr.
    rewrite <- Hk. split; [lia|]. exists line. auto.
Qed.

Lemma load_file_line_numbers_witness :
  StronglySorted Z.lt (map line_number (entries after_load))
  /\ exists lines,
       one_file "app.log" = Lines lines
       /\ Forall (fun e =>
                    (1 <= line_number e <= Z.of_nat 4)%Z
                    /\ exists line,
                         nth_error lines (Z.to_nat (line_number e - 1))
                         = Some line
                         /\ raw_line e = Str.strip line)
                 (entries after_load).
Proof.
  exact (load_file_line_numbers one_file LoadFacts.frozen "app.log"
           LogAnalyzer_init 4 2 after_load load_one_file).
Defined.

(** X4.  A successful load replaces the whole state: loading the same
    file with the same clock into an analyzer that held anything else
    returns the same counts and leaves the same entries and statistics. *)
Theorem load_file_replaces (fs : string -> file) (clock : Z -> DT.datetime)
    (file_path : string) (self other : LogAnalyzer) (counts : nat * nat)
    (self' : LogAnalyzer) :
  load_file fs clock file_path self = (Ok counts, self') ->
  load_file fs clock file_path other = (Ok counts, self').
Proof.
  unfold load_file.
  destruct (fs file_path) as [| |lines|e0|lines e0]; try discriminate.
  2: { destruct (read_lines _ _ _ _ _ _) as [[c|x] s0]; discriminate. }
  rewrite (read_lines_stats clock lines 1 0 0 [] (stats self) (stats other)).
  destruct (read_lines clock lines 1 0 0 (mkLogAnalyzer [] (stats self)))
    as [[c|e] [es st]]; cbn [fst snd entries]; [|discriminate].
  destruct (generate_statistics (mkLogAnalyzer es st))
    as [[x|e] s1] eqn:Hg; [|discriminate].
  intros [= <- <-].
  destruct (generate_statistics_fresh _ _ (stats other) _ _ Hg) as [_ ->].
  reflexivity.
Qed.

Lemma load_file_replaces_witness :
  load_file one_file LoadFacts.frozen "app.log" StatisticsFacts.two_records
  = (Ok (4%nat, 2%nat), after_load).
Proof.
  exact (load_file_replaces one_file LoadFacts.frozen "app.log"
           LogAnalyzer_init StatisticsFacts.two_records _ _ load_one_file).
Defined.

(** X5.  After a successful load the stored statistics are those of the
    entries now held: computing them again returns the stored value and
    changes nothing; they are the empty dictionary exactly when no entry
    was parsed, and otherwise their [total_entries] is [parsed_count]. *)
Theorem load_file_statistics (fs : string -> file) (clock : Z -> DT.datetime)
    (file_path : string) (self : LogAnalyzer) (total_lines parsed_count : nat)
    (self' : LogAnalyzer) :
  load_file fs clock file_path self = (Ok (total_lines, parsed_count), self') ->
  generate_statistics self' = (Ok (stats self'), self')
  /\ match stats self' with
     | None => parsed_count = 0%nat
     | Some st => total_entries st = parsed_count /\ (0 < parsed_count)%nat
     end.
Proof.
  intros H. apply load_file_ok_inv in H
    as (lines & new & Hf & [= -> ->] & Hm & Hs & Hg).
  destruct (generate_statistics_fresh _ _ (stats self') _ _ Hg) as [_ Hg'].
  rewrite <- Hs in Hg'. split; [exact Hg'|].
  destruct new as [|e0 new].
  - unfold generate_statistics in Hg. cbn [entries] in Hg.
    injection Hg as <- _. reflexivity.
  - pose proof (generate_statistics_cases
                  (mkLogAnalyzer (e0 :: new) (stats self))) as Hc.
    rewrite Hg in Hc. cbn [entries] in Hc.
    destruct (stats self') as [st|]; [|exfalso; apply Hc; discriminate].
    destruct Hc as (_ & Ht & _); [discriminate|].
    split; [exact Ht | cbn; lia].
Qed.

Lemma load_file_statistics_witness :
  generate_statistics after_load = (Ok (stats after_load), after_load)
  /\ match stats after_load with
     | None => 2%nat = 0%nat
     | Some st => total_entries st = 2%nat /\ (0 < 2)%nat
     end.
Proof.
  exact (load_file_statistics one_file LoadFacts.frozen "app.log"
           LogAnalyzer_init 4 2 after_load load_one_file).
Defined.

End IngestionFacts.

(** ** What the snapshot of [generate_statistics] holds *)

Module SnapshotFacts.

Import LogAnalyzer StatisticsFacts FilterFacts.

(** the count a counter holds for a key, 0 for a key it has not *)
Fixpoint count_of {K : Type} (eqb : K -> K -> bool) (k : K)
    (c : list (K * nat)) : nat :=
  match c with
  | [] => 0
  | (k', n) :: c' => if eqb k' k then n else count_of eqb k c'
  end.

Section CounterFacts.

Context {K : Type} (eqb : K -> K -> bool).
Hypothesis eqb_spec : forall x y, reflect (x = y) (eqb x y).

Lemma count_of_incr (k k' : K) (c : list (K * nat)) :
  count_of eqb k (Counter.incr eqb k' c)
  = ((if eqb k' k then 1 else 0) + count_of eqb k c)%nat.
Proof.
  induction c as [|[k0 n] c IH]; cbn [Counter.incr count_of].
  - destruct (eqb k' k); reflexivity.
  - destruct (eqb_spec k0 k') as [->|Hne]; cbn [count_of].
    + destruct (eqb k' k); reflexivity.
    + destruct (eqb_spec k0 k) as [->|Hk]; [|exact IH].
      destruct (eqb_spec k' k) as [->|]; [contradiction | reflexivity].
Qed.

Lemma count_of_fold (k : K) (l : list K) :
  forall c,
    count_of eqb k (fold_left (fun c x => Counter.incr eqb x c) l c)
    = (length (filter (fun x => eqb x k) l) + count_of eqb k c)%nat.
Proof.
  induction l as [|x l IH]; intros c; cbn [fold_left filter];
    [reflexivity|].
  rewrite IH, count_of_incr. destruct (eqb x k); cbn [length]; lia.
Qed.

(** A counter holds, for each key, the number of times it occurs. *)
Lemma count_of_list (k : K) (l : list K) :
  count_of eqb k (Counter.of_list eqb l)
  = length (filter (fun x => eqb x k) l).
Proof.
  unfold Counter.of_list. rewrite count_of_fold. cbn. lia.
Qed.

Lemma incr_keys (k : K) (c : list (K * nat)) :
  map fst (Counter.incr eqb k c)
  = if existsb (eqb k) (map fst c) then map fst c else (map fst c ++ [k])%list.
Proof.
  induction c as [|[k0 n] c IH]; cbn [Counter.incr map fst existsb];
    [reflexivity|].
  destruct (eqb_spec k0 k) as [->|Hne]; cbn [map fst].
  - destruct (eqb_spec k k); [reflexivity | contradiction].
  - destruct (eqb_spec k k0) as [->|]; [contradiction|].
    cbn [orb]. rewrite IH. now destruct (existsb (eqb k) (map fst c)).
Qed.

Lemma existsb_eqb_In (k : K) (l : list K) :
  existsb (eqb k) l = true <-> In k l.
Proof.
  rewrite existsb_exists. split.
  - intros (x & Hx & He). destruct (eqb_spec k x); [now subst | discriminate].
  - intros H. exists k. split; [assumption|].
    destruct (eqb_spec k k); [reflexivity | contradiction].
Qed.

Lemma incr_NoDup (k : K) (c : list (K * nat)) :
  NoDup (map fst c) -> NoDup (map fst (Counter.incr eqb k c)).
Proof.
  intros H. rewrite incr_keys.
  destruct (existsb (eqb k) (map fst c)) eqn:He; [assumption|].
  apply NoDup_app; [assumption | repeat constructor; auto |].
  intros x Hx [<-|[]]. apply existsb_eqb_In in Hx. congruence.
Qed.

Lemma incr_positive (k : K) (c : list (K * nat)) :
  Forall (fun kv => (0 < snd kv)%nat) c ->
  Forall (fun kv => (0 < snd kv)%nat) (Counter.incr eqb k c).
Proof.
  induction 1 as [|[k0 n] c Hn Hc IH]; cbn [Counter.incr].
  - repeat constructor.
  - destruct (eqb k0 k); constructor; auto. cbn. lia.
Qed.

(** The keys of a counter are distinct and all its counts positive. *)
Lemma of_list_keys (l : list K) :
  NoDup (map fst (Counter.of_list eqb l))
  /\ Forall (fun kv => (0 < snd kv)%nat) (Counter.of_list eqb l).
Proof.
  unfold Counter.of_list.
  assert (H : forall c,
             NoDup (map fst c) /\ Forall (fun kv => (0 < snd kv)%nat) c ->
             NoDup (map fst (fold_left (fun c x => Counter.incr eqb x c) l c))
             /\ Forall (fun kv => (0 < snd kv)%nat)
                       (fold_left (fun c x => Counter.incr eqb x c) l c)).
  { induction l as [|x l IH]; intros c [Hd Hp]; cbn [fold_left]; auto.
    apply IH. split; [now apply incr_NoDup | now apply incr_positive]. }
  apply H. split; constructor.
Qed.

End CounterFacts.

(** The snapshot, field by field. *)
Lemma generate_statistics_snapshot (self : LogAnalyzer) (st : Statistics)
    (self' : LogAnalyzer) :
  generate_statistics self = (Ok (Some st), self') ->
  let es := entries self in
  let errors := filter is_error es in
  let warnings := filter is_warning es in
  exists first last,
    Py.min (map timestamp es) = Ok first
    /\ Py.max (map timestamp es) = Ok last
    /\ es <> []
    /\ st = mkStatistics
              (length es)
              (Counter.of_list String.eqb (map level es))
              (Counter.of_list String.eqb (map source es))
              (Counter.of_list String.eqb
                 (map DT.date_str (map timestamp es)))
              (Counter.of_list Z.eqb (map DT.hour (map timestamp es)))
              (length errors) (length warnings)
              (Float.mul (Float.div (Float.of_nat (length errors))
                                    (Float.of_nat (length es)))
                         Float.hundred)
              (Float.mul (Float.div (Float.of_nat (length warnings))
                                    (Float.of_nat (length es)))
                         Float.hundred)
              (Some (DT.isoformat first)) (Some (DT.isoformat last))
              (map message (firstn 10 errors))
              (map message (firstn 10 warnings)).
Proof.
  unfold generate_statistics.
  destruct (entries self) as [|e0 es] eqn:He; [discriminate|].
  set (l := e0 :: es) in *. cbn zeta.
  unfold Py.truediv. change (length l) with (S (length es)) at 1 2.
  cbn [bind].
  destruct (Py.min (map timestamp l)) as [first|]; [|discriminate].
  cbn [bind].
  destruct (Py.max (map timestamp l)) as [last|]; [|discriminate].
  cbn [bind]. intros [= <- _]. exists first, last.
  repeat split; try reflexivity. discriminate.
Qed.

(** X6.  In a snapshot, [level_distribution] holds for every level the
    number of entries that have it (0 for a level that is no key), its keys
    are distinct and its counts positive. *)
Theorem level_distribution_counts (self : LogAnalyzer) (st : Statistics)
    (self' : LogAnalyzer) :
  generate_statistics self = (Ok (Some st), self') ->
  (forall lv,
      count_of String.eqb lv (level_distribution st)
      = length (filter (fun e => String.eqb (level e) lv) (entries self)))
  /\ NoDup (map fst (level_distribution st))
  /\ Forall (fun kv => (0 < snd kv)%nat) (level_distribution st).
Proof.
  intros H. apply generate_statistics_snapshot in H
    as (first & last & _ & _ & _ & ->).
  cbn [level_distribution]. split.
  - intros lv. rewrite (count_of_list String.eqb String.eqb_spec).
    induction (entries self) as [|e es IH]; cbn [map filter]; [reflexivity|].
    destruct (String.eqb (level e) lv); cbn [length]; now rewrite IH.
  - apply (of_list_keys String.eqb String.eqb_spec).
Qed.

Lemma level_distribution_counts_witness :
  exists st self',
    generate_statistics two_records = (Ok (Some st), self')
    /\ (forall lv,
           count_of String.eqb lv (level_distribution st)
           = length (filter (fun e => String.eqb (level e) lv)
                            (entries two_records)))
    /\ NoDup (map fst (level_distribution st))
    /\ Forall (fun kv => (0 < snd kv)%nat) (level_distribution st).
Proof.
  destruct (generate_statistics two_records) as [[[st|]|e] self'] eqn:H;
    try (vm_compute in H; discriminate H).
  exists st, self'. split; [reflexivity|].
  exact (level_distribution_counts two_records st self' H).
Defined.

Lemma error_split (es : list LogEntry) :
  length (filter is_error es)
  = (length (filter (fun e => String.eqb (level e) "ERROR") es)
     + length (filter (fun e => String.eqb (level e) "FATAL") es))%nat.
Proof.
  induction es as [|e es IH]; cbn [filter]; [reflexivity|].
  unfold is_error at 1, Py.mem. cbn [existsb].
  destruct (String.eqb_spec (level e) "ERROR") as [E|_].
  - rewrite E. cbn. lia.
  - destruct (String.eqb (level e) "FATAL"); cbn; lia.
Qed.

Lemma filter_map_length {A B : Type} (f : A -> B) (p : B -> bool)
    (l : list A) :
  length (filter p (map f l)) = length (filter (fun x => p (f x)) l).
Proof.
  induction l as [|x l IH]; cbn [map filter]; [reflexivity|].
  destruct (p (f x)); cbn [length]; now rewrite IH.
Qed.

(** X7.  In a snapshot, [error_count] is the sum of the counts that
    [level_distribution] holds for [ERROR] and [FATAL], and
    [warning_count] is the count it holds for [WARNING]. *)
Theorem error_and_warning_counts (self : LogAnalyzer) (st : Statistics)
    (self' : LogAnalyzer) :
  generate_statistics self = (Ok (Some st), self') ->
  error_count st
  = (count_of String.eqb "ERROR" (level_distribution st)
     + count_of String.eqb "FATAL" (level_distribution st))%nat
  /\ warning_count st = count_of String.eqb "WARNING" (level_distribution st).
Proof.
  intros H. apply generate_statistics_snapshot in H
    as (first & last & _ & _ & _ & ->).
  cbn [error_count warning_count level_distribution].
  rewrite !(count_of_list String.eqb String.eqb_spec), !filter_map_length.
  split; [apply error_split | reflexivity].
Qed.

Lemma error_and_warning_counts_witness :
  exists st self',
    generate_statistics two_records = (Ok (Some st), self')
    /\ error_count st
       = (count_of String.eqb "ERROR" (level_distribution st)
          + count_of String.eqb "FATAL" (level_distribution st))%nat
    /\ warning_count st
       = count_of String.eqb "WARNING" (level_distribution st).
Proof.
  destruct (generate_statistics two_records) as [[[st|]|e] self'] eqn:H;
    try (vm_compute in H; discriminate H).
  exists st, self'. split; [reflexivity|].
  exact (error_and_warning_counts two_records st self' H).
Defined.

(** X8.  In a snapshot the counts of [source_distribution], of
    [date_distribution] and of [hourly_distribution] each add up to
    [total_entries]. *)
Theorem other_distributions_total (self : LogAnalyzer) (st : Statistics)
    (self' : LogAnalyzer) :
  generate_statistics self = (Ok (Some st), self') ->
  Counter.total (source_distribution st) = total_entries st
  /\ Counter.total (date_distribution st) = total_entries st
  /\ Counter.total (hourly_distribution st) = total_entries st.
Proof.
  intros H. apply generate_statistics_snapshot in H
    as (first & last & _ & _ & _ & ->).
  cbn [source_distribution date_distribution hourly_distribution
       total_entries].
  rewrite !total_of_list, !length_map. auto.
Qed.

Lemma other_distributions_total_witness :
  exists st self',
    generate_statistics two_records = (Ok (Some st), self')
    /\ Counter.total (source_distribution st) = total_entries st
    /\ Counter.total (date_distribution st) = total_entries st
    /\ Counter.total (hourly_distribution st) = total_entries st.
Proof.
  destruct (generate_statistics two_records) as [[[st|]|e] self'] eqn:H;
    try (vm_compute in H; discriminate H).
  exists st, self'. split; [reflexivity|].
  exact (other_distributions_total two_records st self' H).
Defined.

(** X10.  In a snapshot [top_error_messages] holds the messages of the
    first ten error entries in the order of the record set, so ten of them
    or as many as there are errors; likewise [top_warning_messages]. *)
Theorem top_messages_first_ten (self : LogAnalyzer) (st : Statistics)
    (self' : LogAnalyzer) :
  generate_statistics self = (Ok (Some st), self') ->
  top_error_messages st
  = firstn 10 (map message (filter is_error (entries self)))
  /\ length (top_error_messages st) = Nat.min 10 (error_count st)
  /\ top_warning_messages st
     = firstn 10 (map message (filter is_warning (entries self)))
  /\ length (top_warning_messages st) = Nat.min 10 (warning_count st).
Proof.
  intros H. apply generate_statistics_snapshot in H
    as (first & last & _ & _ & _ & ->).
  cbn [top_error_messages top_warning_messages error_count warning_count].
  rewrite !length_map, !length_firstn, !firstn_map. auto.
Qed.

Lemma top_messages_first_ten_witness :
  exists st self',
    generate_statistics two_records = (Ok (Some st), self')
    /\ top_error_messages st
       = firstn 10 (map message (filter is_error (entries two_records)))
    /\ length (top_error_messages st) = Nat.min 10 (error_count st)
    /\ top_warning_messages st
       = firstn 10 (map message (filter is_warning (entries two_records)))
    /\ length (top_warning_messages st) = Nat.min 10 (warning_count st).
Proof.
  destruct (generate_statistics two_records) as [[[st|]|e] self'] eqn:H;
    try (vm_compute in H; discriminate H).
  exists st, self'. split; [reflexivity|].
  exact (top_messages_first_ten two_records st self' H).
Defined.

Lemma cmp_instant (a b : DT.datetime) (c : comparison) :
  DT.cmp a b = Ok c ->
  aware a = aware b /\ c = (instant a ?= instant b)%Z.
Proof.
  unfold DT.cmp, aware, instant.
  destruct (DT.tzinfo a), (DT.tzinfo b); cbn; intros [= <-];
    rewrite ?Z.sub_0_r; auto.
Qed.

Lemma min_from_least (l : list DT.datetime) :
  forall m x : DT.datetime,
    Py.min_from m l = Ok x ->
    In x (m :: l)
    /\ Forall (fun y => (instant x <= instant y)%Z /\ aware y = aware m)
              (m :: l).
Proof.
  induction l as [|y l IH]; intros m x; cbn [Py.min_from].
  - intros [= <-]. split; [now left|]. repeat constructor. lia.
  - unfold DT.lt. destruct (DT.cmp y m) as [c|] eqn:Hc; [|discriminate].
    cbn [bind]. apply cmp_instant in Hc as [Ha ->]. intros H.
    apply IH in H as [Hin Hall].
    inversion Hall as [|? ? [Hx _] Hrest]; subst.
    destruct (Z.compare_spec (instant y) (instant m)) as [E|E|E];
      (split; [cbn in *; intuition|]);
      repeat constructor; try lia; auto;
      eapply Forall_impl; try exact Hrest; cbn; intros z [Hz1 Hz2];
      split; congruence || lia.
Qed.

Lemma max_from_greatest (l : list DT.datetime) :
  forall m x : DT.datetime,
    Py.max_from m l = Ok x ->
    In x (m :: l)
    /\ Forall (fun y => (instant y <= instant x)%Z /\ aware y = aware m)
              (m :: l).
Proof.
  induction l as [|y l IH]; intros m x; cbn [Py.max_from].
  - intros [= <-]. split; [now left|]. repeat constructor. lia.
  - unfold DT.gt. destruct (DT.cmp y m) as [c|] eqn:Hc; [|discriminate].
    cbn [bind]. apply cmp_instant in Hc as [Ha ->]. intros H.
    apply IH in H as [Hin Hall].
    inversion Hall as [|? ? [Hx _] Hrest]; subst.
    destruct (Z.compare_spec (instant y) (instant m)) as [E|E|E];
      (split; [cbn in *; intuition|]);
      repeat constructor; try lia; auto;
      eapply Forall_impl; try exact Hrest; cbn; intros z [Hz1 Hz2];
      split; congruence || lia.
Qed.

(** X11.  In a snapshot the two ends of [date_range] are the ISO texts of
    timestamps of the record set, the first no later and the second no
    earlier than the timestamp of any entry; and the timestamps of the set
    are all naive or all aware. *)
Theorem date_range_bounds (self : LogAnalyzer) (st : Statistics)
    (self' : LogAnalyzer) :
  generate_statistics self = (Ok (Some st), self') ->
  exists first last,
    In first (map timestamp (entries self))
    /\ In last (map timestamp (entries self))
    /\ date_range_start st = Some (DT.isoformat first)
    /\ date_range_end st = Some (DT.isoformat last)
    /\ Forall (fun e =>
                 (instant first <= instant (timestamp e) <= instant last)%Z
                 /\ aware (timestamp e) = aware first)
              (entries self).
Proof.
  intros H. apply generate_statistics_snapshot in H
    as (first & last & Hmin & Hmax & Hne & ->).
  exists first, last. cbn [date_range_start date_range_end].
  destruct (entries self) as [|e0 es]; [congruence|].
  cbn [map Py.min Py.max] in *.
  apply min_from_least in Hmin as [Hf Hmin].
  apply max_from_greatest in Hmax as [Hl Hmax].
  repeat split; auto.
  assert (Ha : aware first = aware (timestamp e0)).
  { rewrite Forall_forall in Hmin. now apply Hmin. }
  change (timestamp e0 :: map timestamp es) with (map timestamp (e0 :: es))
    in Hmin, Hmax.
  rewrite Forall_map in Hmin, Hmax. rewrite Forall_forall in *.
  intros e He. destruct (Hmin e He), (Hmax e He).
  repeat split; congruence || lia.
Qed.

Lemma date_range_bounds_witness :
  exists st self' first last,
    generate_statistics two_records = (Ok (Some st), self')
    /\ In first (map timestamp (entries two_records))
    /\ In last (map timestamp (entries two_records))
    /\ date_range_start st = Some (DT.isoformat first)
    /\ date_range_end st = Some (DT.isoformat last)
    /\ Forall (fun e =>
                 (instant first <= instant (timestamp e) <= instant last)%Z
                 /\ aware (timestamp e) = aware first)
              (entries two_records).
Proof.
  destruct (generate_statistics two_records) as [[[st|]|e] self'] eqn:H;
    try (vm_compute in H; discriminate H).
  destruct (date_range_bounds two_records st self' H) as (first & last & Hb).
  exists st, self', first, last. split; [reflexivity | exact Hb].
Defined.

End SnapshotFacts.

(** ** Trimming *)

Module StripFacts.

Import Str StrFacts LogParser.

Lemma lstrip_blanks (ws s : string) :
  forallb is_space ws = true -> lstrip (ws ++ s) = lstrip s.
Proof.
  induction ws as [|c ws IH]; cbn [forallb append lstrip]; [reflexivity|].
  intros H. apply andb_prop in H as [-> H]. now apply IH.
Qed.

Lemma rstrip_all_blanks (ws : string) :
  forallb is_space ws = true -> rstrip ws = "".
Proof.
  induction ws as [|c ws IH]; cbn [forallb rstrip]; [reflexivity|].
  intros H. apply andb_prop in H as [-> H]. now rewrite IH.
Qed.

Lemma rstrip_blanks (s ws : string) :
  forallb is_space ws = true -> rstrip (s ++ ws) = rstrip s.
Proof.
  intros H. induction s as [|c s IH]; cbn [append rstrip].
  - now apply rstrip_all_blanks.
  - now rewrite IH.
Qed.

Lemma lstrip_all_blanks (ws : string) :
  forallb is_space ws = true -> lstrip ws = "".
Proof.
  intros H. rewrite <- (append_nil_r ws). now rewrite lstrip_blanks.
Qed.

Lemma strip_trailing (s ws : string) :
  forallb is_space ws = true -> strip (s ++ ws) = strip s.
Proof.
  intros H. unfold strip. induction s as [|c s IH]; cbn [append lstrip].
  - now rewrite lstrip_all_blanks.
  - destruct (is_space c); [exact IH|].
    change (String c (s ++ ws)) with (String c s ++ ws).
    now apply rstrip_blanks.
Qed.

(** Blanks around a text do not change what [strip] returns. *)
Lemma strip_padding (a s b : string) :
  forallb is_space a = true -> forallb is_space b = true ->
  strip (a ++ s ++ b) = strip s.
Proof.
  intros Ha Hb. rewrite <- (strip_trailing s b Hb).
  unfold strip. now rewrite lstrip_blanks.
Qed.

Lemma rstrip_idem (s : string) : rstrip (rstrip s) = rstrip s.
Proof.
  induction s as [|c s IH]; cbn [rstrip]; [reflexivity|].
  destruct (rstrip s) as [|x t] eqn:E.
  - destruct (is_space c) eqn:Hc; cbn [rstrip]; [reflexivity|]. now rewrite Hc.
  - cbn [rstrip]. cbn [rstrip] in IH. now rewrite IH.
Qed.

Lemma lstrip_head (s : string) :
  match lstrip s with
  | EmptyString => True
  | String c _ => is_space c = false
  end.
Proof.
  induction s as [|c s IH]; cbn [lstrip]; [exact I|].
  destruct (is_space c) eqn:E; [exact IH | exact E].
Qed.

Lemma rstrip_head (s : string) :
  match s with
  | EmptyString => True
  | String c _ => is_space c = false
  end ->
  match rstrip s with
  | EmptyString => True
  | String c _ => is_space c = false
  end.
Proof.
  destruct s as [|c s]; cbn [rstrip]; [auto|]. intros Hc.
  destruct (rstrip s); [rewrite Hc|]; exact Hc.
Qed.

Lemma strip_idem (s : string) : strip (strip s) = strip s.
Proof.
  unfold strip.
  pose proof (rstrip_head _ (lstrip_head s)) as H.
  destruct (rstrip (lstrip s)) as [|c t] eqn:E; [reflexivity|].
  cbn [lstrip]. rewrite H, <- E. apply rstrip_idem.
Qed.

(** [strip] keeps characters of the text, in a class if all are. *)
Lemma lstrip_forallb (p : ascii -> bool) (s : string) :
  forallb p s = true -> forallb p (lstrip s) = true.
Proof.
  induction s as [|c s IH]; cbn [lstrip]; [auto|].
  destruct (is_space c); [|auto]. cbn [forallb]. intros H.
  apply andb_prop in H as [_ H]. now apply IH.
Qed.

Lemma rstrip_forallb (p : ascii -> bool) (s : string) :
  forallb p s = true -> forallb p (rstrip s) = true.
Proof.
  induction s as [|c s IH]; cbn [rstrip forallb]; [auto|].
  intros H. apply andb_prop in H as [Hc H]. specialize (IH H).
  destruct (rstrip s); [destruct (is_space c)|]; cbn [forallb] in *;
    rewrite ?Hc, ?IH; auto.
Qed.

Lemma strip_forallb (p : ascii -> bool) (s : string) :
  forallb p s = true -> forallb p (strip s) = true.
Proof. intros H. now apply rstrip_forallb, lstrip_forallb. Qed.

(** X12.  Blanks before and after a line (indentation, the newline at its
    end) make no difference to [parse_line]. *)
Theorem parse_line_ignores_padding (a line b : string) (n : Z)
    (now : DT.datetime) :
  forallb is_space a = true -> forallb is_space b = true ->
  parse_line (a ++ line ++ b) n now = parse_line line n now.
Proof.
  intros Ha Hb. unfold parse_line. now rewrite strip_padding.
Qed.

Lemma parse_line_ignores_padding_witness :
  parse_line ("   " ++ "disk error" ++ LogAnalyzer.newline) 3
             LogParserFacts.noon
  = parse_line "disk error" 3 LogParserFacts.noon.
Proof.
  apply parse_line_ignores_padding; reflexivity.
Defined.

End StripFacts.

(** ** Export in a recognized format *)

Module ExportFormatFacts.

Import LogAnalyzer.

(** What [write_file] leaves: nothing changed when [open] fails; else the
    file at the path holds the text, or the part of it written before the
    failure, and every other file is as before. *)
Lemma write_file_cases (d : disk) (path text : string) :
  match write_file d path text with
  | Some (ok, d') =>
      writable d path = true
      /\ ok = negb (Py.is_some (write_error d path text))
      /\ (exists part,
            contents d' path = Some part
            /\ String.prefix part text = true
            /\ (ok = true -> part = text))
      /\ (forall p, p <> path -> contents d' p = contents d p)
      /\ (forall p, writable d' p = writable d p)
  | None => writable d path = false
  end.
Proof.
  assert (Hp : forall n s, String.prefix (Str.take n s) s = true).
  { induction n as [|n IH]; intros [|c s]; cbn; try reflexivity.
    destruct (ascii_dec c c); [apply IH | congruence]. }
  assert (Hr : forall s, String.prefix s s = true).
  { induction s as [|c s IH]; cbn; [reflexivity|].
    destruct (ascii_dec c c); [exact IH | congruence]. }
  unfold write_file. destruct (writable d path); [|reflexivity].
  destruct (write_error d path text) as [n|]; cbn [put contents writable];
    rewrite String.eqb_refl; repeat split;
    try (intros p Hne; destruct (String.eqb_spec p path);
         [contradiction | reflexivity]).
  - exists (Str.take n text). repeat split; [apply Hp | discriminate].
  - exists text. repeat split. apply Hr.
Qed.

(** X13.  For a selector that reads [json], [csv] or [txt] in lower case,
    there is a text [export_results] sets out to write, and the flag it
    returns is [True] exactly when the output path can be opened for
    writing and no write of that text fails.  When [open] fails the disk
    is as before.  When [open] succeeds the file at the path holds a
    prefix of the text: all of it when the flag is [True], the part
    written before the failure when it is [False].  No other file
    changes. *)
Theorem export_known_format (json_dump : json -> string)
    (csv_write : list (list string) -> string) (now : DT.datetime)
    (output_path : string) (records : list LogEntry) (format_type : string)
    (self : LogAnalyzer) (d : disk) :
  In (Str.lower format_type) ["json"; "csv"; "txt"] ->
  let r := export_results json_dump csv_write now output_path records
                          format_type self d in
  exists text,
    fst r = writable d output_path
            && negb (Py.is_some (write_error d output_path text))
    /\ (writable d output_path = false -> snd r = d)
    /\ (writable d output_path = true ->
        exists part,
          contents (snd r) output_path = Some part
          /\ String.prefix part text = true
          /\ (fst r = true -> part = text))
    /\ (forall p, p <> output_path -> contents (snd r) p = contents d p)
    /\ (forall p, writable (snd r) p = writable d p).
Proof.
  intros Hin. cbn zeta. unfold export_results.
  assert (Hw : forall text,
    let r := match write_file d output_path text with
             | Some r => r
             | None => (false, d)
             end in
    fst r = writable d output_path
            && negb (Py.is_some (write_error d output_path text))
    /\ (writable d output_path = false -> snd r = d)
    /\ (writable d output_path = true ->
        exists part,
          contents (snd r) output_path = Some part
          /\ String.prefix part text = true
          /\ (fst r = true -> part = text))
    /\ (forall p, p <> output_path -> contents (snd r) p = contents d p)
    /\ (forall p, writable (snd r) p = writable d p)).
  { intros text. pose proof (write_file_cases d output_path text) as H.
    destruct (write_file d output_path text) as [[ok d']|]; cbn [fst snd].
    - destruct H as (H1 & H2 & H3 & H4 & H5). rewrite H1, H2.
      repeat split; auto; try discriminate.
      intros _. destruct H3 as (part & Hc & Hp & Ht). exists part.
      repeat split; auto. intros E. apply Ht. now rewrite H2.
    - rewrite H. repeat split; auto; discriminate. }
  cbn [In] in Hin. destruct Hin as [<-|[<-|[<-|[]]]]; cbn [String.eqb];
    eexists; apply Hw.
Qed.

(** a disk where only [out.csv] may be written, and takes three
    characters *)
Definition csv_only : disk :=
  mkDisk (fun p => String.eqb p "out.csv") (fun _ => None)
         (fun _ _ => Some 3%nat).

(** On that disk the export fails and leaves a truncated file. *)
Lemma export_known_format_witness :
  let r := export_results (fun _ => "{}") (fun _ => "rows")
             LogParserFacts.noon "out.csv"
             (entries StatisticsFacts.two_records) "CSV"
             StatisticsFacts.two_records csv_only in
  fst r = false /\ contents (snd r) "out.csv" = Some "row".
Proof.
  cbn zeta.
  destruct (export_known_format (fun _ => "{}") (fun _ => "rows")
              LogParserFacts.noon "out.csv"
              (entries StatisticsFacts.two_records) "CSV"
              StatisticsFacts.two_records csv_only)
    as (text & Hf & _ & _ & _ & _); [right; left; reflexivity|].
  cbn zeta in Hf. split; [|reflexivity].
  rewrite Hf. reflexivity.
Defined.

End ExportFormatFacts.

(** ** The command line *)

Module CliFacts.

Import Re ReFacts LogAnalyzer Cli StatisticsFacts StripFacts.

(** *** Splitting *)

Lemma split_cons (c : ascii) (s : string) :
  exists w ws, split c s = w :: ws.
Proof.
  destruct s as [|x s]; cbn [split]; [eauto|].
  destruct (Ascii.eqb x c); [eauto|]. destruct (split c s); eauto.
Qed.

(** No part of a split holds the separator. *)
Lemma split_no_separator (c : ascii) (s : string) :
  Forall (fun w => Str.forallb (fun x => negb (Ascii.eqb x c)) w = true)
         (split c s).
Proof.
  induction s as [|x s IH]; cbn [split]; [repeat constructor|].
  destruct (Ascii.eqb x c) eqn:E; [constructor; auto|].
  destruct (split c s) as [|w ws]; [repeat constructor; cbn; now rewrite E|].
  inversion IH; subst. constructor; auto. cbn. now rewrite E.
Qed.

Lemma contains_char (c : ascii) (s : string) :
  Str.contains s (String c "") = Str.has_char c s.
Proof.
  unfold Str.has_char. induction s as [|x s IH]; [reflexivity|].
  cbn [Str.contains Str.forallb String.prefix]. rewrite IH.
  destruct (Ascii.ascii_dec c x) as [<-|H].
  - rewrite Ascii.eqb_refl. now destruct s.
  - destruct (Ascii.eqb_spec x c); [congruence|]. reflexivity.
Qed.

(** The last part of a split: the text after the last separator. *)
Lemma split_last (c : ascii) (s : string) :
  if Str.has_char c s then
    exists stem w1 w2 ws,
      split c s = w1 :: w2 :: ws
      /\ s = stem ++ String c (last (w2 :: ws) "")
  else split c s = [s].
Proof.
  unfold Str.has_char. induction s as [|x s IH]; [reflexivity|].
  cbn [Str.forallb split].
  destruct (Ascii.eqb_spec x c) as [->|Hx]; cbn [negb andb].
  - destruct (Str.forallb (fun x => negb (Ascii.eqb x c)) s); cbn [negb] in *.
    + rewrite IH. exists "", "", s, []. auto.
    + destruct IH as (stem & w1 & w2 & ws & -> & Hs).
      exists (String c stem), "", w1, (w2 :: ws). split; [reflexivity|].
      cbn [append]. now rewrite Hs at 1.
  - destruct (Str.forallb (fun x => negb (Ascii.eqb x c)) s); cbn [negb] in *.
    + now rewrite IH.
    + destruct IH as (stem & w1 & w2 & ws & -> & Hs).
      exists (String x stem), (String x w1), w2, ws. split; [reflexivity|].
      cbn [append]. now rewrite Hs at 1.
Qed.

(** X14.  The keywords [main] passes to [filter_entries] are never empty,
    hold no comma, and have no blank at either end. *)
Theorem keyword_list_clean (arg : option string) :
  Forall (fun kw =>
            kw <> "" /\ Str.strip kw = kw /\ Str.has_char "," kw = false)
         (keyword_list arg).
Proof.
  unfold keyword_list. destruct (given arg) as [keywords|]; [|constructor].
  apply Forall_forall. intros kw Hkw.
  apply in_map_iff in Hkw as (w & <- & Hw).
  apply filter_In in Hw as [Hw Hne].
  pose proof (split_no_separator "," keywords) as Hs.
  rewrite Forall_forall in Hs. specialize (Hs w Hw).
  repeat split.
  - intros E. rewrite E in Hne. discriminate Hne.
  - apply strip_idem.
  - unfold Str.has_char. now rewrite strip_forallb.
Qed.

(** X15.  When the export path holds a dot, the format [main] exports in
    is the text after its last dot, whatever [--format] says, and that text
    holds no dot; a path without a dot leaves the choice to [--format]. *)
Theorem export_format_is_extension (path format : string) :
  if Str.contains path "." then
    (exists stem, path = stem ++ "." ++ export_format path format)
    /\ Str.has_char "." (export_format path format) = false
  else export_format path format = format.
Proof.
  unfold export_format. rewrite contains_char.
  pose proof (split_last "." path) as H.
  pose proof (split_no_separator "." path) as Hs.
  destruct (Str.has_char "." path); [|reflexivity].
  destruct H as (stem & w1 & w2 & ws & Hsp & Hp). rewrite Hsp in *.
  change (last (w1 :: w2 :: ws) "") with (last (w2 :: ws) "").
  split; [now exists stem|].
  assert (Hin : In (last (w2 :: ws) "") (w1 :: w2 :: ws)).
  { destruct (exists_last (l := w2 :: ws)) as (l' & a & E);
      [discriminate|].
    rewrite E, last_last. right. apply in_or_app. right. now left. }
  rewrite Forall_forall in Hs. unfold Str.has_char. now rewrite (Hs _ Hin).
Qed.

(** *** Date arguments *)

(** the names of the groups of a pattern *)
Fixpoint names (r : regex) : list string :=
  match r with
  | Eps | Cls _ | Star _ => []
  | Seq r1 r2 | Alt r1 r2 => (names r1 ++ names r2)%list
  | Opt r1 => names r1
  | Group n r1 => n :: names r1
  end.

(** A match sets no group but those of its pattern. *)
Lemma Matches_get r s g s' g' :
  Matches r s g s' g' ->
  forall n, ~ In n (names r) -> get g' n = get g n.
Proof.
  induction 1; cbn [names]; intros x Hx; try reflexivity;
    try (rewrite in_app_iff in Hx); auto.
  - rewrite IHMatches2, IHMatches1; tauto.
  - cbn [In] in Hx. cbn [get].
    destruct (String.eqb_spec n x); [tauto|]. apply IHMatches. tauto.
Qed.

(** [strptime] with the format [%Y-%m-%d] gives a naive midnight. *)
Lemma strptime_date_only (text : string) (t : DT.datetime) :
  DT.strptime text "%Y-%m-%d" = Some t ->
  t = DT.Datetime (DT.year t) (DT.month t) (DT.day t) 0 0 0 0 None.
Proof.
  unfold DT.strptime.
  assert (Hn : option_map names (DT.format_regex false "%Y-%m-%d")
               = Some ["Y"; "m"; "d"]) by (vm_compute; reflexivity).
  destruct (DT.format_regex false "%Y-%m-%d") as [r|]; [|discriminate].
  injection Hn as Hn.
  destruct (match_ r text) as [m|] eqn:Hm; [|discriminate].
  apply match_sound in Hm.
  assert (Hg : forall n, ~ In n ["Y"; "m"; "d"] -> get (groups m) n = None).
  { intros n H. rewrite <- Hn in H. now rewrite (Matches_get _ _ _ _ _ Hm). }
  destruct (negb (String.eqb (rest m) "")); [discriminate|].
  unfold DT.field.
  rewrite (Hg "b"), (Hg "f"), (Hg "z"), (Hg "H"), (Hg "M"), (Hg "S");
    try (cbn; intuition discriminate).
  unfold DT.new_datetime.
  match goal with |- context [if ?b then _ else _] => destruct b end;
    [|discriminate].
  intros [= <-]. reflexivity.
Qed.

Lemma date_arg_naive (arg : option string) (d : DT.datetime) :
  date_arg arg = Ok (Some d) ->
  d = DT.Datetime (DT.year d) (DT.month d) (DT.day d) 0 0 0 0 None.
Proof.
  unfold date_arg. destruct (given arg) as [text|]; [|discriminate].
  destruct (DT.strptime text "%Y-%m-%d") as [t|] eqn:H; [|discriminate].
  intros [= <-]. exact (strptime_date_only text t H).
Qed.

(** X16.  The end bound [main] builds from [--end-date] is 23:59:59 of
    that day without a fraction: a naive timestamp of the same day passes
    the bound exactly when its time of day is no later than
    23:59:59.000000, so the entries of the last second that carry a
    fraction are left out. *)
Theorem end_date_bound (arg : option string) (d t : DT.datetime) :
  date_arg arg = Ok (Some d) ->
  DT.tzinfo t = None ->
  DT.year t = DT.year d -> DT.month t = DT.month d -> DT.day t = DT.day d ->
  DT.le t (end_of_day d) = Ok (DT.time_us t <=? 86399000000)%Z.
Proof.
  intros Hd Ht Hy Hm Hday. apply date_arg_naive in Hd.
  unfold DT.le, DT.cmp, end_of_day. rewrite Hd. cbn [DT.tzinfo]. rewrite Ht.
  cbn [bind]. f_equal. unfold DT.local_us.
  cbn [DT.year DT.month DT.day]. rewrite Hy, Hm, Hday.
  rewrite Z.add_compare_mono_l, Z.leb_compare. reflexivity.
Qed.

(** a timestamp half a second before midnight of 2024-01-31 *)
Definition last_half_second : DT.datetime :=
  DT.Datetime 2024 1 31 23 59 59 500000 None.

Definition january_31 : DT.datetime := DT.Datetime 2024 1 31 0 0 0 0 None.

Lemma end_date_bound_witness :
  DT.le last_half_second (end_of_day january_31) = Ok false.
Proof.
  exact (end_date_bound (Some "2024-01-31") january_31 last_half_second
           eq_refl eq_refl eq_refl eq_refl eq_refl).
Defined.

(** *** [main] *)

Import EntryFacts IngestionFacts FilterFacts.

Lemma read_lines_all_skipped (clock : Z -> DT.datetime)
    (lines : list string) :
  forallb skipped lines = true ->
  forall (n : Z) (total parsed : nat) (self : LogAnalyzer),
    read_lines clock lines n total parsed self
    = (Ok ((total + length lines)%nat, parsed), self).
Proof.
  induction lines as [|line lines IH]; cbn [forallb read_lines length];
    intros H n total parsed self.
  - now rewrite Nat.add_0_r.
  - apply andb_prop in H as [Hs H].
    rewrite (parse_line_skipped _ _ _ Hs), (IH H). do 3 f_equal. lia.
Qed.

Lemma load_nothing (fs : string -> file) (clock : Z -> DT.datetime)
    (path : string) (lines : list string) (self : LogAnalyzer) :
  fs path = Lines lines -> forallb skipped lines = true ->
  load_file fs clock path self
  = (Ok (length lines, 0%nat), mkLogAnalyzer [] None).
Proof.
  intros Hf Hs. unfold load_file. rewrite Hf.
  now rewrite (read_lines_all_skipped clock lines Hs).
Qed.

Lemma stages_nil (c : criteria) : stages c [] = Ok [].
Proof.
  unfold stages, by_start, by_end.
  now destruct (start_date c), (end_date c).
Qed.

Lemma pyfilter_raise {A : Type} (p : A -> res bool) (l : list A) (e : exn) :
  Py.filter p l = Raise e -> exists x, In x l /\ p x = Raise e.
Proof.
  induction l as [|x l IH]; cbn [Py.filter]; [discriminate|].
  destruct (p x) as [b|e'] eqn:Hx; cbn [bind].
  - destruct (Py.filter p l) as [r|e']; cbn [bind]; [discriminate|].
    intros [= ->]. destruct (IH eq_refl) as (y & Hy & Hp).
    exists y. split; [now right | assumption].
  - intros [= ->]. exists x. split; [now left | assumption].
Qed.

(** A filter with naive bounds raises only [TypeError], on an aware entry. *)
Lemma stages_raise (c : criteria) (l : list LogEntry) (e : exn) :
  stages c l = Raise e ->
  (forall d, start_date c = Some d -> aware d = false) ->
  (forall d, end_date c = Some d -> aware d = false) ->
  e = TypeError
  /\ (start_date c <> None \/ end_date c <> None)
  /\ exists x, In x l /\ aware (timestamp x) = true.
Proof.
  unfold stages, by_start, by_end. intros H Hs He.
  assert (Hcmp : forall x d, aware d = false ->
                             DT.cmp (timestamp x) d = Raise e ->
                             e = TypeError /\ aware (timestamp x) = true).
  { intros x d Hd Hc. apply cmp_raise in Hc as [-> Hc]. split; [reflexivity|].
    rewrite Hd in Hc. now destruct (aware (timestamp x)). }
  destruct (start_date c) as [d1|] eqn:E1.
  - destruct (Py.filter (fun e0 => DT.ge (timestamp e0) d1) l) as [l1|e1]
      eqn:F1; cbn [bind] in H.
    + destruct (end_date c) as [d2|] eqn:E2; [|discriminate].
      destruct (Py.filter (fun e0 => DT.le (timestamp e0) d2) l1) as [l2|e2]
        eqn:F2; cbn [bind] in H; [discriminate|]. injection H as ->.
      apply pyfilter_raise in F2 as (x & Hx & Hr).
      unfold DT.le in Hr.
      destruct (DT.cmp (timestamp x) d2) eqn:Hc; [discriminate|].
      injection Hr as ->.
      destruct (Hcmp x d2 (He d2 eq_refl) Hc) as [-> Ha].
      repeat split; [right; discriminate|]. exists x. split; [|assumption].
      apply pyfilter_inv in F1 as [Hsub _].
      assert (Hin : forall (a b : list LogEntry),
                 subseq a b -> forall y, In y a -> In y b).
      { induction 1; cbn; intuition. }
      exact (Hin _ _ Hsub x Hx).
    + injection H as ->. apply pyfilter_raise in F1 as (x & Hx & Hr).
      unfold DT.ge in Hr.
      destruct (DT.cmp (timestamp x) d1) eqn:Hc; [discriminate|].
      injection Hr as ->.
      destruct (Hcmp x d1 (Hs d1 eq_refl) Hc) as [-> Ha].
      repeat split; [left; discriminate|]. now exists x.
  - cbn [bind] in H. destruct (end_date c) as [d2|] eqn:E2; [|discriminate].
    destruct (Py.filter (fun e0 => DT.le (timestamp e0) d2) l) as [l2|e2]
      eqn:F2; cbn [bind] in H; [discriminate|]. injection H as ->.
    apply pyfilter_raise in F2 as (x & Hx & Hr).
    unfold DT.le in Hr.
    destruct (DT.cmp (timestamp x) d2) eqn:Hc; [discriminate|].
    injection Hr as ->.
    destruct (Hcmp x d2 (He d2 eq_refl) Hc) as [-> Ha].
    repeat split; [right; discriminate|]. now exists x.
Qed.

Lemma date_arg_aware (arg : option string) (o : option DT.datetime) :
  date_arg arg = Ok o -> forall d, o = Some d -> aware d = false.
Proof.
  intros H d ->. apply date_arg_naive in H. now rewrite H.
Qed.

Section MainFacts.

Variable json_dump : json -> string.
Variable csv_write : list (list string) -> string.
Variable fs : string -> file.
Variable clock : Z -> DT.datetime.
Variable now : DT.datetime.

(** the path [main] loads: the positional argument, else [--file] *)
Definition chosen_path (a : args) : option string :=
  match given (arg_file a) with
  | Some f => Some f
  | None => given (arg_file_path a)
  end.

(** X17.  Run on a readable file in which every line is blank or a
    comment (an empty file included), with well-formed date arguments,
    [main] ends in an uncaught [KeyError]: the load succeeds with no
    entry, the statistics are the empty dictionary, and [print_statistics]
    looks up [total_entries] in it.  Nothing is exported. *)
Theorem main_without_records (a : args) (d : disk) (path : string)
    (lines : list string) (start_date end_date : option DT.datetime) :
  arg_gui a = false ->
  chosen_path a = Some path ->
  fs path = Lines lines ->
  forallb skipped lines = true ->
  date_arg (arg_start_date a) = Ok start_date ->
  date_arg (arg_end_date a) = Ok end_date ->
  main json_dump csv_write fs clock now a d = (UncaughtKeyError, d).
Proof.
  unfold chosen_path. intros Hg Hp Hf Hs Hd1 Hd2. unfold main.
  rewrite Hg, Hp, (load_nothing fs clock path lines _ Hf Hs), Hd1, Hd2.
  rewrite filter_entries_stages. cbn [fst entries stats].
  now rewrite stages_nil.
Qed.

(** X18.  When [main] ends in an uncaught exception of the analyzer, the
    exception is [TypeError], nothing has been written, a date argument was
    given, and the file loaded holds an entry with a timezone-aware
    timestamp, which cannot be compared with the naive date bound. *)
Theorem main_uncaught_is_type_error (a : args) (d d' : disk) (e : exn) :
  main json_dump csv_write fs clock now a d = (Uncaught e, d') ->
  e = TypeError
  /\ d' = d
  /\ (given (arg_start_date a) <> None \/ given (arg_end_date a) <> None)
  /\ exists path counts analyzer entry,
       chosen_path a = Some path
       /\ load_file fs clock path LogAnalyzer_init = (Ok counts, analyzer)
       /\ In entry (entries analyzer)
       /\ aware (timestamp entry) = true.
Proof.
  unfold main, chosen_path.
  destruct (arg_gui a); [discriminate|].
  destruct (match given (arg_file a) with
            | Some f => Some f
            | None => given (arg_file_path a)
            end) as [path|]; [|discriminate].
  destruct (load_file fs clock path LogAnalyzer_init) as [[counts|x] analyzer]
    eqn:Hl; [|discriminate].
  destruct (date_arg (arg_start_date a)) as [sd|] eqn:Hs; [|discriminate].
  destruct (date_arg (arg_end_date a)) as [ed|] eqn:He; [|discriminate].
  rewrite filter_entries_stages. cbn [fst].
  destruct (stages _ (entries analyzer)) as [filtered|e0] eqn:Hst.
  - destruct (print_statistics (stats analyzer)); try discriminate.
    destruct (given (arg_export a)); [|discriminate].
    destruct (export_results _ _ _ _ _ _ _ _) as [[|] ?]; discriminate.
  - intros [= <- <-].
    apply stages_raise in Hst as (-> & Hb & x & Hx & Ha); cbn [start_date end_date].
    + repeat split.
      * destruct Hb as [Hb|Hb]; [left|right]; intros E.
        -- unfold date_arg in Hs. rewrite E in Hs. injection Hs as <-.
           now apply Hb.
        -- unfold date_arg in He. rewrite E in He. injection He as <-.
           now apply Hb.
      * exists path, counts, analyzer, x. auto.
    + exact (date_arg_aware _ _ Hs).
    + intros d0 Hd0. destruct ed as [t|]; [|discriminate].
      injection Hd0 as <-. unfold aware, end_of_day. cbn [DT.tzinfo].
      exact (date_arg_aware _ _ He t eq_refl).
Qed.

(** X19.  [main] never ends in the [ZeroDivisionError] of the percentages
    of [print_statistics]: the statistics it prints come from a load, and
    their [total_entries] is positive whenever they hold a level. *)
Theorem main_no_zero_division (a : args) (d : disk) :
  fst (main json_dump csv_write fs clock now a d) <> UncaughtZeroDivision.
Proof.
  unfold main.
  destruct (arg_gui a); [discriminate|].
  destruct (match given (arg_file a) with
            | Some f => Some f
            | None => given (arg_file_path a)
            end) as [path|]; [|discriminate].
  destruct (load_file fs clock path LogAnalyzer_init) as [[counts|x] analyzer]
    eqn:Hl; [|discriminate].
  destruct (date_arg (arg_start_date a)); [|discriminate].
  destruct (date_arg (arg_end_date a)); [|discriminate].
  destruct (fst (filter_entries _ analyzer)); [|discriminate].
  apply load_file_ok_inv in Hl as (lines & new & _ & _ & _ & _ & Hg).
  unfold print_statistics.
  destruct (stats analyzer) as [st|]; [|discriminate].
  assert (Ht : total_entries st <> 0%nat).
  { destruct new as [|e0 new].
    - unfold generate_statistics in Hg. discriminate Hg.
    - pose proof (generate_statistics_cases
                    (mkLogAnalyzer (e0 :: new) (stats LogAnalyzer_init))) as H.
      rewrite Hg in H. destruct H as (_ & -> & _); discriminate. }
  destruct (level_distribution st), (total_entries st); try congruence;
    destruct (given (arg_export a)); try discriminate;
    destruct (export_results _ _ _ _ _ _ _ _) as [[|] ?]; discriminate.
Qed.

(** X20.  With no date argument, a file that yields at least one entry
    and an export path whose extension is none of [json], [csv], [txt] in
    any letter case, [main] returns normally, as after a successful
    export, and the disk is unchanged: nothing was written. *)
Theorem main_unknown_extension (a : args) (d : disk) (path target : string)
    (counts : nat * nat) (analyzer : LogAnalyzer) :
  arg_gui a = false ->
  chosen_path a = Some path ->
  load_file fs clock path LogAnalyzer_init = (Ok counts, analyzer) ->
  entries analyzer <> [] ->
  given (arg_start_date a) = None ->
  given (arg_end_date a) = None ->
  given (arg_export a) = Some target ->
  Str.contains target "." = true ->
  ~ In (Str.lower (export_format target (arg_format a)))
       ["json"; "csv"; "txt"] ->
  main json_dump csv_write fs clock now a d = (Returned, d).
Proof.
  unfold chosen_path. intros Hg Hp Hl Hne Hs He Hx Hdot Hfmt. unfold main.
  rewrite Hg, Hp, Hl. unfold date_arg. rewrite Hs, He.
  rewrite filter_entries_stages. cbn [fst option_map].
  unfold stages, by_start, by_end. cbn [start_date end_date bind].
  apply load_file_ok_inv in Hl as (lines & new & _ & _ & _ & Hself & Hgen).
  rewrite Hself in Hne. cbn [entries] in Hne.
  destruct new as [|e0 new]; [congruence|].
  assert (Hnew : entries (mkLogAnalyzer (e0 :: new) (stats LogAnalyzer_init))
                 <> []) by discriminate.
  pose proof (generate_statistics_cases _ Hnew) as H.
  rewrite Hgen in H. destruct (stats analyzer) as [st|]; [|contradiction H].
  destruct H as (_ & Ht & _).
  unfold print_statistics. rewrite Ht. cbn [entries length].
  assert (Hexp : export_results json_dump csv_write now target
                   (filter (source_test
                              (mkCriteria None None (arg_level a)
                                 (Some (keyword_list (arg_keywords a)))
                                 (arg_source a)))
                      (filter (keyword_test
                                 (mkCriteria None None (arg_level a)
                                    (Some (keyword_list (arg_keywords a)))
                                    (arg_source a)))
                         (filter (level_test
                                    (mkCriteria None None (arg_level a)
                                       (Some (keyword_list (arg_keywords a)))
                                       (arg_source a)))
                            (entries analyzer))))
                   (export_format target (arg_format a)) analyzer d
                 = (true, d)).
  { unfold export_results. cbn [In] in Hfmt.
    destruct (String.eqb_spec (Str.lower (export_format target (arg_format a)))
                              "json") as [E|_]; [exfalso; intuition|].
    destruct (String.eqb_spec (Str.lower (export_format target (arg_format a)))
                              "csv") as [E|_]; [exfalso; intuition|].
    destruct (String.eqb_spec (Str.lower (export_format target (arg_format a)))
                              "txt") as [E|_]; [exfalso; intuition|].
    reflexivity. }
  destruct (level_distribution st); rewrite Hx, Hexp; reflexivity.
Qed.

End MainFacts.

(** the arguments of [log_analyzer.py PATH] *)
Definition just (path : string) : args :=
  mkArgs (Some path) None None None None None None None "json" false false.

(** a file system whose one file holds a comment and an empty line *)
Definition comments_only (path : string) : file :=
  if String.eqb path "empty.log" then Lines ["# rotated" ++ newline; newline]
  else Missing.

Lemma main_without_records_witness :
  main (fun _ => "") (fun _ => "") comments_only LoadFacts.frozen
       LogParserFacts.noon (just "empty.log") ExportFacts.blank_disk
  = (UncaughtKeyError, ExportFacts.blank_disk).
Proof.
  apply (main_without_records (fun _ => "") (fun _ => "") comments_only
           LoadFacts.frozen LogParserFacts.noon (just "empty.log")
           ExportFacts.blank_disk "empty.log"
           ["# rotated" ++ newline; newline] None None);
    reflexivity.
Defined.

(** a file system whose one file holds an access-log line with a
    positive UTC offset *)
Definition access_log (path : string) : file :=
  if String.eqb path "access.log" then Lines [LogParserFacts.forbidden_line]
  else Missing.

(** the arguments of [log_analyzer.py access.log --start-date 2024-01-01] *)
Definition since_new_year : args :=
  mkArgs (Some "access.log") None (Some "2024-01-01") None None None None
         None "json" false false.

Lemma main_uncaught_is_type_error_witness :
  TypeError = TypeError
  /\ ExportFacts.blank_disk = ExportFacts.blank_disk
  /\ (given (arg_start_date since_new_year) <> None
      \/ given (arg_end_date since_new_year) <> None)
  /\ exists path counts analyzer entry,
       chosen_path since_new_year = Some path
       /\ load_file access_log LoadFacts.frozen path LogAnalyzer_init
          = (Ok counts, analyzer)
       /\ In entry (entries analyzer)
       /\ aware (timestamp entry) = true.
Proof.
  apply (main_uncaught_is_type_error (fun _ => "") (fun _ => "") access_log
           LoadFacts.frozen LogParserFacts.noon since_new_year
           ExportFacts.blank_disk ExportFacts.blank_disk TypeError).
  vm_compute. reflexivity.
Defined.

(** the arguments of [log_analyzer.py app.log --export report.xml] *)
Definition export_xml : args :=
  mkArgs (Some "app.log") None None None None None None (Some "report.xml")
         "csv" false false.

Lemma main_unknown_extension_witness :
  main (fun _ => "") (fun _ => "") one_file LoadFacts.frozen
       LogParserFacts.noon export_xml ExportFacts.blank_disk
  = (Returned, ExportFacts.blank_disk).
Proof.
  apply (main_unknown_extension (fun _ => "") (fun _ => "") one_file
           LoadFacts.frozen LogParserFacts.noon export_xml
           ExportFacts.blank_disk "app.log" "report.xml" (4%nat, 2%nat)
           after_load);
    try reflexivity.
  - vm_compute. discriminate.
  - vm_compute. intuition discriminate.
Defined.

End CliFacts.

(** ** Parsed timestamps are valid *)

Module TimestampFacts.

Import LogParser.

Local Open Scope Z_scope.

(** a calendar date with a time of day, and an offset within a day *)
Definition valid (t : DT.datetime) : Prop :=
  1 <= DT.year t <= 9999
  /\ 1 <= DT.month t <= 12
  /\ 1 <= DT.day t <= DT.days_in_month (DT.year t) (DT.month t)
  /\ 0 <= DT.hour t <= 23
  /\ 0 <= DT.minute t <= 59
  /\ 0 <= DT.second t <= 59
  /\ 0 <= DT.microsecond t <= 999999
  /\ match DT.tzinfo t with
     | Some off => - DT.day_us < off < DT.day_us
     | None => True
     end.

Lemma timezone_range (off o : Z) :
  DT.timezone off = Some o -> - DT.day_us < o < DT.day_us.
Proof.
  unfold DT.timezone.
  destruct (- DT.day_us <? off) eqn:H1; [|discriminate].
  destruct (off <? DT.day_us) eqn:H2; [|discriminate].
  intros [= <-]. lia.
Qed.

Lemma new_datetime_valid (y m d hh mi ss us : Z) (tz : option Z)
    (t : DT.datetime) :
  DT.new_datetime y m d hh mi ss us tz = Some t ->
  match tz with
  | Some off => - DT.day_us < off < DT.day_us
  | None => True
  end ->
  valid t.
Proof.
  unfold DT.new_datetime.
  match goal with |- context [if ?b then _ else _] => destruct b eqn:Hb end;
    [|discriminate].
  intros [= <-] Htz. unfold valid. cbn.
  repeat (apply andb_prop in Hb as [Hb ?]).
  repeat split; try lia; assumption.
Qed.

Lemma strptime_valid (data fmt : string) (t : DT.datetime) :
  DT.strptime data fmt = Some t -> valid t.
Proof.
  unfold DT.strptime.
  destruct (DT.format_regex false fmt) as [r|]; [|discriminate].
  destruct (Re.match_ r data) as [m|]; [|discriminate].
  destruct (negb (String.eqb (Re.rest m) "")); [discriminate|].
  destruct (Re.get (Re.groups m) "z") as [z|].
  - destruct (DT.parse_z z) as [off|]; [|discriminate].
    destruct (DT.timezone off) as [o|] eqn:Ho; [|discriminate].
    intros H. apply (new_datetime_valid _ _ _ _ _ _ _ _ _ H).
    exact (timezone_range _ _ Ho).
  - intros H. now apply (new_datetime_valid _ _ _ _ _ _ _ _ _ H).
Qed.

Lemma parse_isoformat_time_tz (text : string) (hh mi ss us : Z)
    (tz : option Z) :
  DT.parse_isoformat_time text = Some (hh, mi, ss, us, tz) ->
  match tz with
  | Some off => - DT.day_us < off < DT.day_us
  | None => True
  end.
Proof.
  unfold DT.parse_isoformat_time.
  destruct (DT.parse_hh_mm_ss_ff text 0 (DT.find_tz text))
    as [[[[[h0 m0] s0] u0] flag]|]; [|discriminate].
  destruct (_ =? _)%nat.
  - destruct flag; [discriminate|]. now intros [= _ _ _ _ <-].
  - destruct (DT.char_is text (DT.find_tz text) "Z").
    + destruct (DT.char_is text (DT.find_tz text + 1) zero); [|discriminate].
      intros [= _ _ _ _ <-]. unfold DT.day_us. lia.
    + destruct (DT.parse_hh_mm_ss_ff text (DT.find_tz text + 1) _)
        as [[[[[h1 m1] s1] u1] [|]]|]; try discriminate.
      match goal with |- context [if ?b then _ else _] => destruct b end.
      * intros [= _ _ _ _ <-]. unfold DT.day_us. lia.
      * destruct (DT.timezone _) as [o|] eqn:Ho; [|discriminate].
        intros [= _ _ _ _ <-]. exact (timezone_range _ _ Ho).
Qed.

Lemma fromisoformat_valid (text : string) (t : DT.datetime) :
  DT.fromisoformat text = Some t -> valid t.
Proof.
  unfold DT.fromisoformat.
  destruct (_ <? 7)%nat; [discriminate|].
  destruct (DT.find_separator text _) as [sep|]; [|discriminate].
  destruct (DT.parse_isoformat_date text sep) as [[[y m] d]|]; [|discriminate].
  destruct (sep <? _)%nat.
  - destruct (DT.parse_isoformat_time _) as [[[[[hh mi] ss] us] tz]|] eqn:Ht;
      [|discriminate].
    intros H. apply (new_datetime_valid _ _ _ _ _ _ _ _ _ H).
    exact (parse_isoformat_time_tz _ _ _ _ _ _ Ht).
  - intros H. now apply (new_datetime_valid _ _ _ _ _ _ _ _ _ H).
Qed.

Lemma try_formats_valid (fmts : list string) :
  forall (text : string) (t : DT.datetime),
    try_formats fmts text = inl t -> valid t.
Proof.
  induction fmts as [|fmt fmts IH]; intros text t; cbn [try_formats];
    [discriminate|].
  match goal with
  | |- context [DT.strptime ?x fmt] =>
      destruct (DT.strptime x fmt) as [t'|] eqn:H
  end.
  - intros [= <-]. exact (strptime_valid _ _ _ H).
  - apply IH.
Qed.

(** X21.  Whatever [parse_timestamp] returns is a real calendar date with
    a time of day: year 1 to 9999, a day that exists in its month, hour
    below 24, minute and second below 60, and a UTC offset, when there is
    one, of less than a day. *)
Theorem parse_timestamp_valid (timestamp_str : string) (t : DT.datetime) :
  parse_timestamp timestamp_str = Some t -> valid t.
Proof.
  unfold parse_timestamp.
  destruct (try_formats timestamp_formats (Str.strip timestamp_str))
    as [t'|text] eqn:H.
  - intros [= <-]. exact (try_formats_valid _ _ _ H).
  - apply fromisoformat_valid.
Qed.

Lemma parse_timestamp_valid_witness :
  valid (DT.Datetime 2024 2 29 10 30 25 123000 None).
Proof.
  apply (parse_timestamp_valid "2024-02-29 10:30:25.123"). vm_compute.
  reflexivity.
Defined.

End TimestampFacts.

(** ** Filtering: letter case, and the errors of the snapshot *)

Module FilterCaseFacts.

Import LogAnalyzer StatisticsFacts FilterFacts SnapshotFacts StrFacts.

Lemma upper_lower (s : string) : Str.upper (Str.lower s) = Str.upper s.
Proof.
  unfold Str.upper, Str.lower.
  induction s as [|c s IH]; cbn [Str.map]; [reflexivity|].
  now rewrite upper_lower_char, IH.
Qed.

Lemma map_upper_lower (ls ls' : list string) :
  map Str.lower ls = map Str.lower ls' -> map Str.upper ls = map Str.upper ls'.
Proof.
  intros H.
  rewrite <- (map_ext _ _ upper_lower ls), <- (map_ext _ _ upper_lower ls').
  rewrite <- (map_map Str.lower Str.upper ls),
          <- (map_map Str.lower Str.upper ls').
  now rewrite H.
Qed.

(** Two sets of criteria that differ by letter case only. *)
Definition same_letters (c c' : criteria) : Prop :=
  start_date c = start_date c'
  /\ end_date c = end_date c'
  /\ option_map (map Str.lower) (levels c)
     = option_map (map Str.lower) (levels c')
  /\ option_map (map Str.lower) (keywords c)
     = option_map (map Str.lower) (keywords c')
  /\ option_map Str.lower (source_filter c)
     = option_map Str.lower (source_filter c').

Lemma existsb_map {A B : Type} (f : A -> B) (p : B -> bool) (l : list A) :
  existsb p (map f l) = existsb (fun x => p (f x)) l.
Proof. induction l as [|x l IH]; cbn; [reflexivity|]. now rewrite IH. Qed.

Lemma level_test_letters (c c' : criteria) (e : LogEntry) :
  option_map (map Str.lower) (levels c)
  = option_map (map Str.lower) (levels c') ->
  level_test c e = level_test c' e.
Proof.
  unfold level_test.
  destruct (levels c) as [[|l ls]|], (levels c') as [[|l' ls']|];
    cbn [option_map map]; intros H; try discriminate; try reflexivity.
  injection H as H1 H2.
  assert (E : map Str.upper (l :: ls) = map Str.upper (l' :: ls')).
  { apply map_upper_lower. cbn [map]. now rewrite H1, H2. }
  cbn [map] in E. now rewrite E.
Qed.

Lemma keyword_test_letters (c c' : criteria) (e : LogEntry) :
  option_map (map Str.lower) (keywords c)
  = option_map (map Str.lower) (keywords c') ->
  keyword_test c e = keyword_test c' e.
Proof.
  unfold keyword_test.
  assert (K : forall kws,
             existsb (fun pattern =>
                        Py.is_some (Re.search pattern (message e)))
                     (map Re.escape_i kws)
             = existsb (Str.contains (Str.lower (message e)))
                       (map Str.lower kws)).
  { intros kws. rewrite keyword_test_meets, existsb_map. reflexivity. }
  destruct (keywords c) as [[|k ks]|], (keywords c') as [[|k' ks']|];
    cbn [option_map]; intros H; try discriminate; try reflexivity.
  injection H as H1 H2. rewrite !K. cbn [map]. now rewrite H1, H2.
Qed.

Lemma source_test_letters (c c' : criteria) (e : LogEntry) :
  option_map Str.lower (source_filter c)
  = option_map Str.lower (source_filter c') ->
  source_test c e = source_test c' e.
Proof.
  unfold source_test.
  destruct (source_filter c) as [[|x s]|], (source_filter c') as [[|x' s']|];
    cbn [option_map]; intros H; try discriminate; try reflexivity.
  assert (E : Str.lower (String x s) = Str.lower (String x' s'))
    by congruence.
  now rewrite E.
Qed.

(** X22.  The letter case of the requested levels, keywords and source
    text is irrelevant: two calls of [filter_entries] whose criteria differ
    by letter case only return the same result. *)
Theorem filter_entries_ignores_case (c c' : criteria) (self : LogAnalyzer) :
  same_letters c c' -> filter_entries c self = filter_entries c' self.
Proof.
  intros (Hs & He & Hl & Hk & Hsrc). rewrite !filter_entries_stages. f_equal.
  unfold stages, by_start, by_end. rewrite Hs, He.
  destruct (match start_date c' with Some _ => _ | None => _ end) as [l1|];
    [|reflexivity].
  cbn [bind].
  destruct (match end_date c' with Some _ => _ | None => _ end) as [l2|];
    [|reflexivity].
  cbn [bind]. f_equal.
  rewrite (filter_ext _ _ (fun e => level_test_letters c c' e Hl)).
  rewrite (filter_ext _ _ (fun e => keyword_test_letters c c' e Hk)).
  now rewrite (filter_ext _ _ (fun e => source_test_letters c c' e Hsrc)).
Qed.

Lemma filter_entries_ignores_case_witness :
  filter_entries (mkCriteria None None (Some ["error"]) (Some ["DISK"]) None)
                 two_records
  = filter_entries (mkCriteria None None (Some ["Error"]) (Some ["disk"]) None)
                   two_records.
Proof.
  apply filter_entries_ignores_case. repeat split.
Defined.

(** the criteria of [filter_entries(levels=['ERROR', 'FATAL'])] *)
Definition errors_only : criteria :=
  mkCriteria None None (Some ["ERROR"; "FATAL"]) None None.

(** X23.  The entries [filter_entries(levels=['ERROR', 'FATAL'])] returns
    are the ones the snapshot counts as errors: there are [error_count] of
    them, and the messages of the first ten are [top_error_messages]. *)
Theorem errors_filter_matches_snapshot (self : LogAnalyzer) (st : Statistics)
    (self' : LogAnalyzer) :
  generate_statistics self = (Ok (Some st), self') ->
  exists r,
    filter_entries errors_only self' = (Ok r, self')
    /\ length r = error_count st
    /\ map message (firstn 10 r) = top_error_messages st.
Proof.
  intros H. pose proof H as Hsnap.
  apply generate_statistics_snapshot in Hsnap
    as (first & last & _ & _ & Hne & ->).
  pose proof (generate_statistics_cases self Hne) as Hc. rewrite H in Hc.
  destruct Hc as (-> & _).
  exists (filter is_error (entries self)).
  split; [|split; reflexivity].
  rewrite filter_entries_stages. cbn [entries]. f_equal.
  unfold stages, by_start, by_end, level_test, keyword_test, source_test,
    errors_only.
  cbn [start_date end_date levels keywords source_filter bind].
  rewrite !filter_true. reflexivity.
Qed.

Lemma errors_filter_matches_snapshot_witness :
  exists st self' r,
    generate_statistics two_records = (Ok (Some st), self')
    /\ filter_entries errors_only self' = (Ok r, self')
    /\ length r = error_count st
    /\ map message (firstn 10 r) = top_error_messages st.
Proof.
  destruct (generate_statistics two_records) as [[[st|]|e] self'] eqn:H;
    try (vm_compute in H; discriminate H).
  destruct (errors_filter_matches_snapshot two_records st self' H)
    as (r & Hr).
  exists st, self', r. split; [reflexivity | exact Hr].
Defined.

End FilterCaseFacts.

(** ** Lines that match no pattern *)

Module UnformattedFacts.

Import Re LogParser LogParserFacts EntryFacts.



End UnformattedFacts.

(** ** What a pattern can match: lengths and characters by position *)

Module ShapeFacts.

Import Re ReFacts StrFacts.

(** the greatest length of a match, when there is one *)
Fixpoint maxlen (r : regex) : option nat :=
  match r with
  | Eps => Some 0%nat
  | Cls _ => Some 1%nat
  | Seq r1 r2 =>
      match maxlen r1, maxlen r2 with
      | Some a, Some b => Some (a + b)%nat
      | _, _ => None
      end
  | Alt r1 r2 =>
      match maxlen r1, maxlen r2 with
      | Some a, Some b => Some (Nat.max a b)
      | _, _ => None
      end
  | Opt r1 => maxlen r1
  | Star _ => None
  | Group _ r1 => maxlen r1
  end.

(** the lengths up to [k] a match of [r] may have *)
Fixpoint lens (r : regex) (k : nat) : list nat :=
  match r with
  | Eps => [0%nat]
  | Cls _ => if (1 <=? k)%nat then [1%nat] else []
  | Seq r1 r2 =>
      flat_map (fun n1 => List.map (Nat.add n1) (lens r2 (k - n1)))
               (lens r1 k)
  | Alt r1 r2 => (lens r1 k ++ lens r2 k)%list
  | Opt r1 => 0%nat :: lens r1 k
  | Star _ => seq 0 (S k)
  | Group _ r1 => lens r1 k
  end.

(** may [c] stand at index [k] of a match of [r] *)
Fixpoint at_index (r : regex) (k : nat) (c : ascii) : bool :=
  match r with
  | Eps => false
  | Cls p => (k =? 0)%nat && p c
  | Seq r1 r2 =>
      at_index r1 k c
      || existsb (fun n => at_index r2 (k - n) c) (lens r1 k)
  | Alt r1 r2 => at_index r1 k c || at_index r2 k c
  | Opt r1 => at_index r1 k c
  | Star p => p c
  | Group _ r1 => at_index r1 k c
  end.

(** may [c] stand anywhere in a match of [r] *)
Fixpoint accepts (r : regex) (c : ascii) : bool :=
  match r with
  | Eps => false
  | Cls p => p c
  | Seq r1 r2 => accepts r1 c || accepts r2 c
  | Alt r1 r2 => accepts r1 c || accepts r2 c
  | Opt r1 => accepts r1 c
  | Star p => p c
  | Group _ r1 => accepts r1 c
  end.

(** [v] has a length and characters a match of [r] may have *)
Definition fits (r : regex) (v : string) : Prop :=
  (forall k, (String.length v <= k)%nat -> In (String.length v) (lens r k))
  /\ (forall i c, String.get i v = Some c -> at_index r i c = true)
  /\ (forall n, maxlen r = Some n -> (String.length v <= n)%nat).

Lemma get_nil (i : nat) : String.get i "" = None.
Proof. now destruct i. Qed.

Lemma Matches_fits r s g s' g' :
  Matches r s g s' g' -> exists v, s = v ++ s' /\ fits r v.
Proof.
  induction 1 as [s g|p c s g Hp
                 |r1 r2 s g s1 g1 s2 g2 _ (v1 & -> & L1 & A1 & X1)
                                          _ (v2 & -> & L2 & A2 & X2)
                 |r1 r2 s g s' g' _ (v & -> & L & A & X)
                 |r1 r2 s g s' g' _ (v & -> & L & A & X)
                 |r s g s' g' _ (v & -> & L & A & X)
                 |r s g
                 |p s g
                 |p c s g s' Hp _ (v & -> & L & A & X)
                 |n r s g s' g' _ (v & -> & L & A & X)].
  - exists "". split; [reflexivity|]. repeat split.
    + intros k _. now left.
    + intros i c H. now rewrite get_nil in H.
    + intros n [= <-]. cbn. lia.
  - exists (String c ""). split; [reflexivity|]. repeat split.
    + intros k Hk. cbn in *. destruct k; [lia|]. now left.
    + intros [|i] x H; cbn in H.
      * injection H as <-. cbn. exact Hp.
      * discriminate H.
    + intros n [= <-]. cbn. lia.
  - exists (v1 ++ v2). split; [now rewrite append_assoc|]. repeat split.
    + intros k Hk. rewrite length_append in *. cbn [lens].
      apply in_flat_map. exists (String.length v1). split.
      * apply L1. lia.
      * apply in_map. apply L2. lia.
    + intros i c H. cbn [at_index]. apply orb_true_iff.
      destruct (lt_dec i (String.length v1)) as [Hi|Hi].
      * left. apply A1. now rewrite (String.append_correct1 v1 v2 i Hi).
      * right. apply existsb_exists. exists (String.length v1). split.
        -- apply L1. lia.
        -- apply A2. rewrite (String.append_correct2 v1 v2).
           now replace (i - String.length v1 + String.length v1)%nat
             with i by lia.
    + cbn [maxlen]. destruct (maxlen r1) as [a|], (maxlen r2) as [b|];
        try discriminate.
      intros n [= <-]. rewrite length_append.
      specialize (X1 a eq_refl). specialize (X2 b eq_refl). lia.
  - exists v. split; [reflexivity|]. repeat split.
    + intros k Hk. cbn [lens]. apply in_or_app. left. now apply L.
    + intros i c H. cbn [at_index]. rewrite (A i c H). reflexivity.
    + cbn [maxlen]. destruct (maxlen r1) as [a|], (maxlen r2) as [b|];
        try discriminate.
      intros n [= <-]. specialize (X a eq_refl). lia.
  - exists v. split; [reflexivity|]. repeat split.
    + intros k Hk. cbn [lens]. apply in_or_app. right. now apply L.
    + intros i c H. cbn [at_index]. rewrite (A i c H). apply orb_true_r.
    + cbn [maxlen]. destruct (maxlen r1) as [a|], (maxlen r2) as [b|];
        try discriminate.
      intros n [= <-]. specialize (X b eq_refl). lia.
  - exists v. split; [reflexivity|]. repeat split.
    + intros k Hk. cbn [lens]. right. now apply L.
    + exact A.
    + exact X.
  - exists "". split; [reflexivity|]. repeat split.
    + intros k _. now left.
    + intros i c H. now rewrite get_nil in H.
    + intros n Hn. cbn. lia.
  - exists "". split; [reflexivity|]. repeat split.
    + intros k _. cbn [lens]. apply in_seq. cbn. lia.
    + intros i c H. now rewrite get_nil in H.
    + discriminate.
  - exists (String c v). split; [reflexivity|]. repeat split.
    + intros k Hk. cbn [lens]. apply in_seq. cbn in *. lia.
    + intros [|i] x H; cbn in H.
      * injection H as <-. exact Hp.
      * exact (A i x H).
    + discriminate.
  - exists v. split; [reflexivity|]. repeat split; assumption.
Qed.

Lemma at_index_accepts (r : regex) (c : ascii) :
  forall k, at_index r k c = true -> accepts r c = true.
Proof.
  induction r as [|p|r1 IH1 r2 IH2|r1 IH1 r2 IH2|r IH|p|n r IH];
    cbn; intros k H; try discriminate; eauto.
  - now apply andb_prop in H.
  - apply orb_true_iff in H as [H|H]; apply orb_true_iff; eauto.
    apply existsb_exists in H as (n & _ & H). eauto.
  - apply orb_true_iff in H as [H|H]; apply orb_true_iff; eauto.
Qed.

(** *** Refuting [strptime] *)

(** may [c] stand at index [i] of a text in the format [fmt] *)
Definition allowed_at (fmt : string) (i : nat) (c : ascii) : bool :=
  match DT.format_regex false fmt with
  | Some r => at_index r i c
  | None => false
  end.

(** may [c] stand in a text in the format [fmt] *)
Definition allowed (fmt : string) (c : ascii) : bool :=
  match DT.format_regex false fmt with
  | Some r => accepts r c
  | None => false
  end.

Lemma strptime_fits (data fmt : string) (t : DT.datetime) :
  DT.strptime data fmt = Some t ->
  exists r, DT.format_regex false fmt = Some r /\ fits r data.
Proof.
  unfold DT.strptime.
  destruct (DT.format_regex false fmt) as [r|]; [|discriminate].
  destruct (match_ r data) as [m|] eqn:Hm; [|discriminate].
  destruct (String.eqb_spec (rest m) "") as [He|]; [|discriminate].
  intros _. exists r. split; [reflexivity|].
  apply match_sound in Hm. rewrite He in Hm.
  apply Matches_fits in Hm as (v & Hv & Hf).
  rewrite append_nil_r in Hv. now subst.
Qed.

Lemma strptime_index (data fmt : string) (i : nat) (c : ascii) :
  String.get i data = Some c -> allowed_at fmt i c = false ->
  DT.strptime data fmt = None.
Proof.
  intros Hg Ha. destruct (DT.strptime data fmt) as [t|] eqn:H;
    [|reflexivity].
  apply strptime_fits in H as (r & Hr & _ & A & _).
  unfold allowed_at in Ha. rewrite Hr in Ha. rewrite (A i c Hg) in Ha.
  discriminate Ha.
Qed.

Lemma strptime_char (data fmt : string) (i : nat) (c : ascii) :
  String.get i data = Some c -> allowed fmt c = false ->
  DT.strptime data fmt = None.
Proof.
  intros Hg Ha. destruct (DT.strptime data fmt) as [t|] eqn:H;
    [|reflexivity].
  apply strptime_fits in H as (r & Hr & _ & A & _).
  unfold allowed in Ha. rewrite Hr in Ha.
  rewrite (at_index_accepts r c i (A i c Hg)) in Ha. discriminate Ha.
Qed.

End ShapeFacts.

(** ** The timestamp of a syslog line *)

Module SyslogFacts.

Import Re ReFacts StrFacts LogParser LogParserFacts ShapeFacts.

(** the pattern of the group [timestamp] of [system_log] *)
Definition stamp : regex :=
  seqs [times 3 word; chr " "; Cls digit; upto 1 digit; chr " ";
        times 2 digit; chr ":"; times 2 digit; chr ":"; times 2 digit].

Ltac each_char c H :=
  destruct c as [[] [] [] [] [] [] [] []];
  first [reflexivity | vm_compute in H; discriminate H].

Lemma stamp_first (c : ascii) :
  at_index stamp 0 c = true ->
  Str.is_space c = false /\ Ascii.eqb c "#" = false.
Proof. intros H. split; each_char c H. Qed.

Lemma stamp_fourth (c : ascii) : at_index stamp 3 c = true -> c = " "%char.
Proof. intros H. each_char c H. Qed.

Lemma stamp_last (c : ascii) :
  at_index stamp 13 c = true \/ at_index stamp 14 c = true ->
  Str.is_space c = false.
Proof. intros [H|H]; each_char c H. Qed.

Lemma stamp_length (v : string) :
  fits stamp v -> String.length v = 14%nat \/ String.length v = 15%nat.
Proof.
  intros (L & _ & X). specialize (X 15%nat eq_refl).
  specialize (L 15%nat X). remember (String.length v) as len eqn:E.
  clear E X. vm_compute in L. intuition congruence.
Qed.

Lemma rstrip_last (s : string) :
  (forall c, String.get (String.length s - 1) s = Some c ->
             Str.is_space c = false) ->
  Str.rstrip s = s.
Proof.
  induction s as [|c s IH]; [reflexivity|]. intros H. cbn [Str.rstrip].
  destruct s as [|c' s'].
  - cbn. now rewrite (H c eq_refl).
  - rewrite IH; [reflexivity|]. intros x Hx. apply H.
    cbn in *. now rewrite Nat.sub_0_r in *.
Qed.

(** What the group [timestamp] of a syslog line looks like. *)
Lemma stamp_shape (ts : string) :
  fits stamp ts ->
  exists a b c tl,
    ts = String a (String b (String c (String " " tl)))
    /\ Str.is_space a = false /\ Ascii.eqb a "#" = false
    /\ Str.rstrip ts = ts.
Proof.
  intros Hf. pose proof (stamp_length ts Hf) as Hl.
  destruct Hf as (_ & A & _).
  assert (Hr : Str.rstrip ts = ts).
  { apply rstrip_last. intros x Hx. apply stamp_last.
    destruct Hl as [Hl|Hl]; rewrite Hl in Hx; apply A in Hx; auto. }
  destruct ts as [|a [|b [|c [|d tl]]]]; try (cbn in Hl; lia).
  assert (d = " "%char) as -> by (apply stamp_fourth, A; reflexivity).
  destruct (stamp_first a (A 0%nat a eq_refl)) as [Ha Hc].
  now exists a, b, c, tl.
Qed.

Lemma first_match_system (line : string) (m : match_obj) :
  first_match patterns line = Some ("system_log", m) ->
  match_ system_log line = Some m.
Proof.
  unfold patterns. cbn [first_match].
  destruct (match_ apache_access line); [discriminate|].
  destruct (match_ application_log line); [discriminate|].
  destruct (match_ system_log line); [now intros [= <-]|].
  destruct (match_ iis_log line); discriminate.
Qed.

(** A line the syslog pattern matches starts with the text of the group
    [timestamp]. *)
Lemma system_log_stamp (line : string) (m : match_obj) :
  match_ system_log line = Some m ->
  exists ts tail,
    line = ts ++ tail
    /\ get (groups m) "timestamp" = Some ts
    /\ fits stamp ts.
Proof.
  intros H. apply match_sound in H. destruct m as [rest g].
  cbn [Re.rest Re.groups] in *.
  unfold system_log in H. cbn [seqs] in H.
  inversion H as [| |r1 r2 s0 g0 s1 g1 s2 g2 H1 H2| | | | | | |]; subst;
    clear H.
  inversion H1 as [| | | | | | | | |n r s0 g0 s' g' Hin]; subst; clear H1.
  apply Matches_fits in Hin as (v & -> & Hf).
  rewrite consumed_append in H2.
  exists v, s1. split; [reflexivity|]. split; [|exact Hf].
  rewrite (CliFacts.Matches_get _ _ _ _ _ H2); [reflexivity|].
  cbn. intuition discriminate.
Qed.

(** *** No format reads it *)

Lemma try_formats_plain (fmt : string) (fmts : list string) (s : string) :
  Str.endswith fmt "%z" = false -> DT.strptime s fmt = None ->
  try_formats (fmt :: fmts) s = try_formats fmts s.
Proof. intros E H. cbn [try_formats]. rewrite E. cbn [andb]. now rewrite H. Qed.

(** the text after the first format that ends in [%z] *)
Definition suffixed (s : string) : string :=
  if negb (Str.contains s "+") && negb (Str.contains s "Z")
  then s ++ " +0000" else s.

Lemma try_formats_zone (fmt : string) (fmts : list string) (s : string) :
  Str.endswith fmt "%z" = true -> DT.strptime (suffixed s) fmt = None ->
  try_formats (fmt :: fmts) s = try_formats fmts (suffixed s).
Proof.
  intros E H. cbn [try_formats]. rewrite E. cbn [andb].
  unfold suffixed in *. now rewrite H.
Qed.

Lemma contains_char_get (s : string) (c : ascii) :
  Str.contains s (String c "") = true -> exists i, String.get i s = Some c.
Proof.
  induction s as [|x s IH]; cbn; [discriminate|].
  destruct (ascii_dec c x) as [->|_].
  - intros _. now exists 0%nat.
  - cbn. intros H. destruct (IH H) as [i Hi]. now exists (S i).
Qed.

(** That text holds a [+] or a [Z]. *)
Lemma suffixed_sign (s : string) :
  exists i c,
    String.get i (suffixed s) = Some c /\ (c = "+" \/ c = "Z")%char.
Proof.
  unfold suffixed.
  destruct (Str.contains s "+") eqn:Hp; cbn [negb andb].
  - apply contains_char_get in Hp as [i Hi]. exists i, "+"%char. auto.
  - destruct (Str.contains s "Z") eqn:Hz; cbn [negb].
    + apply contains_char_get in Hz as [i Hi]. exists i, "Z"%char. auto.
    + exists (1 + String.length s)%nat, "+"%char. split; [|auto].
      now rewrite <- (String.append_correct2 s " +0000" 1).
Qed.

Lemma suffixed_shape (a b c : ascii) (tl : string) :
  exists tl',
    suffixed (String a (String b (String c (String " " tl))))
    = String a (String b (String c (String " " tl'))).
Proof.
  unfold suffixed. destruct (_ && _); eexists; reflexivity.
Qed.

Lemma parse_digits_nondigit (s : string) (i : nat) (c : ascii) :
  (i < 4)%nat -> String.get i s = Some c -> Str.is_digit c = false ->
  DT.parse_digits s 0 4 = None.
Proof.
  intros Hi Hg Hd. unfold DT.parse_digits, DT.slice.
  cbn [Nat.add Nat.sub Str.drop].
  destruct s as [|c0 [|c1 [|c2 [|c3 s]]]]; try reflexivity.
  cbn [Str.take String.length Nat.eqb Str.forallb andb].
  destruct i as [|[|[|[|]]]]; try lia; cbn in Hg; injection Hg as <-;
    rewrite Hd;
    destruct (Str.is_digit c0), (Str.is_digit c1), (Str.is_digit c2),
             (Str.is_digit c3); try reflexivity; discriminate.
Qed.

(** [fromisoformat] wants four digits first. *)
Lemma fromisoformat_nondigit (s : string) (i : nat) (c : ascii) :
  (i < 4)%nat -> String.get i s = Some c -> Str.is_digit c = false ->
  DT.fromisoformat s = None.
Proof.
  intros Hi Hg Hd. unfold DT.fromisoformat.
  destruct (_ <? 7)%nat; [reflexivity|].
  destruct (DT.find_separator _ _); [|reflexivity].
  unfold DT.parse_isoformat_date.
  now rewrite (parse_digits_nondigit s i c Hi Hg Hd).
Qed.

Lemma replaced_nondigit (a b c : ascii) (tl : string) :
  exists i x,
    (i < 4)%nat
    /\ String.get i (Str.replace_char "Z" "+00:00"
                       (String a (String b (String c (String " " tl)))))
       = Some x
    /\ Str.is_digit x = false.
Proof.
  cbn [Str.replace_char].
  destruct (Ascii.eqb a "Z");
    [exists 0%nat, "+"%char; repeat split; lia|].
  destruct (Ascii.eqb b "Z");
    [exists 1%nat, "+"%char; repeat split; lia|].
  destruct (Ascii.eqb c "Z");
    [exists 2%nat, "+"%char; repeat split; lia|].
  exists 3%nat, " "%char. repeat split. lia.
Qed.

(** [parse_timestamp] answers [None] for the timestamp of every syslog
    line: the formats that start with the year or the day find the blank
    at index 3, the suffix added for [%z] (or a [Z] in the text) defeats
    [%b %d %H:%M:%S], and [fromisoformat] finds no year. *)
Lemma stamp_unparsed (ts : string) :
  fits stamp ts -> parse_timestamp ts = None.
Proof.
  intros Hf. destruct (stamp_shape ts Hf) as (a & b & c & tl & -> & Ha & _ & Hr).
  unfold parse_timestamp, Str.strip. cbn [Str.lstrip]. rewrite Ha, Hr.
  destruct (suffixed_sign (String a (String b (String c (String " " tl)))))
    as (i & x & Hi & Hx).
  destruct (suffixed_shape a b c tl) as [tl' Hs].
  unfold timestamp_formats.
  do 3 (rewrite try_formats_plain;
        [|reflexivity
         |apply (strptime_index _ _ 3 " "%char);
          [reflexivity | vm_compute; reflexivity]]).
  rewrite try_formats_zone;
    [|reflexivity
     |rewrite Hs; apply (strptime_index _ _ 3 " "%char);
      [reflexivity | vm_compute; reflexivity]].
  rewrite try_formats_plain;
    [|reflexivity
     |apply (strptime_char _ _ i x Hi);
      destruct Hx as [-> | ->]; vm_compute; reflexivity].
  rewrite Hs.
  do 2 (rewrite try_formats_plain;
        [|reflexivity
         |apply (strptime_index _ _ 3 " "%char);
          [reflexivity | vm_compute; reflexivity]]).
  cbn [try_formats].
  destruct (replaced_nondigit a b c tl') as (j & y & Hj & Hy & Hd).
  exact (fromisoformat_nondigit _ j y Hj Hy Hd).
Qed.

(** X25.  The time written in a syslog line never reaches its entry: for
    every line read by the pattern [system_log], [parse_timestamp] answers
    [None] for the group [timestamp], and the entry is stamped with the
    time of parsing.  Its level is [INFO]; source and message are the
    groups of the match. *)
Theorem system_log_timestamp (line : string) (n : Z) (now : DT.datetime)
    (m : match_obj) :
  first_match patterns (Str.strip line) = Some ("system_log", m) ->
  parse_timestamp (get_default (groups m) "timestamp" "") = None
  /\ exists e,
       parse_line line n now = Ok (Some e)
       /\ timestamp e = now
       /\ level e = "INFO"
       /\ source e = get_default (groups m) "source" ""
       /\ message e = get_default (groups m) "message" "".
Proof.
  intros H. set (s := Str.strip line) in *.
  pose proof (first_match_system s m H) as Hm.
  apply system_log_stamp in Hm as (ts & tail & Hl & Hg & Hf).
  assert (Hp : parse_timestamp (get_default (groups m) "timestamp" "") = None).
  { unfold get_default. rewrite Hg. now apply stamp_unparsed. }
  split; [exact Hp|].
  destruct (stamp_shape ts Hf) as (a & b & c & tl & -> & _ & Hc & _).
  assert (Hskip : String.eqb s "" || Str.startswith s "#" = false).
  { rewrite Hl. unfold Str.startswith.
    cbn [String.append String.eqb String.prefix orb].
    destruct (ascii_dec "#" a) as [<-|]; [discriminate Hc | reflexivity]. }
  unfold parse_line. fold s. rewrite Hskip, H.
  unfold entry_of_match. rewrite Hp. cbn [String.eqb Ascii.eqb Bool.eqb bind].
  eexists. split; [reflexivity|]. repeat split.
Qed.

Lemma system_log_timestamp_witness :
  exists m,
    first_match patterns
      (Str.strip
         "Jan 15 10:30:34 server01 apache[1234]: Configuration reloaded")
    = Some ("system_log", m)
    /\ parse_timestamp (get_default (groups m) "timestamp" "") = None
    /\ exists e,
         parse_line
           "Jan 15 10:30:34 server01 apache[1234]: Configuration reloaded"
           10 noon
         = Ok (Some e)
         /\ timestamp e = noon
         /\ level e = "INFO"
         /\ source e = get_default (groups m) "source" ""
         /\ message e = get_default (groups m) "message" "".
Proof.
  eexists. split; [vm_compute; reflexivity|].
  apply (system_log_timestamp
           "Jan 15 10:30:34 server01 apache[1234]: Configuration reloaded"
           10 noon).
  vm_compute. reflexivity.
Defined.

End SyslogFacts.

(** ** Entries of the application and IIS patterns *)

Module StructuredFacts.

Import Re ReFacts StrFacts LogParser LogParserFacts ShapeFacts.

(** A pattern that matches no empty text matches a text that starts with
    a character it allows first. *)
Lemma fits_first (r : regex) (v : string) :
  fits r v -> lens r 0 = [] ->
  exists c v', v = String c v' /\ at_index r 0 c = true.
Proof.
  intros (L & A & _) H0. destruct v as [|c v'].
  - specialize (L 0%nat (le_n 0)). cbn in L. rewrite H0 in L. destruct L.
  - exists c, v'. split; [reflexivity|]. now apply A.
Qed.

Ltac each_char c H :=
  destruct c as [[] [] [] [] [] [] [] []];
  first [reflexivity | vm_compute in H; discriminate H].

Lemma application_first (c : ascii) :
  at_index application_log 0 c = true -> Ascii.eqb c "#" = false.
Proof. intros H. each_char c H. Qed.

Lemma iis_first (c : ascii) :
  at_index iis_log 0 c = true -> Ascii.eqb c "#" = false.
Proof. intros H. each_char c H. Qed.

(** A line one of the two patterns matches is no blank and no comment. *)
Lemma matched_not_skipped (r : regex) (line : string) (m : match_obj) :
  match_ r line = Some m -> lens r 0 = [] ->
  (forall c, at_index r 0 c = true -> Ascii.eqb c "#" = false) ->
  String.eqb line "" || Str.startswith line "#" = false.
Proof.
  intros H H0 Hc. apply match_sound, Matches_fits in H as (v & -> & Hf).
  destruct (fits_first r v Hf H0) as (c & v' & -> & Ha).
  apply Hc in Ha. unfold Str.startswith.
  cbn [String.append String.eqb String.prefix orb].
  destruct (ascii_dec "#" c) as [<-|]; [discriminate Ha | reflexivity].
Qed.

Lemma first_match_application (line : string) (m : match_obj) :
  first_match patterns line = Some ("application_log", m) ->
  match_ application_log line = Some m.
Proof.
  unfold patterns. cbn [first_match].
  destruct (match_ apache_access line); [discriminate|].
  destruct (match_ application_log line); [now intros [= <-]|].
  destruct (match_ system_log line); [discriminate|].
  destruct (match_ iis_log line); discriminate.
Qed.

Lemma first_match_iis (line : string) (m : match_obj) :
  first_match patterns line = Some ("iis_log", m) ->
  match_ iis_log line = Some m.
Proof.
  unfold patterns. cbn [first_match].
  destruct (match_ apache_access line); [discriminate|].
  destruct (match_ application_log line); [discriminate|].
  destruct (match_ system_log line); [discriminate|].
  destruct (match_ iis_log line); [now intros [= <-]|discriminate].
Qed.

(** The groups of a match of the application pattern. *)
Lemma application_groups (line : string) (m : match_obj) :
  match_ application_log line = Some m ->
  exists ts lv msg,
    groups m = [("message", msg); ("level", lv); ("timestamp", ts)]
    /\ lv <> "" /\ Str.forallb Str.is_word lv = true.
Proof.
  intros H. apply match_sound in H. destruct m as [rest g].
  cbn [Re.rest Re.groups] in *.
  unfold application_log in H. cbn [seqs] in H.
  inv_seq. inv_group.
  match goal with
  | H : Matches (plus word) _ _ _ _ |- _ =>
      apply Matches_plus in H as (-> & lv & -> & Hne & Hw)
  end.
  repeat match goal with
  | H : Matches _ _ _ _ _ |- _ =>
      apply Matches_groupless in H; [subst | reflexivity]
  end.
  do 3 eexists. split; [reflexivity|]. rewrite consumed_append. auto.
Qed.

(** X26.  An entry of the pattern [application_log] takes as level the
    first run of word characters after the timestamp, whatever word it is,
    in upper case; its source is empty, since the pattern has no group
    [source]. *)
Theorem application_log_entry (line : string) (n : Z) (now : DT.datetime)
    (m : match_obj) :
  first_match patterns (Str.strip line) = Some ("application_log", m) ->
  exists e lv,
    parse_line line n now = Ok (Some e)
    /\ get (groups m) "level" = Some lv
    /\ lv <> "" /\ Str.forallb Str.is_word lv = true
    /\ level e = Str.upper lv
    /\ source e = ""
    /\ message e = get_default (groups m) "message" "".
Proof.
  intros H. pose proof (first_match_application _ _ H) as Hm.
  pose proof (matched_not_skipped _ _ _ Hm eq_refl application_first) as Hs.
  apply application_groups in Hm as (ts & lv & msg & Hg & Hne & Hw).
  unfold parse_line. rewrite Hs, H. unfold entry_of_match.
  cbn [String.eqb Ascii.eqb Bool.eqb bind]. rewrite Hg.
  eexists. exists lv. split; [reflexivity|]. repeat split; assumption.
Qed.

Lemma application_log_entry_witness :
  exists m,
    first_match patterns
      (Str.strip "2024-01-15 10:30:25 Connection refused by peer")
    = Some ("application_log", m)
    /\ exists e lv,
         parse_line "2024-01-15 10:30:25 Connection refused by peer" 5 noon
         = Ok (Some e)
         /\ get (groups m) "level" = Some lv
         /\ lv <> "" /\ Str.forallb Str.is_word lv = true
         /\ level e = Str.upper lv
         /\ source e = ""
         /\ message e = get_default (groups m) "message" "".
Proof.
  eexists. split; [vm_compute; reflexivity|].
  apply (application_log_entry
           "2024-01-15 10:30:25 Connection refused by peer" 5 noon).
  vm_compute. reflexivity.
Defined.

(** X27.  An entry of the pattern [iis_log] has the level [INFO] and an
    empty message and source, whatever the line holds: the pattern has no
    group [level], [message] or [source]. *)
Theorem iis_log_entry (line : string) (n : Z) (now : DT.datetime)
    (m : match_obj) :
  first_match patterns (Str.strip line) = Some ("iis_log", m) ->
  exists e,
    parse_line line n now = Ok (Some e)
    /\ level e = "INFO" /\ message e = "" /\ source e = "".
Proof.
  intros H. pose proof (first_match_iis _ _ H) as Hm.
  pose proof (matched_not_skipped _ _ _ Hm eq_refl iis_first) as Hs.
  apply match_sound in Hm.
  assert (Hg : forall x, ~ In x (CliFacts.names iis_log) ->
                         get (groups m) x = None).
  { intros x Hx. now rewrite (CliFacts.Matches_get _ _ _ _ _ Hm x Hx). }
  unfold parse_line. rewrite Hs, H. unfold entry_of_match, get_default.
  cbn [String.eqb Ascii.eqb Bool.eqb bind].
  rewrite (Hg "level"), (Hg "message"), (Hg "source");
    try (cbn; intuition discriminate).
  eexists. split; [reflexivity|]. repeat split.
Qed.

Lemma iis_log_entry_witness :
  exists m,
    first_match patterns
      (Str.strip
         "2024-01-15 10:30:25 ::1 GET /index.html - 80 - ::1 curl - 200 0 0 15")
    = Some ("iis_log", m)
    /\ exists e,
         parse_line
           "2024-01-15 10:30:25 ::1 GET /index.html - 80 - ::1 curl - 200 0 0 15"
           6 noon
         = Ok (Some e)
         /\ level e = "INFO" /\ message e = "" /\ source e = "".
Proof.
  eexists. split; [vm_compute; reflexivity|].
  eapply (iis_log_entry
            "2024-01-15 10:30:25 ::1 GET /index.html - 80 - ::1 curl - 200 0 0 15"
            6 noon).
  vm_compute. reflexivity.
Defined.

End StructuredFacts.

(** ** The timestamp of an access-log line *)

Module AccessStampFacts.

Import Re ReFacts StrFacts LogParser ShapeFacts SyslogFacts.

(** may [d] stand at a later index than [c] in a match of [r] *)
Fixpoint after (r : regex) (c d : ascii) : bool :=
  match r with
  | Eps => false
  | Cls _ => false
  | Seq r1 r2 =>
      after r1 c d || after r2 c d || (accepts r1 c && accepts r2 d)
  | Alt r1 r2 => after r1 c d || after r2 c d
  | Opt r1 => after r1 c d
  | Star p => p c && p d
  | Group _ r1 => after r1 c d
  end.

Definition all_ascii : list ascii := List.map ascii_of_nat (seq 0 256).

(** does every match of [r] hold a character of the class [q] *)
Fixpoint needs (r : regex) (q : ascii -> bool) : bool :=
  match r with
  | Eps => false
  | Cls p => List.forallb (fun c => implb (p c) (q c)) all_ascii
  | Seq r1 r2 => needs r1 q || needs r2 q
  | Alt r1 r2 => needs r1 q && needs r2 q
  | Opt _ => false
  | Star _ => false
  | Group _ r1 => needs r1 q
  end.

Lemma all_ascii_In (c : ascii) : In c all_ascii.
Proof.
  unfold all_ascii. rewrite <- (ascii_nat_embedding c).
  apply in_map, in_seq. pose proof (nat_ascii_bounded c). lia.
Qed.

Lemma append_cancel_r (a b s : string) : a ++ s = b ++ s -> a = b.
Proof.
  intros H. apply (f_equal (fun x => consumed x s)) in H.
  now rewrite !consumed_append in H.
Qed.

Lemma fits_of r s g s' g' (v : string) :
  Matches r s g s' g' -> s = v ++ s' -> fits r v.
Proof.
  intros M E. apply Matches_fits in M as (w & Ew & F).
  rewrite E in Ew. apply append_cancel_r in Ew. now subst.
Qed.

Lemma get_lt (s : string) :
  forall i c, String.get i s = Some c -> (i < String.length s)%nat.
Proof.
  induction s as [|x s IH]; intros [|i] c H; cbn in *; try discriminate;
    try lia.
  apply IH in H. lia.
Qed.

Lemma get_None (s : string) :
  forall i, String.get i s = None -> (String.length s <= i)%nat.
Proof.
  induction s as [|x s IH]; intros [|i] H; cbn in *; try discriminate;
    try lia.
  apply IH in H. lia.
Qed.

Lemma get_left (a b : string) (i : nat) (c : ascii) :
  String.get i a = Some c -> String.get i (a ++ b) = Some c.
Proof.
  intros H. now rewrite <- (String.append_correct1 a b i (get_lt a i c H)).
Qed.

Lemma get_right (a b : string) (i : nat) :
  String.get (String.length a + i) (a ++ b) = String.get i b.
Proof. now rewrite Nat.add_comm, <- String.append_correct2. Qed.

Lemma get_split (a b : string) (i : nat) (c : ascii) :
  String.get i (a ++ b) = Some c ->
  String.get i a = Some c
  \/ ((String.length a <= i)%nat
      /\ String.get (i - String.length a) b = Some c).
Proof.
  intros H. destruct (lt_dec i (String.length a)) as [Hi|Hi].
  - left. now rewrite (String.append_correct1 a b i Hi).
  - right. split; [lia|]. rewrite <- get_right with (a := a).
    now replace (String.length a + (i - String.length a))%nat with i by lia.
Qed.

Lemma Matches_after r s g s' g' :
  Matches r s g s' g' ->
  exists v, s = v ++ s'
    /\ forall i j c d, (i < j)%nat ->
         String.get i v = Some c -> String.get j v = Some d ->
         after r c d = true.
Proof.
  induction 1 as [s g|p c s g Hp
                 |r1 r2 s g s1 g1 s2 g2 M1 (v1 & E1 & B1) M2 (v2 & E2 & B2)
                 |r1 r2 s g s' g' _ (v & -> & B)
                 |r1 r2 s g s' g' _ (v & -> & B)
                 |r s g s' g' _ (v & -> & B)
                 |r s g
                 |p s g
                 |p c s g s' Hp M (v & E & B)
                 |n r s g s' g' _ (v & -> & B)].
  - exists "". split; [reflexivity|]. intros i j c d _ H. discriminate H.
  - exists (String c ""). split; [reflexivity|].
    intros i [|j] x d Hij _ H; [lia|]. discriminate H.
  - pose proof (fits_of _ _ _ _ _ v1 M1 E1) as (_ & A1 & _).
    pose proof (fits_of _ _ _ _ _ v2 M2 E2) as (_ & A2 & _).
    exists (v1 ++ v2). split; [subst; now rewrite append_assoc|].
    intros i j c d Hij Hc Hd. cbn [after].
    apply get_split in Hc as [Hc|[Hi Hc]];
      apply get_split in Hd as [Hd|[Hj Hd]].
    + now rewrite (B1 i j c d Hij Hc Hd).
    + apply A1, at_index_accepts in Hc. apply A2, at_index_accepts in Hd.
      rewrite Hc, Hd. now rewrite !orb_true_r.
    + apply get_lt in Hd. lia.
    + assert (Hlt : (i - String.length v1 < j - String.length v1)%nat)
        by lia.
      rewrite (B2 _ _ c d Hlt Hc Hd). now rewrite orb_true_r.
  - exists v. split; [reflexivity|]. intros i j c d Hij Hc Hd. cbn [after].
    now rewrite (B i j c d Hij Hc Hd).
  - exists v. split; [reflexivity|]. intros i j c d Hij Hc Hd. cbn [after].
    rewrite (B i j c d Hij Hc Hd). apply orb_true_r.
  - exists v. split; [reflexivity|]. exact B.
  - exists "". split; [reflexivity|]. intros i j c d _ H. discriminate H.
  - exists "". split; [reflexivity|]. intros i j c d _ H. discriminate H.
  - pose proof (fits_of _ _ _ _ _ v M E) as (_ & A & _).
    exists (String c v). split; [now subst|].
    intros [|i] [|j] x d Hij Hx Hd; try lia; cbn in Hx, Hd.
    + injection Hx as <-. apply A in Hd. cbn in Hd. cbn. now rewrite Hp, Hd.
    + apply (B i j x d); [lia | assumption | assumption].
  - exists v. split; [reflexivity|]. exact B.
Qed.

Lemma Matches_needs r s g s' g' :
  Matches r s g s' g' ->
  exists v, s = v ++ s'
    /\ forall q, needs r q = true ->
         exists i c, String.get i v = Some c /\ q c = true.
Proof.
  induction 1 as [s g|p c s g Hp
                 |r1 r2 s g s1 g1 s2 g2 _ (v1 & -> & B1) _ (v2 & -> & B2)
                 |r1 r2 s g s' g' _ (v & -> & B)
                 |r1 r2 s g s' g' _ (v & -> & B)
                 |r s g s' g' _ (v & -> & B)
                 |r s g
                 |p s g
                 |p c s g s' Hp _ (v & -> & B)
                 |n r s g s' g' _ (v & -> & B)].
  - exists "". split; [reflexivity|]. discriminate.
  - exists (String c ""). split; [reflexivity|]. intros q Hq. cbn [needs] in Hq.
    rewrite forallb_forall in Hq. specialize (Hq c (all_ascii_In c)).
    rewrite Hp in Hq. exists 0%nat, c. now split.
  - exists (v1 ++ v2). split; [now rewrite append_assoc|].
    intros q Hq. cbn [needs] in Hq. apply orb_true_iff in Hq as [Hq|Hq].
    + destruct (B1 q Hq) as (i & c & Hi & Hc). exists i, c.
      split; [now apply get_left | assumption].
    + destruct (B2 q Hq) as (i & c & Hi & Hc).
      exists (String.length v1 + i)%nat, c.
      split; [now rewrite get_right | assumption].
  - exists v. split; [reflexivity|]. intros q Hq. cbn [needs] in Hq.
    apply andb_prop in Hq as [Hq _]. auto.
  - exists v. split; [reflexivity|]. intros q Hq. cbn [needs] in Hq.
    apply andb_prop in Hq as [_ Hq]. auto.
  - exists v. split; [reflexivity|]. discriminate.
  - exists "". split; [reflexivity|]. discriminate.
  - exists "". split; [reflexivity|]. discriminate.
  - exists (String c v). split; [reflexivity|]. discriminate.
  - exists v. split; [reflexivity|]. exact B.
Qed.

Lemma fits_index (r : regex) (v : string) (i : nat) :
  fits r v -> lens r i = [] ->
  exists c, String.get i v = Some c /\ at_index r i c = true.
Proof.
  intros (L & A & _) H0. destruct (String.get i v) as [c|] eqn:E.
  - exists c. auto.
  - apply get_None in E. specialize (L i E). rewrite H0 in L. destruct L.
Qed.

Lemma strptime_matches (data fmt : string) (t : DT.datetime) :
  DT.strptime data fmt = Some t ->
  exists r g, DT.format_regex false fmt = Some r /\ Matches r data [] "" g.
Proof.
  unfold DT.strptime.
  destruct (DT.format_regex false fmt) as [r|]; [|discriminate].
  destruct (match_ r data) as [m|] eqn:Hm; [|discriminate].
  destruct (String.eqb_spec (rest m) "") as [He|]; [|discriminate].
  intros _. exists r, (groups m). split; [reflexivity|].
  apply match_sound in Hm. now rewrite He in Hm.
Qed.

Lemma get_contains (s : string) (c : ascii) :
  forall i, String.get i s = Some c -> Str.contains s (String c "") = true.
Proof.
  induction s as [|x s IH]; intros [|i] H; cbn in H; try discriminate.
  - injection H as ->. cbn. destruct (ascii_dec c c); [now destruct s|].
    congruence.
  - cbn. rewrite (IH i H). apply orb_true_r.
Qed.

Lemma replace_char_absent (c : ascii) (t s u : string) :
  Str.contains s (String c "") = false ->
  Str.replace_char c t (s ++ u) = s ++ Str.replace_char c t u.
Proof.
  induction s as [|x s IH]; [reflexivity|]. cbn.
  destruct (ascii_dec c x) as [->|Hx]; [now destruct s|]. cbn. intros H.
  destruct (Ascii.eqb_spec x c) as [->|_]; [congruence|].
  now rewrite IH.
Qed.

Lemma try_formats_found (fmt : string) (fmts : list string) (s : string)
    (t : DT.datetime) :
  Str.endswith fmt "%z" = true -> DT.strptime (suffixed s) fmt = Some t ->
  try_formats (fmt :: fmts) s = inl t.
Proof.
  intros E H. cbn [try_formats]. rewrite E. cbn [andb].
  unfold suffixed in *. now rewrite H.
Qed.

(** the format of the access-log timestamps *)
Definition access_format : string := "%d/%b/%Y:%H:%M:%S %z".

Ltac each_char c H :=
  destruct c as [[] [] [] [] [] [] [] []];
  first [reflexivity | vm_compute in H; discriminate H].

(** At index 4 an access-log timestamp has a letter of the month, where
    the formats that start with the year want a hyphen. *)
Lemma access_fifth (c : ascii) :
  allowed_at access_format 4 c = true ->
  List.forallb (fun fmt => negb (allowed_at fmt 4 c))
    ["%Y-%m-%d %H:%M:%S"; "%Y-%m-%d %H:%M:%S.%f"; "%Y-%m-%d %H:%M:%S,%f";
     "%Y-%m-%dT%H:%M:%S"; "%Y-%m-%dT%H:%M:%S.%fZ"] = true.
Proof. intros H. each_char c H. Qed.

Lemma access_first (c : ascii) :
  allowed_at access_format 0 c = true ->
  allowed_at "%b %d %H:%M:%S" 0 c = false.
Proof. intros H. each_char c H. Qed.

Lemma access_fourth (c : ascii) :
  allowed_at access_format 3 c = true -> Str.is_digit c = false.
Proof. intros H. each_char c H. Qed.

Lemma sign_cases (c : ascii) :
  one_of "+-Z" c = true -> (c = "+" \/ c = "-" \/ c = "Z")%char.
Proof.
  unfold one_of, Str.has_char. cbn [Str.forallb].
  destruct (Ascii.eqb_spec "+" c); auto.
  destruct (Ascii.eqb_spec "-" c); auto.
  destruct (Ascii.eqb_spec "Z" c); auto. discriminate.
Qed.

(** X28.  A timestamp in the format of the access logs is read exactly
    when it holds a [+] or a [Z]: with a negative offset, [parse_timestamp]
    appends [ +0000] for the format ending in [%z], no format and no
    [fromisoformat] reads the result, and the answer is [None]. *)
Theorem access_log_timestamp (ts : string) (t : DT.datetime) :
  DT.strptime (Str.strip ts) access_format = Some t ->
  parse_timestamp ts
  = if Str.contains (Str.strip ts) "+" || Str.contains (Str.strip ts) "Z"
    then Some t else None.
Proof.
  intros H. set (s := Str.strip ts) in *.
  destruct (strptime_matches _ _ _ H) as (r & g & Hr & M).
  assert (F : fits r s).
  { apply (fits_of _ _ _ _ _ s M). now rewrite append_nil_r. }
  assert (Hat : forall i c, at_index r i c = allowed_at access_format i c).
  { intros i c. unfold allowed_at. now rewrite Hr. }
  assert (Hlens : forall i, (i <= 4)%nat -> lens r i = []).
  { assert (E : forall i, match DT.format_regex false access_format with
                          | Some r => lens r i
                          | None => []
                          end = lens r i) by (intros i; now rewrite Hr).
    intros i Hi. rewrite <- E.
    destruct i as [|[|[|[|[|i]]]]]; try lia; vm_compute; reflexivity. }
  destruct (fits_index r s 0 F (Hlens 0%nat ltac:(lia))) as (c0 & G0 & A0).
  destruct (fits_index r s 3 F (Hlens 3%nat ltac:(lia))) as (c3 & G3 & A3).
  destruct (fits_index r s 4 F (Hlens 4%nat ltac:(lia))) as (c4 & G4 & A4).
  rewrite Hat in A0, A3, A4.
  pose proof (access_fifth c4 A4) as H4. cbn [List.forallb] in H4.
  repeat (apply andb_prop in H4 as [?%negb_true_iff H4]).
  unfold parse_timestamp. fold s. unfold timestamp_formats.
  do 3 (rewrite try_formats_plain;
        [|reflexivity | now apply (strptime_index _ _ 4 c4)]).
  destruct (Str.contains s "+") eqn:Hp;
    [cbn [orb]; rewrite (try_formats_found _ _ _ t); [reflexivity..|];
     unfold suffixed; now rewrite Hp|].
  destruct (Str.contains s "Z") eqn:Hz;
    [cbn [orb]; rewrite (try_formats_found _ _ _ t); [reflexivity..|];
     unfold suffixed; now rewrite Hp, Hz|].
  cbn [orb].
  assert (Hs : suffixed s = s ++ " +0000")
    by (unfold suffixed; now rewrite Hp, Hz).
  (* the suffixed text is not in the format *)
  assert (Hzone : DT.strptime (suffixed s) access_format = None).
  { rewrite Hs.
    destruct (DT.strptime (s ++ " +0000") access_format) as [t'|] eqn:H';
      [|reflexivity].
    exfalso. destruct (strptime_matches _ _ _ H') as (r' & g' & Hr' & M').
    unfold access_format in Hr, Hr'. rewrite Hr in Hr'. injection Hr' as <-.
    apply Matches_needs in M as (v & Ev & N).
    rewrite append_nil_r in Ev. subst v.
    destruct (N (one_of "+-Z")) as (i & c & Gi & Hc).
    { assert (E : match DT.format_regex false access_format with
                  | Some r => needs r (one_of "+-Z")
                  | None => false
                  end = true) by (vm_compute; reflexivity).
      unfold access_format in E. now rewrite Hr in E. }
    apply sign_cases in Hc as [-> | [-> | ->]];
      [apply get_contains in Gi; congruence | |
       apply get_contains in Gi; congruence].
    apply Matches_after in M' as (v & Ev & B).
    rewrite append_nil_r in Ev. subst v.
    assert (E : match DT.format_regex false access_format with
                | Some r => after r "-" "+"
                | None => false
                end = false) by (vm_compute; reflexivity).
    unfold access_format in E. rewrite Hr in E.
    rewrite (B i (String.length s + 1)%nat "-"%char "+"%char) in E.
    - discriminate E.
    - apply get_lt in Gi. lia.
    - now apply get_left.
    - now rewrite get_right. }
  rewrite try_formats_zone; [|reflexivity | exact Hzone].
  rewrite Hs.
  rewrite try_formats_plain;
    [|reflexivity
     |apply (strptime_index _ _ 0 c0);
      [now apply get_left | now apply access_first]].
  do 2 (rewrite try_formats_plain;
        [|reflexivity
         |apply (strptime_index _ _ 4 c4); [now apply get_left | assumption]]).
  cbn [try_formats]. rewrite (replace_char_absent _ _ _ _ Hz).
  apply (fromisoformat_nondigit _ 3 c3); [lia | now apply get_left |].
  now apply access_fourth.
Qed.

Lemma access_log_timestamp_witness :
  exists t,
    DT.strptime (Str.strip "15/Jan/2024:10:30:31 -0700") access_format
    = Some t
    /\ parse_timestamp "15/Jan/2024:10:30:31 -0700"
       = if Str.contains (Str.strip "15/Jan/2024:10:30:31 -0700") "+"
            || Str.contains (Str.strip "15/Jan/2024:10:30:31 -0700") "Z"
         then Some t else None.
Proof.
  eexists. split; [vm_compute; reflexivity|].
  apply (access_log_timestamp "15/Jan/2024:10:30:31 -0700").
  vm_compute. reflexivity.
Defined.

End AccessStampFacts.

(** ** What [parse_line] answers, line by line *)

Module OutcomeFacts.

Import Re LogParser LogParserFacts EntryFacts.

(** X29.  On ASCII text [parse_line] has three outcomes.  A line that is
    blank or a comment once trimmed gets [None].  An access-log line whose
    status has more digits than [int()] converts makes [parse_line] raise
    [ValueError].  Every other line gets an entry, through the first
    pattern that matches, else through the severity keyword found in it,
    else through the catch-all.  [parse_line] raises nothing else. *)
Theorem parse_line_outcome (line : string) (n : Z) (now : DT.datetime) :
  Str.is_ascii line = true ->
  (skipped line = true -> parse_line line n now = Ok None)
  /\ (skipped line = false -> overlong line = true ->
      parse_line line n now = Raise ValueError)
  /\ (skipped line = false -> overlong line = false ->
      exists e, parse_line line n now = Ok (Some e)
                /\ classified (Str.strip line) n now e)
  /\ (forall e, parse_line line n now = Raise e ->
                e = ValueError
                /\ exists m status,
                     match_ apache_access (Str.strip line) = Some m
                     /\ get (groups m) "status" = Some status
                     /\ (4300 < String.length status)%nat).
Proof.
  intros _. unfold skipped.
  destruct (parse_line_cases line n now)
    as [[Hs H]|[(Hs & Ho & H)|(Hs & Ho & H)]]; cbn zeta in Hs; rewrite Hs.
  - split; [intros _; exact H|]. split; [discriminate|].
    split; [discriminate|]. intros e He. rewrite H in He. discriminate He.
  - split; [discriminate|]. split; [intros _ _; exact H|].
    split; [intros _ Ho'; congruence|].
    intros e He. rewrite H in He. injection He as <-.
    split; [reflexivity|]. unfold overlong in Ho.
    destruct (match_ apache_access (Str.strip line)) as [m|] eqn:Hm;
      [|discriminate Ho].
    destruct (apache_entry _ _ n now Hm)
      as (ts & method & url & status & _ & _ & Hst & _).
    exists m, status. split; [reflexivity|]. split; [exact Hst|].
    unfold get_default in Ho. rewrite Hst in Ho. unfold Str.too_long in Ho.
    apply N.ltb_lt in Ho. lia.
  - split; [discriminate|]. split; [intros _ Ho'; congruence|].
    split; [intros _ _; exact H|].
    intros x Hx. destruct H as (e & He & _). rewrite He in Hx.
    discriminate Hx.
Qed.

Lemma parse_line_outcome_witness :
  exists e, parse_line "disk almost full" 7 noon = Ok (Some e)
            /\ classified (Str.strip "disk almost full") 7 noon e.
Proof.
  destruct (parse_line_outcome "disk almost full" 7 noon eq_refl)
    as (_ & _ & H & _).
  apply H; reflexivity.
Defined.

End OutcomeFacts.
